(** * GastoSmart backend: savings goals, contributions and goal statistics

    A shallow embedding of the goal subsystem of the GastoSmart backend:

    - [models/goal.py]: the pydantic models and [Goal.calculate_progress];
    - [database/goal_operations.py]: [GoalOperations] ([create_goal],
      [update_goal], [contribute_to_main_goal], [contribute_to_goal],
      [get_goal_stats]);
    - [routers/goals.py]: the FastAPI handlers [contribute_to_main_goal],
      [contribute_to_goal] and [set_goal_as_main];
    - concurrent contribute calls, as interleavings of the store operations
      the coroutines await.

    Modelling choices.

    - Amounts and percentages are Python floats in the source.  In the
      first part they are modelled by exact rationals [Q]; [==] on floats
      is [Qeq].  True division raises [ZeroDivisionError] on a zero
      divisor, as in Python.  Where a property turns on rounding, on
      infinities or on NaN, the second part ([Binary64]) has the same
      functions on binary64 values, and the property is stated there.
    - A MongoDB collection is the list of its documents in natural order;
      [find_one] and [update_one] act on the first document matching the
      filter.  [modified_count] counts documents whose content changed.
    - Python exceptions are the [Raises] outcome of a state-passing monad;
      a raise keeps the writes already done (there is no transaction).
    - [datetime.now()] is an argument [now] of each operation. *)

From Stdlib Require Import QArith Qminmax Lqa ZArith List String Ascii Bool Lia.
From Stdlib Require Import Sorted Permutation.
From Stdlib Require Import Floats.
Import ListNotations.
Open Scope Q_scope.

(** Decimal literals of binary64 values stand for the nearest value. *)
Set Warnings "-inexact-float".

(** ** Python values *)

(** [a > b] on floats. *)
Definition Qgt_bool (a b : Q) : bool := negb (Qle_bool a b).

(** Python's [min(a, b)]: the first argument unless the second is smaller. *)
Definition py_min (a b : Q) : Q := if Qgt_bool a b then b else a.

(** [x or default] on an optional string: [None] and the empty string are falsy. *)
Definition str_or (x : option string) (default : string) : string :=
  match x with
  | Some s => if String.eqb s "" then default else s
  | None => default
  end.

(** [len(s)] on a [str]: Python counts characters.  The string here holds
    their UTF-8 bytes, of which those of the form 10xxxxxx continue a
    character. *)
Definition py_len (s : string) : nat :=
  List.length
    (filter (fun c => negb ((128 <=? nat_of_ascii c) && (nat_of_ascii c <? 192))%nat)
            (list_ascii_of_string s)).

Definition option_eqb {A : Type} (eqb : A -> A -> bool) (x y : option A) : bool :=
  match x, y with
  | Some a, Some b => eqb a b
  | None, None => true
  | _, _ => false
  end.

(** A [date] is a day number; a [datetime] is a day and a time of day. *)
Definition date : Type := Z.

Bind Scope Z_scope with date.

Record datetime : Type := mk_datetime { dt_date : date; dt_time : Z }.

(** [datetime.combine(d, t.time())]. *)
Definition datetime_combine (d : date) (t : datetime) : datetime :=
  {| dt_date := d; dt_time := dt_time t |}.

Definition datetime_eqb (a b : datetime) : bool :=
  Z.eqb (dt_date a) (dt_date b) && Z.eqb (dt_time a) (dt_time b).

(** ** Exceptions and the operation monad *)

(** The text of an exception.  The capacity check formats the attempted and
    the remaining amount into its message (an f-string); the two amounts are
    kept as such, as rationals or as binary64 values. *)
Inductive message : Type :=
| Text (s : string)
| ExceedsRemaining (attempted remaining : Q)
| ExceedsRemaining64 (attempted remaining : float).

Inductive exn : Type :=
| ValueError (m : message)
| ZeroDivisionError
| TypeError
| InvalidId
| DuplicateKeyError
| ServerSelectionTimeoutError
| HTTPException (status_code : Z) (detail : message).

Inductive outcome (A : Type) : Type :=
| Returns (a : A)
| Raises (e : exn).

Arguments Returns {A} a.
Arguments Raises {A} e.

(** An operation over a store [S]: it ends by returning or by raising, and
    in both cases hands back the store as it left it. *)
Definition Op (S A : Type) : Type := S -> outcome A * S.

Definition ret {S A : Type} (a : A) : Op S A := fun s => (Returns a, s).

Definition raise {S A : Type} (e : exn) : Op S A := fun s => (Raises e, s).

Definition bind {S A B : Type} (c : Op S A) (k : A -> Op S B) : Op S B :=
  fun s =>
    match c s with
    | (Returns a, s') => k a s'
    | (Raises e, s') => (Raises e, s')
    end.

(** [try: c  except Exception as e: h e]. *)
Definition try_except {S A : Type} (c : Op S A) (h : exn -> Op S A) : Op S A :=
  fun s =>
    match c s with
    | (Returns a, s') => (Returns a, s')
    | (Raises e, s') => h e s'
    end.

(** A computation without access to the store that may raise. *)
Definition lift {S A : Type} (o : outcome A) : Op S A := fun s => (o, s).

Notation "x <- c ;; k" := (bind c (fun x => k))
  (at level 61, c at next level, right associativity).

(** True division [a / b]. *)
Definition truediv (a b : Q) : outcome Q :=
  if Qeq_bool b 0 then Raises ZeroDivisionError else Returns (a / b).

(** ** models/goal.py *)

Inductive GoalStatus : Type := ACTIVE | COMPLETED | FAILED | ARCHIVED.

Inductive GoalCategory : Type :=
| EMERGENCY_FUND | VACATION | EDUCATION | HOME | VEHICLE | TECHNOLOGY
| HEALTH | WEDDING | RETIREMENT | SAVINGS | INVESTMENTS | OTHER.

Scheme Equality for GoalStatus.
Scheme Equality for GoalCategory.

Definition GoalCategory_value (c : GoalCategory) : string :=
  match c with
  | EMERGENCY_FUND => "Fondo de Emergencia"
  | VACATION => "Viajes"
  | EDUCATION => "Educación"
  | HOME => "Vivienda"
  | VEHICLE => "Vehículo"
  | TECHNOLOGY => "Tecnología"
  | HEALTH => "Salud"
  | WEDDING => "Boda"
  | RETIREMENT => "Jubilación"
  | SAVINGS => "Ahorros"
  | INVESTMENTS => "Inversiones"
  | OTHER => "Otros"
  end.

(** [class Goal(BaseModel)]: the two amounts are all [calculate_progress]
    reads. *)
Module GoalModel.

Record t : Type := mk {
  target_amount : Q;
  current_amount : Q
}.

(** [Field(..., gt=0)] and [validate_target_amount]. *)
Definition validate_target_amount (v : Q) : bool := Qgt_bool v 0.

(** [Field(default=0.0, ge=0)] and [validate_current_amount]:
    "El monto actual no puede ser mayor al objetivo". *)
Definition validate_current_amount (v target : Q) : bool :=
  Qle_bool 0 v && negb (Qgt_bool v target).

Definition validate (g : t) : bool :=
  validate_target_amount (target_amount g)
  && validate_current_amount (current_amount g) (target_amount g).

(** [Goal.calculate_progress]. *)
Definition calculate_progress (self : t) : Q :=
  if Qeq_bool (target_amount self) 0 then 0
  else py_min ((current_amount self / target_amount self) * 100) 100.

End GoalModel.

Module GoalCreate.

Record t : Type := mk {
  name : string;
  description : option string;
  category : GoalCategory;
  target_amount : Q;
  current_amount : Q;
  target_date : date;
  currency : string;
  is_public : bool;
  is_main : bool
}.

(** The field constraints and validators of [GoalCreate]. *)
Definition validate (today : date) (v : t) : bool :=
  (1 <=? py_len (name v))%nat && (py_len (name v) <=? 100)%nat
  && match description v with
     | Some d => (py_len d <=? 500)%nat
     | None => true
     end
  && Qgt_bool (target_amount v) 0
  && Qle_bool 0 (current_amount v)
  && (today <? target_date v)%Z.

End GoalCreate.

Module GoalUpdate.

Record t : Type := mk {
  name : option string;
  description : option string;
  category : option GoalCategory;
  target_amount : option Q;
  current_amount : option Q;
  target_date : option date;
  status : option GoalStatus;
  is_public : option bool;
  is_main : option bool
}.

Definition holds {A : Type} (p : A -> bool) (x : option A) : bool :=
  match x with
  | Some a => p a
  | None => true
  end.

(** The field constraints and validators of [GoalUpdate]. *)
Definition validate (today : date) (v : t) : bool :=
  holds (fun s => (1 <=? py_len s)%nat && (py_len s <=? 100)%nat) (name v)
  && holds (fun s => (py_len s <=? 500)%nat) (description v)
  && holds (fun q => Qgt_bool q 0) (target_amount v)
  && holds (fun q => Qle_bool 0 q) (current_amount v)
  && holds (fun d => (today <? d)%Z) (target_date v).

End GoalUpdate.

Module GoalContribution.

Record t : Type := mk {
  amount : Q;
  description : option string;
  contribution_date : option date
}.

(** [Field(..., gt=0)], [validate_amount] and [validate_contribution_date]. *)
Definition validate (today : date) (v : t) : bool :=
  Qgt_bool (amount v) 0
  && negb (Qgt_bool (amount v) 1000000000)
  && GoalUpdate.holds (fun s => (py_len s <=? 200)%nat) (description v)
  && GoalUpdate.holds (fun d => negb (today <? d)%Z) (contribution_date v).

End GoalContribution.

Module GoalResponse.

Record t : Type := mk {
  id : string;
  user_id : string;
  name : string;
  description : option string;
  category : GoalCategory;
  target_amount : Q;
  current_amount : Q;
  target_date : date;
  created_at : datetime;
  updated_at : option datetime;
  status : GoalStatus;
  progress_percentage : Q;
  currency : string;
  is_public : bool;
  is_main : bool
}.

End GoalResponse.

Module GoalStats.

Record t : Type := mk {
  total_saved : Q;
  active_goals_count : Z;
  completed_goals_count : Z;
  failed_goals_count : Z;
  total_goals_count : Z;
  average_progress : Q;
  total_target_amount : Q
}.

(** [GoalStats()]: every field at its default. *)
Definition default : t := mk 0 0 0 0 0 0 0.

End GoalStats.

(** ** The document store (MongoDB through motor) *)

(** A BSON object id, kept as its 24 hexadecimal digits in lower case. *)
Definition oid : Type := string.

Bind Scope string_scope with oid.

Definition is_hex_digit (c : ascii) : bool :=
  let n := nat_of_ascii c in
  ((48 <=? n) && (n <=? 57) || (97 <=? n) && (n <=? 102) || (65 <=? n) && (n <=? 70))%nat.

Definition lower_hex (c : ascii) : ascii :=
  let n := nat_of_ascii c in
  if ((65 <=? n) && (n <=? 70))%nat then ascii_of_nat (n + 32) else c.

(** [ObjectId(s)] on a string: 24 hexadecimal digits, [InvalidId] otherwise.
    bson also lets through a string of 24 characters with white space
    between its pairs of digits, as an id of fewer than 12 bytes, which no
    stored document has.  Every use of [ObjectId] below is inside a [try]
    whose handler gives the answer of a goal that is not found, so that
    case ends as [InvalidId] does; it is taken as [InvalidId]. *)
Definition ObjectId (s : string) : outcome oid :=
  if (String.length s =? 24)%nat && forallb is_hex_digit (list_ascii_of_string s)
  then Returns (string_of_list_ascii (map lower_hex (list_ascii_of_string s)))
  else Raises InvalidId.

(** [str(oid)]. *)
Definition str_of_oid (o : oid) : string := o.

(** A document of the [goals] collection, with the keys [create_goal] writes. *)
Module Doc.

Record t : Type := mk {
  _id : oid;
  user_id : string;
  name : string;
  description : option string;
  category : GoalCategory;
  target_amount : Q;
  current_amount : Q;
  target_date : date;
  currency : string;
  is_public : bool;
  is_main : bool;
  status : GoalStatus;
  created_at : datetime;
  updated_at : option datetime;
  progress_percentage : Q
}.

(** One key of a [$set] document with its new value. *)
Inductive assignment : Type :=
| set_name (v : string)
| set_description (v : string)
| set_category (v : GoalCategory)
| set_target_amount (v : Q)
| set_current_amount (v : Q)
| set_target_date (v : date)
| set_status (v : GoalStatus)
| set_is_public (v : bool)
| set_is_main (v : bool)
| set_updated_at (v : datetime)
| set_progress_percentage (v : Q).

Definition assign (a : assignment) (d : t) : t :=
  match a with
  | set_name v =>
      mk (_id d) (user_id d) v (description d) (category d) (target_amount d)
         (current_amount d) (target_date d) (currency d) (is_public d) (is_main d)
         (status d) (created_at d) (updated_at d) (progress_percentage d)
  | set_description v =>
      mk (_id d) (user_id d) (name d) (Some v) (category d) (target_amount d)
         (current_amount d) (target_date d) (currency d) (is_public d) (is_main d)
         (status d) (created_at d) (updated_at d) (progress_percentage d)
  | set_category v =>
      mk (_id d) (user_id d) (name d) (description d) v (target_amount d)
         (current_amount d) (target_date d) (currency d) (is_public d) (is_main d)
         (status d) (created_at d) (updated_at d) (progress_percentage d)
  | set_target_amount v =>
      mk (_id d) (user_id d) (name d) (description d) (category d) v
         (current_amount d) (target_date d) (currency d) (is_public d) (is_main d)
         (status d) (created_at d) (updated_at d) (progress_percentage d)
  | set_current_amount v =>
      mk (_id d) (user_id d) (name d) (description d) (category d) (target_amount d)
         v (target_date d) (currency d) (is_public d) (is_main d)
         (status d) (created_at d) (updated_at d) (progress_percentage d)
  | set_target_date v =>
      mk (_id d) (user_id d) (name d) (description d) (category d) (target_amount d)
         (current_amount d) v (currency d) (is_public d) (is_main d)
         (status d) (created_at d) (updated_at d) (progress_percentage d)
  | set_status v =>
      mk (_id d) (user_id d) (name d) (description d) (category d) (target_amount d)
         (current_amount d) (target_date d) (currency d) (is_public d) (is_main d)
         v (created_at d) (updated_at d) (progress_percentage d)
  | set_is_public v =>
      mk (_id d) (user_id d) (name d) (description d) (category d) (target_amount d)
         (current_amount d) (target_date d) (currency d) v (is_main d)
         (status d) (created_at d) (updated_at d) (progress_percentage d)
  | set_is_main v =>
      mk (_id d) (user_id d) (name d) (description d) (category d) (target_amount d)
         (current_amount d) (target_date d) (currency d) (is_public d) v
         (status d) (created_at d) (updated_at d) (progress_percentage d)
  | set_updated_at v =>
      mk (_id d) (user_id d) (name d) (description d) (category d) (target_amount d)
         (current_amount d) (target_date d) (currency d) (is_public d) (is_main d)
         (status d) (created_at d) (Some v) (progress_percentage d)
  | set_progress_percentage v =>
      mk (_id d) (user_id d) (name d) (description d) (category d) (target_amount d)
         (current_amount d) (target_date d) (currency d) (is_public d) (is_main d)
         (status d) (created_at d) (updated_at d) v
  end.

(** [{"$set": update_doc}] applied to a document. *)
Definition set (update_doc : list assignment) (d : t) : t :=
  fold_left (fun d' a => assign a d') update_doc d.

(** Two documents hold the same values. *)
Definition same (a b : t) : bool :=
  String.eqb (_id a) (_id b)
  && String.eqb (user_id a) (user_id b)
  && String.eqb (name a) (name b)
  && option_eqb String.eqb (description a) (description b)
  && GoalCategory_beq (category a) (category b)
  && Qeq_bool (target_amount a) (target_amount b)
  && Qeq_bool (current_amount a) (current_amount b)
  && Z.eqb (target_date a) (target_date b)
  && String.eqb (currency a) (currency b)
  && Bool.eqb (is_public a) (is_public b)
  && Bool.eqb (is_main a) (is_main b)
  && GoalStatus_beq (status a) (status b)
  && datetime_eqb (created_at a) (created_at b)
  && option_eqb datetime_eqb (updated_at a) (updated_at b)
  && Qeq_bool (progress_percentage a) (progress_percentage b).

End Doc.

(** A document of the [transactions] collection, as the contribution writes it. *)
Module TransactionDoc.

Record t : Type := mk {
  user_id : string;
  type : string;
  amount : Q;
  category : string;
  description : string;
  date : datetime;
  created_at : datetime;
  currency : string;
  goal_id : string;
  goal_name : string
}.

End TransactionDoc.

Record UpdateResult : Type := mk_result { matched_count : nat; modified_count : nat }.

(** The goals collection: its documents in natural order. *)
Module Collection.

Definition t : Type := list Doc.t.

Definition find_one (flt : Doc.t -> bool) (c : t) : option Doc.t := find flt c.

(** The document after a [$set], and whether it changed. *)
Definition write (update_doc : list Doc.assignment) (d : Doc.t) : Doc.t * nat :=
  if Doc.same (Doc.set update_doc d) d then (d, 0%nat) else (Doc.set update_doc d, 1%nat).

Fixpoint update_one (flt : Doc.t -> bool) (update_doc : list Doc.assignment) (c : t)
  : t * UpdateResult :=
  match c with
  | [] => ([], mk_result 0 0)
  | d :: rest =>
      if flt d then
        (fst (write update_doc d) :: rest, mk_result 1 (snd (write update_doc d)))
      else
        (d :: fst (update_one flt update_doc rest), snd (update_one flt update_doc rest))
  end.

Fixpoint update_many (flt : Doc.t -> bool) (update_doc : list Doc.assignment) (c : t)
  : t * UpdateResult :=
  match c with
  | [] => ([], mk_result 0 0)
  | d :: rest =>
      let r := update_many flt update_doc rest in
      if flt d then
        (fst (write update_doc d) :: fst r,
         mk_result (S (matched_count (snd r))) (snd (write update_doc d) + modified_count (snd r)))
      else (d :: fst r, snd r)
  end.

(** [insert_one]: the [_id] index is unique. *)
Definition insert_one (doc : Doc.t) (c : t) : outcome oid * t :=
  if existsb (fun d => String.eqb (Doc._id d) (Doc._id doc)) c
  then (Raises DuplicateKeyError, c)
  else (Returns (Doc._id doc), c ++ [doc]).

End Collection.

(** The transactions collection; an insert raises while the store is not
    reachable. *)
Record TransactionsCollection : Type := mk_transactions {
  documents : list TransactionDoc.t;
  reachable : bool
}.

(** Query filters. *)

(** [{"_id": o, "user_id": u}] *)
Definition by_id_and_user (o : oid) (u : string) (d : Doc.t) : bool :=
  String.eqb (Doc._id d) o && String.eqb (Doc.user_id d) u.

(** [{"_id": o}] *)
Definition by_id (o : oid) (d : Doc.t) : bool := String.eqb (Doc._id d) o.

(** [{"user_id": u, "is_main": True}] *)
Definition main_of_user (u : string) (d : Doc.t) : bool :=
  String.eqb (Doc.user_id d) u && Doc.is_main d.

(** [{"user_id": u}] *)
Definition of_user (u : string) (d : Doc.t) : bool := String.eqb (Doc.user_id d) u.

(** ** database/goal_operations.py *)

Module GoalOperations.

(** [self]: the goals collection and the optional transactions collection. *)
Record self : Type := mk {
  collection : Collection.t;
  transactions_collection : option TransactionsCollection
}.

(** [await self.collection.find_one(flt)] *)
Definition find_one (flt : Doc.t -> bool) : Op self (option Doc.t) :=
  fun s => (Returns (Collection.find_one flt (collection s)), s).

(** [await self.collection.update_one(flt, {"$set": update_doc})] *)
Definition update_one (flt : Doc.t -> bool) (update_doc : list Doc.assignment)
  : Op self UpdateResult :=
  fun s =>
    (Returns (snd (Collection.update_one flt update_doc (collection s))),
     mk (fst (Collection.update_one flt update_doc (collection s)))
        (transactions_collection s)).

(** [await self.collection.update_many(flt, {"$set": update_doc})] *)
Definition update_many (flt : Doc.t -> bool) (update_doc : list Doc.assignment)
  : Op self UpdateResult :=
  fun s =>
    (Returns (snd (Collection.update_many flt update_doc (collection s))),
     mk (fst (Collection.update_many flt update_doc (collection s)))
        (transactions_collection s)).

(** [await self.collection.insert_one(doc)] *)
Definition insert_one (doc : Doc.t) : Op self oid :=
  fun s =>
    (fst (Collection.insert_one doc (collection s)),
     mk (snd (Collection.insert_one doc (collection s))) (transactions_collection s)).

(** [self.transactions_collection is not None] *)
Definition has_transactions_collection : Op self bool :=
  fun s =>
    (Returns match transactions_collection s with Some _ => true | None => false end, s).

(** [await self.transactions_collection.insert_one(doc)] *)
Definition transactions_insert_one (doc : TransactionDoc.t) : Op self unit :=
  fun s =>
    match transactions_collection s with
    | None => (Raises TypeError, s)
    | Some tc =>
        if reachable tc
        then (Returns tt,
              mk (collection s) (Some (mk_transactions (documents tc ++ [doc]) true)))
        else (Raises ServerSelectionTimeoutError, s)
    end.

(** [_document_to_response]; subscripting [None] raises [TypeError]. *)
Definition _document_to_response (doc : option Doc.t) : outcome GoalResponse.t :=
  match doc with
  | None => Raises TypeError
  | Some d =>
      Returns
        {| GoalResponse.id := str_of_oid (Doc._id d);
           GoalResponse.user_id := Doc.user_id d;
           GoalResponse.name := Doc.name d;
           GoalResponse.description := Doc.description d;
           GoalResponse.category := Doc.category d;
           GoalResponse.target_amount := Doc.target_amount d;
           GoalResponse.current_amount := Doc.current_amount d;
           GoalResponse.target_date := Doc.target_date d;
           GoalResponse.created_at := Doc.created_at d;
           GoalResponse.updated_at := Doc.updated_at d;
           GoalResponse.status := Doc.status d;
           GoalResponse.progress_percentage := Doc.progress_percentage d;
           GoalResponse.currency := Doc.currency d;
           GoalResponse.is_public := Doc.is_public d;
           GoalResponse.is_main := Doc.is_main d |}
  end.

(** The initial progress of [create_goal] (lines 70-71):
    [(current / target) * 100 if target > 0 else 0], then [min(progress, 100.0)]. *)
Definition initial_progress (current_amount target_amount : Q) : Q :=
  let progress :=
    if Qgt_bool target_amount 0 then (current_amount / target_amount) * 100 else 0 in
  py_min progress 100.

(** [create_goal]; [inserted_id] is the object id generated for the new
    document.  The [ValueError] of the handler carries the text of the
    exception it caught after the prefix kept here. *)
Definition create_goal (now : datetime) (inserted_id : oid) (user_id : string)
  (goal_data : GoalCreate.t) : Op self GoalResponse.t :=
  try_except
    (let goal_doc :=
       {| Doc._id := inserted_id;
          Doc.user_id := user_id;
          Doc.name := GoalCreate.name goal_data;
          Doc.description := GoalCreate.description goal_data;
          Doc.category := GoalCreate.category goal_data;
          Doc.target_amount := GoalCreate.target_amount goal_data;
          Doc.current_amount := GoalCreate.current_amount goal_data;
          Doc.target_date := GoalCreate.target_date goal_data;
          Doc.currency := GoalCreate.currency goal_data;
          Doc.is_public := GoalCreate.is_public goal_data;
          Doc.is_main := GoalCreate.is_main goal_data;
          Doc.status := ACTIVE;
          Doc.created_at := now;
          Doc.updated_at := None;
          Doc.progress_percentage :=
            initial_progress (GoalCreate.current_amount goal_data)
                             (GoalCreate.target_amount goal_data) |} in
     result <- insert_one goal_doc ;;
     created_goal <- find_one (by_id result) ;;
     lift (_document_to_response created_goal))
    (fun e => raise (ValueError (Text "Error al crear meta"))).

(** The keys [update_goal] copies from the fields of [update_data] that are
    not [None]. *)
Definition set_if {A : Type} (key : A -> Doc.assignment) (v : option A)
  : list Doc.assignment :=
  match v with
  | Some a => [key a]
  | None => []
  end.

(** [update_goal] *)
Definition update_goal (now : datetime) (goal_id user_id : string)
  (update_data : GoalUpdate.t) : Op self (option GoalResponse.t) :=
  try_except
    (let update_doc :=
       set_if Doc.set_name (GoalUpdate.name update_data)
       ++ set_if Doc.set_description (GoalUpdate.description update_data)
       ++ set_if Doc.set_category (GoalUpdate.category update_data)
       ++ set_if Doc.set_target_amount (GoalUpdate.target_amount update_data)
       ++ set_if Doc.set_current_amount (GoalUpdate.current_amount update_data)
       ++ set_if Doc.set_target_date (GoalUpdate.target_date update_data)
       ++ set_if Doc.set_status (GoalUpdate.status update_data)
       ++ set_if Doc.set_is_public (GoalUpdate.is_public update_data)
       ++ set_if Doc.set_is_main (GoalUpdate.is_main update_data)
       ++ [Doc.set_updated_at now] in
     o <- lift (ObjectId goal_id) ;;
     result <- update_one (by_id_and_user o user_id) update_doc ;;
     if (modified_count result =? 0)%nat then ret None
     else
       updated_goal <- find_one (by_id_and_user o user_id) ;;
       match updated_goal with
       | Some g =>
           q <- lift (truediv (Doc.current_amount g) (Doc.target_amount g)) ;;
           let progress := q * 100 in
           _ <- update_one (by_id o) [Doc.set_progress_percentage (py_min progress 100)] ;;
           r <- lift (_document_to_response
                        (Some (Doc.assign (Doc.set_progress_percentage (py_min progress 100)) g))) ;;
           ret (Some r)
       | None =>
           r <- lift (_document_to_response None) ;;
           ret (Some r)
       end)
    (fun e => ret None).

(** The ledger entry of a contribution.  The key [category] is present in
    every document [create_goal] writes, so the default of
    [goal_doc.get("category", ...)] is never taken. *)
Definition transaction_doc (now : datetime) (user_id : string)
  (contribution : GoalContribution.t) (goal_doc : Doc.t) (goal_id : string)
  : TransactionDoc.t :=
  {| TransactionDoc.user_id := user_id;
     TransactionDoc.type := "goal_contribution";
     TransactionDoc.amount := GoalContribution.amount contribution;
     TransactionDoc.category := GoalCategory_value (Doc.category goal_doc);
     TransactionDoc.description :=
       str_or (GoalContribution.description contribution)
              ("Abono a meta: " ++ Doc.name goal_doc);
     TransactionDoc.date :=
       datetime_combine
         match GoalContribution.contribution_date contribution with
         | Some d => d
         | None => dt_date now
         end
         now;
     TransactionDoc.created_at := now;
     TransactionDoc.currency := "COP";
     TransactionDoc.goal_id := goal_id;
     TransactionDoc.goal_name := Doc.name goal_doc |}.

(** The [$set] document of a contribution (lines 272-283 and 378-389). *)
Definition contribution_update (now : datetime) (new_amount progress : Q)
  : list Doc.assignment :=
  [Doc.set_current_amount new_amount; Doc.set_updated_at now;
   Doc.set_progress_percentage (py_min progress 100)]
  ++ (if Qle_bool 100 progress then [Doc.set_status COMPLETED] else []).

(** [contribute_to_main_goal] *)
Definition contribute_to_main_goal (now : datetime) (user_id : string)
  (contribution : GoalContribution.t) : Op self (option GoalResponse.t) :=
  try_except
    (found <- find_one (main_of_user user_id) ;;
     match found with
     | None => ret None
     | Some goal_doc =>
         let remaining_amount := Doc.target_amount goal_doc - Doc.current_amount goal_doc in
         if Qgt_bool (GoalContribution.amount contribution) remaining_amount then
           raise (ValueError
                    (ExceedsRemaining (GoalContribution.amount contribution) remaining_amount))
         else
           let new_amount := Doc.current_amount goal_doc + GoalContribution.amount contribution in
           let new_amount :=
             if Qgt_bool new_amount (Doc.target_amount goal_doc)
             then Doc.target_amount goal_doc else new_amount in
           q <- lift (truediv new_amount (Doc.target_amount goal_doc)) ;;
           let progress := q * 100 in
           result <- update_one (by_id_and_user (Doc._id goal_doc) user_id)
                                (contribution_update now new_amount progress) ;;
           if (modified_count result =? 0)%nat then ret None
           else
             has_transactions <- has_transactions_collection ;;
             _ <- (if has_transactions then
                     try_except
                       (transactions_insert_one
                          (transaction_doc now user_id contribution goal_doc
                                           (str_of_oid (Doc._id goal_doc))))
                       (fun trans_error => ret tt)
                   else ret tt) ;;
             updated_goal <- find_one (by_id_and_user (Doc._id goal_doc) user_id) ;;
             r <- lift (_document_to_response updated_goal) ;;
             ret (Some r)
     end)
    (fun e => ret None).

(** [contribute_to_goal] *)
Definition contribute_to_goal (now : datetime) (goal_id user_id : string)
  (contribution : GoalContribution.t) : Op self (option GoalResponse.t) :=
  try_except
    (o <- lift (ObjectId goal_id) ;;
     found <- find_one (by_id_and_user o user_id) ;;
     match found with
     | None => ret None
     | Some goal_doc =>
         let remaining_amount := Doc.target_amount goal_doc - Doc.current_amount goal_doc in
         if Qgt_bool (GoalContribution.amount contribution) remaining_amount then
           raise (ValueError
                    (ExceedsRemaining (GoalContribution.amount contribution) remaining_amount))
         else
           let new_amount := Doc.current_amount goal_doc + GoalContribution.amount contribution in
           let new_amount :=
             if Qgt_bool new_amount (Doc.target_amount goal_doc)
             then Doc.target_amount goal_doc else new_amount in
           q <- lift (truediv new_amount (Doc.target_amount goal_doc)) ;;
           let progress := q * 100 in
           result <- update_one (by_id_and_user o user_id)
                                (contribution_update now new_amount progress) ;;
           if (modified_count result =? 0)%nat then ret None
           else
             has_transactions <- has_transactions_collection ;;
             _ <- (if has_transactions then
                     try_except
                       (transactions_insert_one
                          (transaction_doc now user_id contribution goal_doc goal_id))
                       (fun trans_error => ret tt)
                   else ret tt) ;;
             updated_goal <- find_one (by_id_and_user o user_id) ;;
             r <- lift (_document_to_response updated_goal) ;;
             ret (Some r)
     end)
    (fun e => ret None).

(** One row of the [$group] stage of [get_goal_stats]. *)
Record GroupRow : Type := mk_row {
  row_id : GoalStatus;
  count : Z;
  total_current : Q;
  total_target : Q;
  avg_progress : Q
}.

(** Python's [sum]: from 0, left to right. *)
Definition Qsum (l : list Q) : Q := fold_left Qplus l 0.

(** The aggregation pipeline: the user's goals grouped by status, one row
    per status that occurs. *)
Definition aggregate_by_status (user_id : string) (c : Collection.t) : list GroupRow :=
  let matched := filter (of_user user_id) c in
  flat_map
    (fun st =>
       let members := filter (fun d => GoalStatus_beq (Doc.status d) st) matched in
       match members with
       | [] => []
       | _ :: _ =>
           [ {| row_id := st;
                count := Z.of_nat (List.length members);
                total_current := Qsum (map Doc.current_amount members);
                total_target := Qsum (map Doc.target_amount members);
                avg_progress :=
                  Qsum (map Doc.progress_percentage members)
                  / inject_Z (Z.of_nat (List.length members)) |} ]
       end)
    [ACTIVE; COMPLETED; FAILED; ARCHIVED].

(** The body of the loop [for result in results] (lines 494-504). *)
Definition stats_step (stats : GoalStats.t) (result : GroupRow) : GoalStats.t :=
  let active :=
    match row_id result with
    | ACTIVE => count result
    | _ => GoalStats.active_goals_count stats
    end in
  let completed :=
    match row_id result with
    | COMPLETED => count result
    | _ => GoalStats.completed_goals_count stats
    end in
  let failed :=
    match row_id result with
    | FAILED => count result
    | _ => GoalStats.failed_goals_count stats
    end in
  {| GoalStats.total_saved := GoalStats.total_saved stats + total_current result;
     GoalStats.active_goals_count := active;
     GoalStats.completed_goals_count := completed;
     GoalStats.failed_goals_count := failed;
     GoalStats.total_goals_count := GoalStats.total_goals_count stats;
     GoalStats.average_progress := GoalStats.average_progress stats;
     GoalStats.total_target_amount := GoalStats.total_target_amount stats + total_target result |}.

(** Lines 491-513 of [get_goal_stats], on the rows of the aggregation. *)
Definition stats_of_results (results : list GroupRow) : GoalStats.t :=
  let stats := fold_left stats_step results GoalStats.default in
  let total_goals_count :=
    (GoalStats.active_goals_count stats + GoalStats.completed_goals_count stats
     + GoalStats.failed_goals_count stats)%Z in
  let average_progress :=
    if (0 <? total_goals_count)%Z then
      let total_progress :=
        Qsum (map (fun r => avg_progress r * inject_Z (count r)) results) in
      total_progress / inject_Z total_goals_count
    else GoalStats.average_progress stats in
  {| GoalStats.total_saved := GoalStats.total_saved stats;
     GoalStats.active_goals_count := GoalStats.active_goals_count stats;
     GoalStats.completed_goals_count := GoalStats.completed_goals_count stats;
     GoalStats.failed_goals_count := GoalStats.failed_goals_count stats;
     GoalStats.total_goals_count := total_goals_count;
     GoalStats.average_progress := average_progress;
     GoalStats.total_target_amount := GoalStats.total_target_amount stats |}.

(** [get_goal_stats] *)
Definition get_goal_stats (user_id : string) : Op self GoalStats.t :=
  try_except
    (fun s => (Returns (stats_of_results (aggregate_by_status user_id (collection s))), s))
    (fun e => ret GoalStats.default).

End GoalOperations.

(** ** routers/goals.py

    The handlers run on the [GoalOperations] instance FastAPI injects as
    [goal_ops]. A handler returns the response body or raises the
    [HTTPException] the client receives. [HTTPException] derives from
    [Exception], so an [except Exception] clause catches it as well. *)

Module Routers.

Import GoalOperations.

(** [contribute_to_main_goal] (POST /main-goal/contribute) *)
Definition contribute_to_main_goal (now : datetime) (contribution : GoalContribution.t)
  (user_id : string) : Op self GoalResponse.t :=
  try_except
    (goal <- GoalOperations.contribute_to_main_goal now user_id contribution ;;
     match goal with
     | None => raise (HTTPException 404 (Text "Meta principal no encontrada"))
     | Some g => ret g
     end)
    (fun e =>
       match e with
       | ValueError m => raise (HTTPException 400 m)
       | _ => raise (HTTPException 500 (Text "Error al realizar abono a meta principal"))
       end).

(** [contribute_to_goal] (POST /{goal_id}/contribute) *)
Definition contribute_to_goal (now : datetime) (goal_id : string)
  (contribution : GoalContribution.t) (user_id : string) : Op self GoalResponse.t :=
  try_except
    (if String.eqb goal_id "main-goal" then
       raise (HTTPException 422
                (Text "goal_id inválido; use la ruta /goals/main-goal/contribute para la meta principal o un ObjectId válido"))
     else
       goal <- GoalOperations.contribute_to_goal now goal_id user_id contribution ;;
       match goal with
       | None => raise (HTTPException 404 (Text "Meta no encontrada"))
       | Some g => ret g
       end)
    (fun e =>
       match e with
       | ValueError m => raise (HTTPException 400 m)
       | _ => raise (HTTPException 500 (Text "Error al realizar abono"))
       end).

(** The [try] block of [set_goal_as_main] (lines 307-340). *)
Definition set_goal_as_main_try (now : datetime) (goal_id user_id : string)
  : Op self GoalResponse.t :=
  _ <- update_many (main_of_user user_id) [Doc.set_is_main false; Doc.set_updated_at now] ;;
  o <- lift (ObjectId goal_id) ;;
  result <- update_one (by_id_and_user o user_id)
                       [Doc.set_is_main true; Doc.set_updated_at now] ;;
  if (modified_count result =? 0)%nat then
    raise (HTTPException 404 (Text "Meta no encontrada o no pertenece al usuario"))
  else
    updated_goal <- find_one (by_id_and_user o user_id) ;;
    match updated_goal with
    | None => raise (HTTPException 404 (Text "Meta no encontrada después de actualización"))
    | Some g => lift (_document_to_response (Some g))
    end.

(** [set_goal_as_main] (POST /{goal_id}/set-main) *)
Definition set_goal_as_main (now : datetime) (goal_id user_id : string)
  : Op self GoalResponse.t :=
  try_except
    (set_goal_as_main_try now goal_id user_id)
    (fun e => raise (HTTPException 500 (Text "Error interno del servidor"))).

End Routers.

(** ** The contribute operation under either selector *)

(** The goal a contribution is aimed at: the user's main goal
    ([/main-goal/contribute]) or a goal by id ([/{goal_id}/contribute]). *)
Inductive selector : Type :=
| ByMainFlag
| ById (goal_id : string).

(** The document a selector resolves to: what the first [find_one] of the
    two contribute functions returns. *)
Definition lookup (sel : selector) (user_id : string) (c : Collection.t) : option Doc.t :=
  match sel with
  | ByMainFlag => Collection.find_one (main_of_user user_id) c
  | ById goal_id =>
      match ObjectId goal_id with
      | Returns o => Collection.find_one (by_id_and_user o user_id) c
      | Raises _ => None
      end
  end.

Definition contribute (now : datetime) (user_id : string) (sel : selector)
  (contribution : GoalContribution.t)
  : Op GoalOperations.self (option GoalResponse.t) :=
  match sel with
  | ByMainFlag => GoalOperations.contribute_to_main_goal now user_id contribution
  | ById goal_id => GoalOperations.contribute_to_goal now goal_id user_id contribution
  end.

Definition contribute_endpoint (now : datetime) (user_id : string) (sel : selector)
  (contribution : GoalContribution.t)
  : Op GoalOperations.self GoalResponse.t :=
  match sel with
  | ByMainFlag => Routers.contribute_to_main_goal now contribution user_id
  | ById goal_id => Routers.contribute_to_goal now goal_id contribution user_id
  end.

(** What [contribute_to_main_goal] (lines 259-329) and [contribute_to_goal]
    (lines 365-435) both do once the goal document is found; [o] is the id
    in the update filter and [goal_id] the one written to the ledger. *)
Definition after_lookup (now : datetime) (user_id : string)
  (contribution : GoalContribution.t) (goal_doc : Doc.t) (o : oid) (goal_id : string)
  : Op GoalOperations.self (option GoalResponse.t) :=
  let remaining_amount := Doc.target_amount goal_doc - Doc.current_amount goal_doc in
  if Qgt_bool (GoalContribution.amount contribution) remaining_amount then
    raise (ValueError
             (ExceedsRemaining (GoalContribution.amount contribution) remaining_amount))
  else
    let new_amount := Doc.current_amount goal_doc + GoalContribution.amount contribution in
    let new_amount :=
      if Qgt_bool new_amount (Doc.target_amount goal_doc)
      then Doc.target_amount goal_doc else new_amount in
    q <- lift (truediv new_amount (Doc.target_amount goal_doc)) ;;
    let progress := q * 100 in
    result <- GoalOperations.update_one (by_id_and_user o user_id)
                (GoalOperations.contribution_update now new_amount progress) ;;
    if (modified_count result =? 0)%nat then ret None
    else
      has_transactions <- GoalOperations.has_transactions_collection ;;
      _ <- (if has_transactions then
              try_except
                (GoalOperations.transactions_insert_one
                   (GoalOperations.transaction_doc now user_id contribution goal_doc goal_id))
                (fun trans_error => ret tt)
            else ret tt) ;;
      updated_goal <- GoalOperations.find_one (by_id_and_user o user_id) ;;
      r <- lift (GoalOperations._document_to_response updated_goal) ;;
      ret (Some r).

(** The store's own invariant: [_id] is a unique key of the goals collection. *)
Definition unique_ids (c : Collection.t) : Prop := NoDup (map Doc._id c).

(** The document a contribution writes. *)
Definition contributed (now : datetime) (amount : Q) (g : Doc.t) : Doc.t :=
  Doc.set
    (GoalOperations.contribution_update now (Doc.current_amount g + amount)
       ((Doc.current_amount g + amount) / Doc.target_amount g * 100))
    g.

(** The ledger after a contribution: one more entry when the collection is
    there and takes the insert. *)
Definition ledger_after (entry : TransactionDoc.t) (t : option TransactionsCollection)
  : option TransactionsCollection :=
  match t with
  | None => None
  | Some tc =>
      if reachable tc then Some (mk_transactions (documents tc ++ [entry]) true)
      else Some tc
  end.

(** ** Sample data *)

Module Sample.

Definition now : datetime := mk_datetime 20396 43200.

Definition user : string := "user_1".

Definition id_a : oid := "65f0a1b2c3d4e5f6a7b8c9d0".

Definition id_b : oid := "65f0a1b2c3d4e5f6a7b8c9d1".

Definition absent_id : oid := "65f0a1b2c3d4e5f6a7b8c9ff".

Definition goal (id : oid) (name : string) (target current progress : Q)
  (status : GoalStatus) (is_main : bool) : Doc.t :=
  {| Doc._id := id;
     Doc.user_id := user;
     Doc.name := name;
     Doc.description := None;
     Doc.category := SAVINGS;
     Doc.target_amount := target;
     Doc.current_amount := current;
     Doc.target_date := 20500;
     Doc.currency := "COP";
     Doc.is_public := false;
     Doc.is_main := is_main;
     Doc.status := status;
     Doc.created_at := mk_datetime 20300 0;
     Doc.updated_at := None;
     Doc.progress_percentage := progress |}.

(** Target 500,000 with 100,000 saved: the user's main goal. *)
Definition trip : Doc.t := goal id_a "Viaje" 500000 100000 20 ACTIVE true.

(** Target 1,000,000 with 300,000 saved. *)
Definition house : Doc.t := goal id_b "Casa" 1000000 300000 30 ACTIVE false.

(** An archived goal, target 1,000 with 400 saved. *)
Definition shelved : Doc.t := goal id_b "Moto" 1000 400 40 ARCHIVED false.

Definition goal_ops : GoalOperations.self :=
  GoalOperations.mk [trip; house] (Some (mk_transactions [] true)).

(** The same goals while the transactions collection refuses inserts. *)
Definition goal_ops_ledger_down : GoalOperations.self :=
  GoalOperations.mk [trip; house] (Some (mk_transactions [] false)).

Definition goal_ops_shelved : GoalOperations.self :=
  GoalOperations.mk [trip; shelved] (Some (mk_transactions [] true)).

Definition abono (amount : Q) : GoalContribution.t :=
  GoalContribution.mk amount None None.

End Sample.

(** Data for the statistics: an active goal at 50% and an archived goal at
    100%, both of the same user. *)
Module StatsSample.

Definition half_way : Doc.t := Sample.goal Sample.id_a "Viaje" 1000 500 50 ACTIVE true.

Definition archived_full : Doc.t :=
  Sample.goal Sample.id_b "Moto" 1000 1000 100 ARCHIVED false.

Definition goal_ops : GoalOperations.self :=
  GoalOperations.mk [half_way; archived_full] (Some (mk_transactions [] true)).

End StatsSample.

(** The average progress as the specification words it: the per-status
    averages weighted by their counts, over the number of goals in all the
    status groups. *)
Definition average_over_all_statuses (results : list GoalOperations.GroupRow) : Q :=
  GoalOperations.Qsum
    (map (fun r => GoalOperations.avg_progress r * inject_Z (GoalOperations.count r)) results)
  / inject_Z (fold_left Z.add (map GoalOperations.count results) 0%Z).

(** Data for goal edits: an empty store, a new goal of 1,000 with nothing
    saved, and an edit that sets the saved amount to 2,000. *)
Module EditSample.

Definition empty : GoalOperations.self :=
  GoalOperations.mk [] (Some (mk_transactions [] true)).

Definition new_goal : GoalCreate.t :=
  GoalCreate.mk "Viaje" None VACATION 1000 0 20500 "COP" false false.

Definition overfull_goal : GoalCreate.t :=
  GoalCreate.mk "Casa" None HOME 1000 2000 20500 "COP" false false.

Definition raise_current : GoalUpdate.t :=
  GoalUpdate.mk None None None None (Some 2000) None None None None.

Definition later : datetime := mk_datetime 20397 0.

End EditSample.

(** ** Concurrent contribute calls

    The contribute functions are coroutines: another request can run at
    each [await], and nowhere else.  Each of their awaits is one operation
    of the store, which MongoDB applies atomically.  A contribute call is
    therefore a sequence of at most four atomic steps: the lookup with the
    capacity check and the arithmetic that follow it, the [update_one], the
    insert of the ledger entry, and the final [find_one]. *)

Module Concurrent.

Record request : Type := mk_request {
  req_now : datetime;
  req_user : string;
  req_selector : selector;
  req_contribution : GoalContribution.t
}.

(** Where a call stands, with the local variables it still needs. *)
Inductive pc : Type :=
| AtLookup
| AtUpdate (goal_doc : Doc.t) (o : oid) (goal_id : string) (new_amount progress : Q)
| AtLedger (goal_doc : Doc.t) (o : oid) (goal_id : string)
| AtRefetch (o : oid)
| Done (result : option GoalResponse.t).

(** From the document found to the [update_one]: the capacity check, the
    new amount and the progress.  A raise ends the call with [None]
    (the blanket [except Exception]). *)
Definition check (r : request) (goal_doc : Doc.t) (o : oid) (goal_id : string) : pc :=
  let amount := GoalContribution.amount (req_contribution r) in
  let remaining_amount := Doc.target_amount goal_doc - Doc.current_amount goal_doc in
  if Qgt_bool amount remaining_amount then Done None
  else
    let new_amount := Doc.current_amount goal_doc + amount in
    let new_amount :=
      if Qgt_bool new_amount (Doc.target_amount goal_doc)
      then Doc.target_amount goal_doc else new_amount in
    match truediv new_amount (Doc.target_amount goal_doc) with
    | Raises _ => Done None
    | Returns q => AtUpdate goal_doc o goal_id new_amount (q * 100)
    end.

(** One atomic step of a call. *)
Definition step (r : request) (p : pc) (s : GoalOperations.self)
  : pc * GoalOperations.self :=
  match p with
  | AtLookup =>
      match req_selector r with
      | ByMainFlag =>
          match Collection.find_one (main_of_user (req_user r)) (GoalOperations.collection s) with
          | None => (Done None, s)
          | Some goal_doc =>
              (check r goal_doc (Doc._id goal_doc) (str_of_oid (Doc._id goal_doc)), s)
          end
      | ById goal_id =>
          match ObjectId goal_id with
          | Raises _ => (Done None, s)
          | Returns o =>
              match Collection.find_one (by_id_and_user o (req_user r))
                      (GoalOperations.collection s) with
              | None => (Done None, s)
              | Some goal_doc => (check r goal_doc o goal_id, s)
              end
          end
      end
  | AtUpdate goal_doc o goal_id new_amount progress =>
      let written :=
        Collection.update_one (by_id_and_user o (req_user r))
          (GoalOperations.contribution_update (req_now r) new_amount progress)
          (GoalOperations.collection s) in
      let s' := GoalOperations.mk (fst written) (GoalOperations.transactions_collection s) in
      if (modified_count (snd written) =? 0)%nat then (Done None, s')
      else
        match GoalOperations.transactions_collection s with
        | Some _ => (AtLedger goal_doc o goal_id, s')
        | None => (AtRefetch o, s')
        end
  | AtLedger goal_doc o goal_id =>
      (AtRefetch o,
       snd (GoalOperations.transactions_insert_one
              (GoalOperations.transaction_doc (req_now r) (req_user r) (req_contribution r)
                 goal_doc goal_id) s))
  | AtRefetch o =>
      match GoalOperations._document_to_response
              (Collection.find_one (by_id_and_user o (req_user r))
                 (GoalOperations.collection s)) with
      | Returns resp => (Done (Some resp), s)
      | Raises _ => (Done None, s)
      end
  | Done result => (Done result, s)
  end.

(** A call running alone: its steps back to back. *)
Definition alone (r : request) (s : GoalOperations.self) : pc * GoalOperations.self :=
  let '(p1, s1) := step r AtLookup s in
  let '(p2, s2) := step r p1 s1 in
  let '(p3, s3) := step r p2 s2 in
  step r p3 s3.

(** The calls in flight and the store they share. *)
Record config : Type := mk_config {
  store : GoalOperations.self;
  calls : list (request * pc)
}.

Definition start (s : GoalOperations.self) (requests : list request) : config :=
  mk_config s (map (fun r => (r, AtLookup)) requests).

(** The call at index [i] takes its next step. *)
Fixpoint step_at (i : nat) (cs : list (request * pc)) (s : GoalOperations.self)
  : list (request * pc) * GoalOperations.self :=
  match cs, i with
  | [], _ => ([], s)
  | (r, p) :: rest, O => ((r, fst (step r p s)) :: rest, snd (step r p s))
  | c :: rest, S j => (c :: fst (step_at j rest s), snd (step_at j rest s))
  end.

(** An interleaving is the list of the indices of the calls that step. *)
Definition run (schedule : list nat) (cfg : config) : config :=
  fold_left
    (fun cfg' i =>
       mk_config (snd (step_at i (calls cfg') (store cfg')))
                 (fst (step_at i (calls cfg') (store cfg'))))
    schedule cfg.

(** The amounts of every stored goal are within the target. *)
Definition within_target (c : Collection.t) : Prop :=
  Forall (fun d => Doc.current_amount d <= Doc.target_amount d) c.

(** The keys of a goal that no contribution writes. *)
Definition keys (d : Doc.t) : oid * string * Q :=
  (Doc._id d, Doc.user_id d, Doc.target_amount d).

(** The amount a call is about to write is within the target of every
    goal its update filter matches. *)
Definition pending_ok (c : Collection.t) (call : request * pc) : Prop :=
  match snd call with
  | AtUpdate _ o _ new_amount _ =>
      forall d, In d c -> by_id_and_user o (req_user (fst call)) d = true ->
                new_amount <= Doc.target_amount d
  | _ => True
  end.

(** The invariant of every interleaving. *)
Definition safe (cfg : config) : Prop :=
  unique_ids (GoalOperations.collection (store cfg))
  /\ within_target (GoalOperations.collection (store cfg))
  /\ Forall (pending_ok (GoalOperations.collection (store cfg))) (calls cfg).

(** Two calls on the goal "Casa" (target 1,000,000, saved 300,000) whose
    amounts add up to the remaining 700,000. *)
Definition first_call : request :=
  mk_request Sample.now Sample.user (ById Sample.id_b) (Sample.abono 300000).

Definition second_call : request :=
  mk_request EditSample.later Sample.user (ById Sample.id_b) (Sample.abono 400000).

Definition both : config := start Sample.goal_ops [first_call; second_call].

End Concurrent.

(** ** models/goal.py: [Goal.update_progress]

    The fields of [Goal] that [update_progress] reads and writes. *)

Module GoalEntity.

Record t : Type := mk {
  target_amount : Q;
  current_amount : Q;
  target_date : date;
  status : GoalStatus;
  progress_percentage : Q
}.

Definition calculate_progress (self : t) : Q :=
  GoalModel.calculate_progress (GoalModel.mk (target_amount self) (current_amount self)).

(** [Goal.update_progress]; [today] is [date.today()]. *)
Definition update_progress (today : date) (self : t) : t :=
  let progress := calculate_progress self in
  let new_status :=
    if Qle_bool 100 progress then COMPLETED
    else if (target_date self <? today)%Z && GoalStatus_beq (status self) ACTIVE then FAILED
    else status self in
  mk (target_amount self) (current_amount self) (target_date self) new_status progress.

End GoalEntity.

(** ** database/goal_operations.py: reading, listing and deleting goals *)

(** [a <= b] on datetimes. *)
Definition datetime_leb (a b : datetime) : bool :=
  (dt_date a <? dt_date b)%Z || ((dt_date a =? dt_date b)%Z && (dt_time a <=? dt_time b)%Z).

Module GoalCrud.

Import GoalOperations.

(** [delete_one]: the first match is removed; the count is [deleted_count]. *)
Fixpoint delete_first (flt : Doc.t -> bool) (c : Collection.t) : Collection.t * nat :=
  match c with
  | [] => ([], 0%nat)
  | d :: rest =>
      if flt d then (rest, 1%nat)
      else (d :: fst (delete_first flt rest), snd (delete_first flt rest))
  end.

(** [await self.collection.delete_one(flt)] *)
Definition delete_one (flt : Doc.t -> bool) : Op self nat :=
  fun s =>
    (Returns (snd (delete_first flt (collection s))),
     mk (fst (delete_first flt (collection s))) (transactions_collection s)).

(** [get_goal_by_id] *)
Definition get_goal_by_id (goal_id user_id : string) : Op self (option GoalResponse.t) :=
  try_except
    (o <- lift (ObjectId goal_id) ;;
     goal_doc <- find_one (by_id_and_user o user_id) ;;
     match goal_doc with
     | Some d =>
         r <- lift (_document_to_response (Some d)) ;;
         ret (Some r)
     | None => ret None
     end)
    (fun e => ret None).

(** [delete_goal] *)
Definition delete_goal (goal_id user_id : string) : Op self bool :=
  try_except
    (o <- lift (ObjectId goal_id) ;;
     deleted_count <- delete_one (by_id_and_user o user_id) ;;
     ret (0 <? deleted_count)%nat)
    (fun e => ret false).

(** [sort("created_at", -1)]: latest first; documents created at the same
    instant keep their natural order. *)
Fixpoint insert_desc (d : Doc.t) (l : list Doc.t) : list Doc.t :=
  match l with
  | [] => [d]
  | x :: rest =>
      if datetime_leb (Doc.created_at x) (Doc.created_at d) then d :: l
      else x :: insert_desc d rest
  end.

Definition sort_created_desc (l : list Doc.t) : list Doc.t :=
  fold_right insert_desc [] l.

(** [limit(n)]: 0 stands for no limit. *)
Definition limit_to (n : nat) (l : list Doc.t) : list Doc.t :=
  if (n =? 0)%nat then l else firstn n l.

(** The query of [get_user_goals]: the owner, and the status and category
    when they are given. *)
Definition query (user_id : string) (status : option GoalStatus)
  (category : option GoalCategory) (d : Doc.t) : bool :=
  of_user user_id d
  && GoalUpdate.holds (fun st => GoalStatus_beq (Doc.status d) st) status
  && GoalUpdate.holds (fun cat => GoalCategory_beq (Doc.category d) cat) category.

(** The loop [async for doc in cursor: goals.append(...)]. *)
Fixpoint to_responses (docs : list Doc.t) : outcome (list GoalResponse.t) :=
  match docs with
  | [] => Returns []
  | d :: rest =>
      match _document_to_response (Some d) with
      | Raises e => Raises e
      | Returns r =>
          match to_responses rest with
          | Raises e => Raises e
          | Returns rs => Returns (r :: rs)
          end
      end
  end.

(** [get_user_goals] *)
Definition get_user_goals (user_id : string) (status : option GoalStatus)
  (category : option GoalCategory) (skip limit : nat) : Op self (list GoalResponse.t) :=
  try_except
    (fun s =>
       (to_responses
          (limit_to limit
             (skipn skip
                (sort_created_desc (filter (query user_id status category) (collection s))))),
        s))
    (fun e => ret []).

End GoalCrud.

(** ** routers/goals.py: reading, editing and deleting one goal *)

Module RoutersCrud.

Import GoalOperations.

(** [create_goal] (POST /) *)
Definition create_goal (now : datetime) (inserted_id : oid) (goal_data : GoalCreate.t)
  (user_id : string) : Op self GoalResponse.t :=
  try_except
    (GoalOperations.create_goal now inserted_id user_id goal_data)
    (fun e =>
       match e with
       | ValueError m => raise (HTTPException 400 m)
       | _ => raise (HTTPException 500 (Text "Error interno del servidor"))
       end).

(** [get_goal] (GET /{goal_id}); it has no [try]. *)
Definition get_goal (goal_id user_id : string) : Op self GoalResponse.t :=
  goal <- GoalCrud.get_goal_by_id goal_id user_id ;;
  match goal with
  | None => raise (HTTPException 404 (Text "Meta no encontrada"))
  | Some g => ret g
  end.

(** [update_goal] (PUT /{goal_id}) *)
Definition update_goal (now : datetime) (goal_id : string) (update_data : GoalUpdate.t)
  (user_id : string) : Op self GoalResponse.t :=
  try_except
    (goal <- GoalOperations.update_goal now goal_id user_id update_data ;;
     match goal with
     | None => raise (HTTPException 404 (Text "Meta no encontrada"))
     | Some g => ret g
     end)
    (fun e =>
       match e with
       | ValueError m => raise (HTTPException 400 m)
       | _ => raise (HTTPException 500 (Text "Error al actualizar meta"))
       end).

(** [delete_goal] (DELETE /{goal_id}); it has no [try]. *)
Definition delete_goal (goal_id user_id : string) : Op self unit :=
  success <- GoalCrud.delete_goal goal_id user_id ;;
  if success then ret tt
  else raise (HTTPException 404 (Text "Meta no encontrada")).

(** [get_goal_stats] (GET /stats/summary) *)
Definition get_goal_stats (user_id : string) : Op self GoalStats.t :=
  try_except
    (GoalOperations.get_goal_stats user_id)
    (fun e => raise (HTTPException 500 (Text "Error al obtener estadísticas"))).

End RoutersCrud.

(** The response [_document_to_response] builds from a document. *)
Definition response_of (d : Doc.t) : GoalResponse.t :=
  {| GoalResponse.id := str_of_oid (Doc._id d);
     GoalResponse.user_id := Doc.user_id d;
     GoalResponse.name := Doc.name d;
     GoalResponse.description := Doc.description d;
     GoalResponse.category := Doc.category d;
     GoalResponse.target_amount := Doc.target_amount d;
     GoalResponse.current_amount := Doc.current_amount d;
     GoalResponse.target_date := Doc.target_date d;
     GoalResponse.created_at := Doc.created_at d;
     GoalResponse.updated_at := Doc.updated_at d;
     GoalResponse.status := Doc.status d;
     GoalResponse.progress_percentage := Doc.progress_percentage d;
     GoalResponse.currency := Doc.currency d;
     GoalResponse.is_public := Doc.is_public d;
     GoalResponse.is_main := Doc.is_main d |}.

(** Latest first. *)
Definition latest_first (a b : Doc.t) : Prop :=
  datetime_leb (Doc.created_at b) (Doc.created_at a) = true.

(** The documents of a list that have a given status. *)
Definition with_status (st : GoalStatus) (docs : list Doc.t) : list Doc.t :=
  filter (fun d => GoalStatus_beq (Doc.status d) st) docs.

(** [value if value is not None else old]. *)
Definition or_old {A : Type} (v : option A) (old : A) : A :=
  match v with
  | Some a => a
  | None => old
  end.

(** Splits on whether the user has goals of each status. *)
Ltac split_status_rows mine :=
  let Ea := fresh "Ea" in let Ec := fresh "Ec" in
  let Ef := fresh "Ef" in let Er := fresh "Er" in
  destruct (with_status ACTIVE mine) eqn:Ea; [|cbv iota; rewrite <- Ea];
  (destruct (with_status COMPLETED mine) eqn:Ec; [|cbv iota; rewrite <- Ec]);
  (destruct (with_status FAILED mine) eqn:Ef; [|cbv iota; rewrite <- Ef]);
  (destruct (with_status ARCHIVED mine) eqn:Er; [|cbv iota; rewrite <- Er]).

Ltac compute_stats :=
  unfold GoalOperations.stats_of_results;
  cbn [app fold_left map List.length GoalOperations.stats_step GoalStats.default
       GoalOperations.row_id GoalOperations.count GoalOperations.total_current
       GoalOperations.total_target GoalOperations.avg_progress
       GoalStats.total_saved GoalStats.active_goals_count GoalStats.completed_goals_count
       GoalStats.failed_goals_count GoalStats.total_goals_count GoalStats.average_progress
       GoalStats.total_target_amount].

(** ** What [set_goal_as_main] writes

    The document [set_goal_as_main] leaves in the place of [d]: the goal
    with the given id and owner is flagged as main, the owner's other main
    goals lose the flag, every other document is kept. *)
Definition main_switched (now : datetime) (o : oid) (user : string) (d : Doc.t) : Doc.t :=
  if by_id_and_user o user d then Doc.set [Doc.set_is_main true; Doc.set_updated_at now] d
  else if main_of_user user d then Doc.set [Doc.set_is_main false; Doc.set_updated_at now] d
  else d.

(** ** What [update_goal] writes

    The document after the [$set] of [update_goal]: the fields given in
    [update_data] replace the stored ones, [updated_at] is set, every other
    key is kept. *)
Definition edited (now : datetime) (update_data : GoalUpdate.t) (g : Doc.t) : Doc.t :=
  {| Doc._id := Doc._id g;
     Doc.user_id := Doc.user_id g;
     Doc.name := or_old (GoalUpdate.name update_data) (Doc.name g);
     Doc.description :=
       match GoalUpdate.description update_data with
       | Some v => Some v
       | None => Doc.description g
       end;
     Doc.category := or_old (GoalUpdate.category update_data) (Doc.category g);
     Doc.target_amount := or_old (GoalUpdate.target_amount update_data) (Doc.target_amount g);
     Doc.current_amount :=
       or_old (GoalUpdate.current_amount update_data) (Doc.current_amount g);
     Doc.target_date := or_old (GoalUpdate.target_date update_data) (Doc.target_date g);
     Doc.currency := Doc.currency g;
     Doc.is_public := or_old (GoalUpdate.is_public update_data) (Doc.is_public g);
     Doc.is_main := or_old (GoalUpdate.is_main update_data) (Doc.is_main g);
     Doc.status := or_old (GoalUpdate.status update_data) (Doc.status g);
     Doc.created_at := Doc.created_at g;
     Doc.updated_at := Some now;
     Doc.progress_percentage := Doc.progress_percentage g |}.

(** The progress [update_goal] recomputes from the two amounts. *)
Definition with_progress (g : Doc.t) : Doc.t :=
  Doc.assign
    (Doc.set_progress_percentage
       (py_min (Doc.current_amount g / Doc.target_amount g * 100) 100)) g.

(** ** The ledger entry of a contribution

    The [goal_id] a contribution writes to the ledger: the stored id for
    the main goal, the path segment as received for a goal by id. *)
Definition ledger_goal_id (sel : selector) (g : Doc.t) : string :=
  match sel with
  | ByMainFlag => str_of_oid (Doc._id g)
  | ById goal_id => goal_id
  end.

(** A collection with the document of the given id replaced. *)
Definition replaced (o : oid) (g' : Doc.t) (c : Collection.t) : Collection.t :=
  map (fun d => if by_id o d then g' else d) c.

(** ** What [create_goal] inserts *)
Definition new_goal_doc (now : datetime) (inserted_id : oid) (user_id : string)
  (goal_data : GoalCreate.t) : Doc.t :=
  {| Doc._id := inserted_id;
     Doc.user_id := user_id;
     Doc.name := GoalCreate.name goal_data;
     Doc.description := GoalCreate.description goal_data;
     Doc.category := GoalCreate.category goal_data;
     Doc.target_amount := GoalCreate.target_amount goal_data;
     Doc.current_amount := GoalCreate.current_amount goal_data;
     Doc.target_date := GoalCreate.target_date goal_data;
     Doc.currency := GoalCreate.currency goal_data;
     Doc.is_public := GoalCreate.is_public goal_data;
     Doc.is_main := GoalCreate.is_main goal_data;
     Doc.status := ACTIVE;
     Doc.created_at := now;
     Doc.updated_at := None;
     Doc.progress_percentage :=
       GoalOperations.initial_progress (GoalCreate.current_amount goal_data)
                                       (GoalCreate.target_amount goal_data) |}.

(** * Amounts as Python computes them: binary64

    Python's [float] is the IEEE 754 binary64 format, with round to nearest
    even, infinities and NaN; [PrimFloat.float] is the same format with the
    same operations.  This part repeats the two progress calculations and
    the contribute path with the amounts as [float], line by line as above;
    what holds no amount (ids, dates, statuses, exceptions, the operation
    monad, the selector) is shared with the definitions above.  Decimal
    literals denote the nearest binary64 value, as in Python. *)

Module Binary64.

#[local] Open Scope float_scope.

(** Python's [min(a, b)]: the first argument unless the second is smaller;
    a NaN first argument is returned as it is. *)
Definition py_min (a b : float) : float := if b <? a then b else a.

(** True division [a / b]: a zero divisor of either sign raises. *)
Definition truediv (a b : float) : outcome float :=
  if b =? 0 then Raises ZeroDivisionError else Returns (a / b).

(** [Goal.calculate_progress] (models/goal.py, lines 89-93). *)
Definition calculate_progress (current_amount target_amount : float) : float :=
  if target_amount =? 0 then 0
  else py_min (current_amount / target_amount * 100) 100.

(** The initial progress of [create_goal] (goal_operations.py, lines 70-71). *)
Definition initial_progress (current_amount target_amount : float) : float :=
  py_min (if 0 <? target_amount then current_amount / target_amount * 100 else 0) 100.

(** [GoalContribution]: [amount: float = Field(..., gt=0)]. *)
Module GoalContribution.

Record t : Type := mk {
  amount : float;
  description : option string;
  contribution_date : option date
}.

End GoalContribution.

Module GoalResponse.

Record t : Type := mk {
  id : string;
  user_id : string;
  name : string;
  description : option string;
  category : GoalCategory;
  target_amount : float;
  current_amount : float;
  target_date : date;
  created_at : datetime;
  updated_at : option datetime;
  status : GoalStatus;
  progress_percentage : float;
  currency : string;
  is_public : bool;
  is_main : bool
}.

End GoalResponse.

(** A document of the [goals] collection. *)
Module Doc.

Record t : Type := mk {
  _id : oid;
  user_id : string;
  name : string;
  description : option string;
  category : GoalCategory;
  target_amount : float;
  current_amount : float;
  target_date : date;
  currency : string;
  is_public : bool;
  is_main : bool;
  status : GoalStatus;
  created_at : datetime;
  updated_at : option datetime;
  progress_percentage : float
}.

(** The keys a contribution sets. *)
Inductive assignment : Type :=
| set_current_amount (v : float)
| set_updated_at (v : datetime)
| set_progress_percentage (v : float)
| set_status (v : GoalStatus).

Definition assign (a : assignment) (d : t) : t :=
  match a with
  | set_current_amount v =>
      mk (_id d) (user_id d) (name d) (description d) (category d) (target_amount d)
         v (target_date d) (currency d) (is_public d) (is_main d)
         (status d) (created_at d) (updated_at d) (progress_percentage d)
  | set_updated_at v =>
      mk (_id d) (user_id d) (name d) (description d) (category d) (target_amount d)
         (current_amount d) (target_date d) (currency d) (is_public d) (is_main d)
         (status d) (created_at d) (Some v) (progress_percentage d)
  | set_progress_percentage v =>
      mk (_id d) (user_id d) (name d) (description d) (category d) (target_amount d)
         (current_amount d) (target_date d) (currency d) (is_public d) (is_main d)
         (status d) (created_at d) (updated_at d) v
  | set_status v =>
      mk (_id d) (user_id d) (name d) (description d) (category d) (target_amount d)
         (current_amount d) (target_date d) (currency d) (is_public d) (is_main d)
         v (created_at d) (updated_at d) (progress_percentage d)
  end.

(** [{"$set": update_doc}] applied to a document. *)
Definition set (update_doc : list assignment) (d : t) : t :=
  fold_left (fun d' a => assign a d') update_doc d.

(** Two documents hold the same values; two doubles are the same value
    when they are the same binary64 datum. *)
Definition same (a b : t) : bool :=
  String.eqb (_id a) (_id b)
  && String.eqb (user_id a) (user_id b)
  && String.eqb (name a) (name b)
  && option_eqb String.eqb (description a) (description b)
  && GoalCategory_beq (category a) (category b)
  && PrimFloat.Leibniz.eqb (target_amount a) (target_amount b)
  && PrimFloat.Leibniz.eqb (current_amount a) (current_amount b)
  && Z.eqb (target_date a) (target_date b)
  && String.eqb (currency a) (currency b)
  && Bool.eqb (is_public a) (is_public b)
  && Bool.eqb (is_main a) (is_main b)
  && GoalStatus_beq (status a) (status b)
  && datetime_eqb (created_at a) (created_at b)
  && option_eqb datetime_eqb (updated_at a) (updated_at b)
  && PrimFloat.Leibniz.eqb (progress_percentage a) (progress_percentage b).

End Doc.

(** A document of the [transactions] collection. *)
Module TransactionDoc.

Record t : Type := mk {
  user_id : string;
  type : string;
  amount : float;
  category : string;
  description : string;
  date : datetime;
  created_at : datetime;
  currency : string;
  goal_id : string;
  goal_name : string
}.

End TransactionDoc.

(** The goals collection: its documents in natural order. *)
Module Collection.

Definition t : Type := list Doc.t.

Definition find_one (flt : Doc.t -> bool) (c : t) : option Doc.t := find flt c.

(** The document after a [$set], and whether it changed. *)
Definition write (update_doc : list Doc.assignment) (d : Doc.t) : Doc.t * nat :=
  if Doc.same (Doc.set update_doc d) d then (d, 0%nat) else (Doc.set update_doc d, 1%nat).

Fixpoint update_one (flt : Doc.t -> bool) (update_doc : list Doc.assignment) (c : t)
  : t * UpdateResult :=
  match c with
  | [] => ([], mk_result 0 0)
  | d :: rest =>
      if flt d then
        (fst (write update_doc d) :: rest, mk_result 1 (snd (write update_doc d)))
      else
        (d :: fst (update_one flt update_doc rest), snd (update_one flt update_doc rest))
  end.

End Collection.

(** The transactions collection; an insert raises while the store is not
    reachable. *)
Record TransactionsCollection : Type := mk_transactions {
  documents : list TransactionDoc.t;
  reachable : bool
}.

(** [{"_id": o, "user_id": u}] *)
Definition by_id_and_user (o : oid) (u : string) (d : Doc.t) : bool :=
  String.eqb (Doc._id d) o && String.eqb (Doc.user_id d) u.

(** [{"user_id": u, "is_main": True}] *)
Definition main_of_user (u : string) (d : Doc.t) : bool :=
  String.eqb (Doc.user_id d) u && Doc.is_main d.

(** [database/goal_operations.py] *)
Module GoalOperations.

Record self : Type := mk {
  collection : Collection.t;
  transactions_collection : option TransactionsCollection
}.

(** [await self.collection.find_one(flt)] *)
Definition find_one (flt : Doc.t -> bool) : Op self (option Doc.t) :=
  fun s => (Returns (Collection.find_one flt (collection s)), s).

(** [await self.collection.update_one(flt, {"$set": update_doc})] *)
Definition update_one (flt : Doc.t -> bool) (update_doc : list Doc.assignment)
  : Op self UpdateResult :=
  fun s =>
    (Returns (snd (Collection.update_one flt update_doc (collection s))),
     mk (fst (Collection.update_one flt update_doc (collection s)))
        (transactions_collection s)).

(** [self.transactions_collection is not None] *)
Definition has_transactions_collection : Op self bool :=
  fun s =>
    (Returns match transactions_collection s with Some _ => true | None => false end, s).

(** [await self.transactions_collection.insert_one(doc)] *)
Definition transactions_insert_one (doc : TransactionDoc.t) : Op self unit :=
  fun s =>
    match transactions_collection s with
    | None => (Raises TypeError, s)
    | Some tc =>
        if reachable tc
        then (Returns tt,
              mk (collection s) (Some (mk_transactions (documents tc ++ [doc]) true)))
        else (Raises ServerSelectionTimeoutError, s)
    end.

(** [_document_to_response]; subscripting [None] raises [TypeError]. *)
Definition _document_to_response (doc : option Doc.t) : outcome GoalResponse.t :=
  match doc with
  | None => Raises TypeError
  | Some d =>
      Returns
        {| GoalResponse.id := str_of_oid (Doc._id d);
           GoalResponse.user_id := Doc.user_id d;
           GoalResponse.name := Doc.name d;
           GoalResponse.description := Doc.description d;
           GoalResponse.category := Doc.category d;
           GoalResponse.target_amount := Doc.target_amount d;
           GoalResponse.current_amount := Doc.current_amount d;
           GoalResponse.target_date := Doc.target_date d;
           GoalResponse.created_at := Doc.created_at d;
           GoalResponse.updated_at := Doc.updated_at d;
           GoalResponse.status := Doc.status d;
           GoalResponse.progress_percentage := Doc.progress_percentage d;
           GoalResponse.currency := Doc.currency d;
           GoalResponse.is_public := Doc.is_public d;
           GoalResponse.is_main := Doc.is_main d |}
  end.

(** The ledger entry of a contribution. *)
Definition transaction_doc (now : datetime) (user_id : string)
  (contribution : GoalContribution.t) (goal_doc : Doc.t) (goal_id : string)
  : TransactionDoc.t :=
  {| TransactionDoc.user_id := user_id;
     TransactionDoc.type := "goal_contribution";
     TransactionDoc.amount := GoalContribution.amount contribution;
     TransactionDoc.category := GoalCategory_value (Doc.category goal_doc);
     TransactionDoc.description :=
       str_or (GoalContribution.description contribution)
              ("Abono a meta: " ++ Doc.name goal_doc);
     TransactionDoc.date :=
       datetime_combine
         match GoalContribution.contribution_date contribution with
         | Some d => d
         | None => dt_date now
         end
         now;
     TransactionDoc.created_at := now;
     TransactionDoc.currency := "COP";
     TransactionDoc.goal_id := goal_id;
     TransactionDoc.goal_name := Doc.name goal_doc |}.

(** The [$set] document of a contribution (lines 272-283 and 378-389):
    the status is set when [progress >= 100]. *)
Definition contribution_update (now : datetime) (new_amount progress : float)
  : list Doc.assignment :=
  [Doc.set_current_amount new_amount; Doc.set_updated_at now;
   Doc.set_progress_percentage (py_min progress 100)]
  ++ (if 100 <=? progress then [Doc.set_status COMPLETED] else []).

(** [contribute_to_main_goal] *)
Definition contribute_to_main_goal (now : datetime) (user_id : string)
  (contribution : GoalContribution.t) : Op self (option GoalResponse.t) :=
  try_except
    (found <- find_one (main_of_user user_id) ;;
     match found with
     | None => ret None
     | Some goal_doc =>
         let remaining_amount := Doc.target_amount goal_doc - Doc.current_amount goal_doc in
         if remaining_amount <? GoalContribution.amount contribution then
           raise (ValueError
                    (ExceedsRemaining64 (GoalContribution.amount contribution)
                       remaining_amount))
         else
           let new_amount := Doc.current_amount goal_doc + GoalContribution.amount contribution in
           let new_amount :=
             if Doc.target_amount goal_doc <? new_amount
             then Doc.target_amount goal_doc else new_amount in
           q <- lift (truediv new_amount (Doc.target_amount goal_doc)) ;;
           let progress := q * 100 in
           result <- update_one (by_id_and_user (Doc._id goal_doc) user_id)
                                (contribution_update now new_amount progress) ;;
           if (modified_count result =? 0)%nat then ret None
           else
             has_transactions <- has_transactions_collection ;;
             _ <- (if has_transactions then
                     try_except
                       (transactions_insert_one
                          (transaction_doc now user_id contribution goal_doc
                                           (str_of_oid (Doc._id goal_doc))))
                       (fun trans_error => ret tt)
                   else ret tt) ;;
             updated_goal <- find_one (by_id_and_user (Doc._id goal_doc) user_id) ;;
             r <- lift (_document_to_response updated_goal) ;;
             ret (Some r)
     end)
    (fun e => ret None).

(** [contribute_to_goal] *)
Definition contribute_to_goal (now : datetime) (goal_id user_id : string)
  (contribution : GoalContribution.t) : Op self (option GoalResponse.t) :=
  try_except
    (o <- lift (ObjectId goal_id) ;;
     found <- find_one (by_id_and_user o user_id) ;;
     match found with
     | None => ret None
     | Some goal_doc =>
         let remaining_amount := Doc.target_amount goal_doc - Doc.current_amount goal_doc in
         if remaining_amount <? GoalContribution.amount contribution then
           raise (ValueError
                    (ExceedsRemaining64 (GoalContribution.amount contribution)
                       remaining_amount))
         else
           let new_amount := Doc.current_amount goal_doc + GoalContribution.amount contribution in
           let new_amount :=
             if Doc.target_amount goal_doc <? new_amount
             then Doc.target_amount goal_doc else new_amount in
           q <- lift (truediv new_amount (Doc.target_amount goal_doc)) ;;
           let progress := q * 100 in
           result <- update_one (by_id_and_user o user_id)
                                (contribution_update now new_amount progress) ;;
           if (modified_count result =? 0)%nat then ret None
           else
             has_transactions <- has_transactions_collection ;;
             _ <- (if has_transactions then
                     try_except
                       (transactions_insert_one
                          (transaction_doc now user_id contribution goal_doc goal_id))
                       (fun trans_error => ret tt)
                   else ret tt) ;;
             updated_goal <- find_one (by_id_and_user o user_id) ;;
             r <- lift (_document_to_response updated_goal) ;;
             ret (Some r)
     end)
    (fun e => ret None).

End GoalOperations.

(** [routers/goals.py]: the two contribute handlers. *)
Module Routers.

Import GoalOperations.

(** [contribute_to_main_goal] (POST /main-goal/contribute) *)
Definition contribute_to_main_goal (now : datetime) (contribution : GoalContribution.t)
  (user_id : string) : Op self GoalResponse.t :=
  try_except
    (goal <- GoalOperations.contribute_to_main_goal now user_id contribution ;;
     match goal with
     | None => raise (HTTPException 404 (Text "Meta principal no encontrada"))
     | Some g => ret g
     end)
    (fun e =>
       match e with
       | ValueError m => raise (HTTPException 400 m)
       | _ => raise (HTTPException 500 (Text "Error al realizar abono a meta principal"))
       end).

(** [contribute_to_goal] (POST /{goal_id}/contribute) *)
Definition contribute_to_goal (now : datetime) (goal_id : string)
  (contribution : GoalContribution.t) (user_id : string) : Op self GoalResponse.t :=
  try_except
    (if String.eqb goal_id "main-goal" then
       raise (HTTPException 422
                (Text "goal_id inválido; use la ruta /goals/main-goal/contribute para la meta principal o un ObjectId válido"))
     else
       goal <- GoalOperations.contribute_to_goal now goal_id user_id contribution ;;
       match goal with
       | None => raise (HTTPException 404 (Text "Meta no encontrada"))
       | Some g => ret g
       end)
    (fun e =>
       match e with
       | ValueError m => raise (HTTPException 400 m)
       | _ => raise (HTTPException 500 (Text "Error al realizar abono"))
       end).

End Routers.

(** The document a selector resolves to: what the first [find_one] of the
    two contribute functions returns. *)
Definition lookup (sel : selector) (user_id : string) (c : Collection.t) : option Doc.t :=
  match sel with
  | ByMainFlag => Collection.find_one (main_of_user user_id) c
  | ById goal_id =>
      match ObjectId goal_id with
      | Returns o => Collection.find_one (by_id_and_user o user_id) c
      | Raises _ => None
      end
  end.

Definition contribute (now : datetime) (user_id : string) (sel : selector)
  (contribution : GoalContribution.t)
  : Op GoalOperations.self (option GoalResponse.t) :=
  match sel with
  | ByMainFlag => GoalOperations.contribute_to_main_goal now user_id contribution
  | ById goal_id => GoalOperations.contribute_to_goal now goal_id user_id contribution
  end.

Definition contribute_endpoint (now : datetime) (user_id : string) (sel : selector)
  (contribution : GoalContribution.t)
  : Op GoalOperations.self GoalResponse.t :=
  match sel with
  | ByMainFlag => Routers.contribute_to_main_goal now contribution user_id
  | ById goal_id => Routers.contribute_to_goal now goal_id contribution user_id
  end.

(** What [contribute_to_main_goal] (lines 259-329) and [contribute_to_goal]
    (lines 365-435) both do once the goal document is found; [o] is the id
    in the update filter and [goal_id] the one written to the ledger. *)
Definition after_lookup (now : datetime) (user_id : string)
  (contribution : GoalContribution.t) (goal_doc : Doc.t) (o : oid) (goal_id : string)
  : Op GoalOperations.self (option GoalResponse.t) :=
  let remaining_amount := Doc.target_amount goal_doc - Doc.current_amount goal_doc in
  if remaining_amount <? GoalContribution.amount contribution then
    raise (ValueError
             (ExceedsRemaining64 (GoalContribution.amount contribution) remaining_amount))
  else
    let new_amount := Doc.current_amount goal_doc + GoalContribution.amount contribution in
    let new_amount :=
      if Doc.target_amount goal_doc <? new_amount
      then Doc.target_amount goal_doc else new_amount in
    q <- lift (truediv new_amount (Doc.target_amount goal_doc)) ;;
    let progress := q * 100 in
    result <- GoalOperations.update_one (by_id_and_user o user_id)
                (GoalOperations.contribution_update now new_amount progress) ;;
    if (modified_count result =? 0)%nat then ret None
    else
      has_transactions <- GoalOperations.has_transactions_collection ;;
      _ <- (if has_transactions then
              try_except
                (GoalOperations.transactions_insert_one
                   (GoalOperations.transaction_doc now user_id contribution goal_doc goal_id))
                (fun trans_error => ret tt)
            else ret tt) ;;
      updated_goal <- GoalOperations.find_one (by_id_and_user o user_id) ;;
      r <- lift (GoalOperations._document_to_response updated_goal) ;;
      ret (Some r).

(** The store's own invariant: [_id] is a unique key of the goals collection. *)
Definition unique_ids (c : Collection.t) : Prop := NoDup (map Doc._id c).

(** The response [_document_to_response] builds from a document. *)
Definition response_of (d : Doc.t) : GoalResponse.t :=
  {| GoalResponse.id := str_of_oid (Doc._id d);
     GoalResponse.user_id := Doc.user_id d;
     GoalResponse.name := Doc.name d;
     GoalResponse.description := Doc.description d;
     GoalResponse.category := Doc.category d;
     GoalResponse.target_amount := Doc.target_amount d;
     GoalResponse.current_amount := Doc.current_amount d;
     GoalResponse.target_date := Doc.target_date d;
     GoalResponse.created_at := Doc.created_at d;
     GoalResponse.updated_at := Doc.updated_at d;
     GoalResponse.status := Doc.status d;
     GoalResponse.progress_percentage := Doc.progress_percentage d;
     GoalResponse.currency := Doc.currency d;
     GoalResponse.is_public := Doc.is_public d;
     GoalResponse.is_main := Doc.is_main d |}.

(** The ledger after a contribution: one more entry when the collection is
    there and takes the insert. *)
Definition ledger_after (entry : TransactionDoc.t) (t : option TransactionsCollection)
  : option TransactionsCollection :=
  match t with
  | None => None
  | Some tc =>
      if reachable tc then Some (mk_transactions (documents tc ++ [entry]) true)
      else Some tc
  end.

(** The sign of a value, read off its specification. *)

(** A value that is zero or above: what [x >= 0] accepts. *)
Definition SFnonneg (x : spec_float) : bool :=
  match x with
  | S754_zero _ => true
  | S754_infinity s | S754_finite s _ _ => negb s
  | S754_nan => false
  end.

(** A value above zero: what [x > 0] accepts. *)
Definition SFpositive (x : spec_float) : bool :=
  match x with
  | S754_infinity s | S754_finite s _ _ => negb s
  | _ => false
  end.

(** A value that is not below zero: zero, positive, or NaN. *)
Definition SFnot_negative (x : spec_float) : bool :=
  match x with
  | S754_infinity s | S754_finite s _ _ => negb s
  | _ => true
  end.

(** Data: a user's goal with the given amounts and status, alone in the
    store, with a reachable ledger. *)
Module Cases.

Definition goal (target current progress : float) (status : GoalStatus) : Doc.t :=
  {| Doc._id := Sample.id_a;
     Doc.user_id := Sample.user;
     Doc.name := "Viaje";
     Doc.description := None;
     Doc.category := SAVINGS;
     Doc.target_amount := target;
     Doc.current_amount := current;
     Doc.target_date := 20500;
     Doc.currency := "COP";
     Doc.is_public := false;
     Doc.is_main := true;
     Doc.status := status;
     Doc.created_at := mk_datetime 20300 0;
     Doc.updated_at := None;
     Doc.progress_percentage := progress |}.

Definition goal_ops (g : Doc.t) : GoalOperations.self :=
  GoalOperations.mk [g] (Some (mk_transactions [] true)).

Definition abono (amount : float) : GoalContribution.t :=
  GoalContribution.mk amount None None.

End Cases.

End Binary64.

(** * Properties *)

(** [cbn] leaves the comparison of two documents and the write of one
    folded. *)
Arguments Doc.same : simpl never.
Arguments Collection.write : simpl never.

(** ** Comparisons and the minimum *)

Lemma Qgt_bool_true (a b : Q) : Qgt_bool a b = true <-> b < a.
Proof.
  unfold Qgt_bool. rewrite negb_true_iff.
  split; intro H.
  - apply Qnot_le_lt. intro Hle. apply Qle_bool_iff in Hle. congruence.
  - destruct (Qle_bool a b) eqn:E; [|reflexivity].
    apply Qle_bool_iff in E. lra.
Qed.

Lemma Qgt_bool_false (a b : Q) : Qgt_bool a b = false <-> a <= b.
Proof.
  unfold Qgt_bool. rewrite negb_false_iff. apply Qle_bool_iff.
Qed.

Lemma Qeq_bool_false (a b : Q) : Qeq_bool a b = false <-> ~ a == b.
Proof.
  split.
  - apply Qeq_bool_neq.
  - intro H. destruct (Qeq_bool a b) eqn:E; [|reflexivity].
    apply Qeq_bool_iff in E. contradiction.
Qed.

Lemma py_min_is_Qmin (a b : Q) : py_min a b == Qmin a b.
Proof.
  unfold py_min. destruct (Qgt_bool a b) eqn:E.
  - apply Qgt_bool_true in E. symmetry. apply Q.min_r. lra.
  - apply Qgt_bool_false in E. symmetry. apply Q.min_l. exact E.
Qed.

Lemma py_min_le_r (a b : Q) : py_min a b <= b.
Proof.
  unfold py_min. destruct (Qgt_bool a b) eqn:E.
  - lra.
  - apply Qgt_bool_false in E. exact E.
Qed.

(** ** C7: the progress calculation *)

(** C7, counterexample: on the negative target -100 with 50 saved,
    [Goal.calculate_progress] returns -50: not 0, and below the interval
    [0, 100].  The initial progress of [create_goal] has no lower clamp
    either: -50 saved of 100 gives -50.  The same values come out in
    binary64, and there a target and a saved amount that are both infinite
    give NaN, which lies in no interval. *)
Lemma calculate_progress_negative_target :
  let g := GoalModel.mk (-100) 50 in
  GoalModel.target_amount g <= 0
  /\ GoalModel.calculate_progress g == -50
  /\ ~ GoalModel.calculate_progress g == 0
  /\ ~ 0 <= GoalModel.calculate_progress g
  /\ ~ 0 <= GoalOperations.initial_progress (-50) 100
  /\ Binary64.calculate_progress 50 (-100) = (-50)%float
  /\ Binary64.initial_progress (-50) 100 = (-50)%float
  /\ is_nan (Binary64.calculate_progress infinity infinity) = true
  /\ is_nan (Binary64.initial_progress infinity infinity) = true.
Proof.
  cbv zeta. repeat split.
  - cbn. lra.
  - vm_compute. discriminate.
  - vm_compute. intro H. apply H. reflexivity.
  - vm_compute. intro H. apply H. reflexivity.
Qed.

(** ** The store: [$set], [find_one] and [update_one] *)

Lemma assign_id (a : Doc.assignment) (d : Doc.t) : Doc._id (Doc.assign a d) = Doc._id d.
Proof. destruct a; reflexivity. Qed.

Lemma assign_user_id (a : Doc.assignment) (d : Doc.t) :
  Doc.user_id (Doc.assign a d) = Doc.user_id d.
Proof. destruct a; reflexivity. Qed.

Lemma set_id (u : list Doc.assignment) (d : Doc.t) : Doc._id (Doc.set u d) = Doc._id d.
Proof.
  unfold Doc.set. revert d.
  induction u as [|a u IH]; intro d; cbn.
  - reflexivity.
  - rewrite IH. apply assign_id.
Qed.

Lemma set_user_id (u : list Doc.assignment) (d : Doc.t) :
  Doc.user_id (Doc.set u d) = Doc.user_id d.
Proof.
  unfold Doc.set. revert d.
  induction u as [|a u IH]; intro d; cbn.
  - reflexivity.
  - rewrite IH. apply assign_user_id.
Qed.

Lemma write_id (u : list Doc.assignment) (d : Doc.t) :
  Doc._id (fst (Collection.write u d)) = Doc._id d.
Proof.
  unfold Collection.write. destruct (Doc.same _ _); cbn; [reflexivity | apply set_id].
Qed.

Lemma write_user_id (u : list Doc.assignment) (d : Doc.t) :
  Doc.user_id (fst (Collection.write u d)) = Doc.user_id d.
Proof.
  unfold Collection.write. destruct (Doc.same _ _); cbn; [reflexivity | apply set_user_id].
Qed.

Lemma by_id_and_user_write (o : oid) (user : string) (u : list Doc.assignment) (d : Doc.t) :
  by_id_and_user o user (fst (Collection.write u d)) = by_id_and_user o user d.
Proof. unfold by_id_and_user. rewrite write_id, write_user_id. reflexivity. Qed.

Lemma by_id_and_user_true (o : oid) (user : string) (d : Doc.t) :
  by_id_and_user o user d = true <-> Doc._id d = o /\ Doc.user_id d = user.
Proof.
  unfold by_id_and_user. rewrite andb_true_iff, !String.eqb_eq. reflexivity.
Qed.

(** [update_one] reports on the first match of its filter. *)
Lemma update_one_result (flt : Doc.t -> bool) (u : list Doc.assignment) (c : Collection.t) :
  snd (Collection.update_one flt u c)
  = match Collection.find_one flt c with
    | Some d => mk_result 1 (snd (Collection.write u d))
    | None => mk_result 0 0
    end.
Proof.
  unfold Collection.find_one.
  induction c as [|d c IH]; cbn.
  - reflexivity.
  - destruct (flt d); cbn; [reflexivity | exact IH].
Qed.

(** With no match, [update_one] leaves the collection as it is. *)
Lemma update_one_no_match (flt : Doc.t -> bool) (u : list Doc.assignment) (c : Collection.t) :
  Collection.find_one flt c = None -> fst (Collection.update_one flt u c) = c.
Proof.
  unfold Collection.find_one.
  induction c as [|d c IH]; cbn; intro H.
  - reflexivity.
  - destruct (flt d); [discriminate|]. cbn. rewrite IH by exact H. reflexivity.
Qed.

(** A filter on keys the write keeps finds the written document afterwards. *)
Lemma find_one_after_update_one (flt : Doc.t -> bool) (u : list Doc.assignment)
  (c : Collection.t) :
  (forall d, flt (fst (Collection.write u d)) = flt d) ->
  Collection.find_one flt (fst (Collection.update_one flt u c))
  = option_map (fun d => fst (Collection.write u d)) (Collection.find_one flt c).
Proof.
  intro Hkeep. unfold Collection.find_one.
  induction c as [|d c IH]; cbn.
  - reflexivity.
  - destruct (flt d) eqn:E; cbn.
    + rewrite Hkeep, E. reflexivity.
    + rewrite E. exact IH.
Qed.

(** Under unique ids a document of the collection is the one its id finds. *)
Lemma find_one_by_own_id (c : Collection.t) (g : Doc.t) :
  unique_ids c -> In g c ->
  Collection.find_one (by_id_and_user (Doc._id g) (Doc.user_id g)) c = Some g.
Proof.
  unfold unique_ids, Collection.find_one.
  induction c as [|d c IH]; cbn; intros Hnd Hin.
  - contradiction.
  - inversion Hnd as [|x l Hnotin Hnd']; subst.
    destruct Hin as [-> | Hin].
    + unfold by_id_and_user. rewrite !String.eqb_refl. reflexivity.
    + destruct (by_id_and_user (Doc._id g) (Doc.user_id g) d) eqn:E.
      * apply by_id_and_user_true in E. destruct E as [Eid _].
        exfalso. apply Hnotin. rewrite Eid. apply in_map. exact Hin.
      * apply IH; assumption.
Qed.

(** The main goal found by its flag is also the goal its id finds. *)
Lemma main_goal_by_id (user : string) (c : Collection.t) (g : Doc.t) :
  unique_ids c ->
  Collection.find_one (main_of_user user) c = Some g ->
  Collection.find_one (by_id_and_user (Doc._id g) user) c = Some g.
Proof.
  intros Hnd Hfind. unfold Collection.find_one in Hfind.
  apply find_some in Hfind. destruct Hfind as [Hin Hmain].
  unfold main_of_user in Hmain. apply andb_true_iff in Hmain.
  destruct Hmain as [Huser _]. apply String.eqb_eq in Huser.
  rewrite <- Huser. apply find_one_by_own_id; assumption.
Qed.

(** ** The contribution after its lookup *)

(** The two contribute functions are [after_lookup] behind their lookup. *)
Lemma contribute_to_goal_found (now : datetime) (goal_id user : string)
  (c : GoalContribution.t) (s : GoalOperations.self) (o : oid) (g : Doc.t) :
  ObjectId goal_id = Returns o ->
  Collection.find_one (by_id_and_user o user) (GoalOperations.collection s) = Some g ->
  GoalOperations.contribute_to_goal now goal_id user c s
  = try_except (after_lookup now user c g o goal_id) (fun _ => ret None) s.
Proof.
  intros Hid Hfind.
  unfold GoalOperations.contribute_to_goal, try_except, bind, lift, GoalOperations.find_one.
  rewrite Hid, Hfind. reflexivity.
Qed.

Lemma contribute_to_main_goal_found (now : datetime) (user : string)
  (c : GoalContribution.t) (s : GoalOperations.self) (g : Doc.t) :
  Collection.find_one (main_of_user user) (GoalOperations.collection s) = Some g ->
  GoalOperations.contribute_to_main_goal now user c s
  = try_except (after_lookup now user c g (Doc._id g) (str_of_oid (Doc._id g)))
               (fun _ => ret None) s.
Proof.
  intro Hfind.
  unfold GoalOperations.contribute_to_main_goal, try_except, bind, GoalOperations.find_one.
  rewrite Hfind. reflexivity.
Qed.

(** Under either selector: the goal found is the first match of the update
    filter, and the operation is [after_lookup] inside the blanket handler. *)
Lemma contribute_found (now : datetime) (user : string) (sel : selector)
  (c : GoalContribution.t) (s : GoalOperations.self) (g : Doc.t) :
  unique_ids (GoalOperations.collection s) ->
  lookup sel user (GoalOperations.collection s) = Some g ->
  exists (o : oid) (goal_id : string),
    Collection.find_one (by_id_and_user o user) (GoalOperations.collection s) = Some g
    /\ contribute now user sel c s
       = try_except (after_lookup now user c g o goal_id) (fun _ => ret None) s.
Proof.
  intros Hnd Hlook. destruct sel as [|goal_id]; cbn in *.
  - exists (Doc._id g), (str_of_oid (Doc._id g)). split.
    + apply main_goal_by_id; assumption.
    + apply contribute_to_main_goal_found. exact Hlook.
  - destruct (ObjectId goal_id) as [o|e] eqn:Hid; [|discriminate].
    exists o, goal_id. split.
    + exact Hlook.
    + apply contribute_to_goal_found; assumption.
Qed.

(** An amount above the remaining capacity raises before any write. *)
Lemma after_lookup_rejects (now : datetime) (user : string) (c : GoalContribution.t)
  (g : Doc.t) (o : oid) (goal_id : string) (s : GoalOperations.self) :
  Doc.target_amount g - Doc.current_amount g < GoalContribution.amount c ->
  after_lookup now user c g o goal_id s
  = (Raises (ValueError (ExceedsRemaining (GoalContribution.amount c)
                           (Doc.target_amount g - Doc.current_amount g))), s).
Proof.
  intro H. unfold after_lookup.
  apply Qgt_bool_true in H. rewrite H. reflexivity.
Qed.

Lemma contributed_fields (now : datetime) (amount : Q) (g : Doc.t) :
  let progress := (Doc.current_amount g + amount) / Doc.target_amount g * 100 in
  Doc.current_amount (contributed now amount g) = Doc.current_amount g + amount
  /\ Doc.target_amount (contributed now amount g) = Doc.target_amount g
  /\ Doc.progress_percentage (contributed now amount g) = py_min progress 100
  /\ Doc.status (contributed now amount g)
     = (if Qle_bool 100 progress then COMPLETED else Doc.status g)
  /\ Doc.updated_at (contributed now amount g) = Some now.
Proof.
  cbv zeta. unfold contributed, GoalOperations.contribution_update.
  destruct (Qle_bool 100 _); cbn; repeat split; reflexivity.
Qed.

Lemma same_current_amount (a b : Doc.t) :
  Doc.same a b = true -> Doc.current_amount a == Doc.current_amount b.
Proof.
  unfold Doc.same. rewrite !andb_true_iff.
  intro H. apply Qeq_bool_iff. tauto.
Qed.

(** A positive amount changes the document, so the write counts as modified. *)
Lemma write_contributed (now : datetime) (amount : Q) (g : Doc.t) :
  0 < amount ->
  Collection.write
    (GoalOperations.contribution_update now (Doc.current_amount g + amount)
       ((Doc.current_amount g + amount) / Doc.target_amount g * 100)) g
  = (contributed now amount g, 1%nat).
Proof.
  intro Hpos. unfold Collection.write. fold (contributed now amount g).
  destruct (Doc.same (contributed now amount g) g) eqn:E; [|reflexivity].
  apply same_current_amount in E.
  destruct (contributed_fields now amount g) as [Hc _]. rewrite Hc in E. lra.
Qed.

(** An amount within the remaining capacity is written, entered in the
    ledger when the ledger takes it, and the stored document is returned. *)
Lemma after_lookup_accepts (now : datetime) (user : string) (c : GoalContribution.t)
  (g : Doc.t) (o : oid) (goal_id : string) (s : GoalOperations.self) :
  Collection.find_one (by_id_and_user o user) (GoalOperations.collection s) = Some g ->
  0 < GoalContribution.amount c ->
  GoalContribution.amount c <= Doc.target_amount g - Doc.current_amount g ->
  ~ Doc.target_amount g == 0 ->
  let g' := contributed now (GoalContribution.amount c) g in
  let s' :=
    GoalOperations.mk
      (fst (Collection.update_one (by_id_and_user o user)
              (GoalOperations.contribution_update now
                 (Doc.current_amount g + GoalContribution.amount c)
                 ((Doc.current_amount g + GoalContribution.amount c)
                  / Doc.target_amount g * 100))
              (GoalOperations.collection s)))
      (ledger_after (GoalOperations.transaction_doc now user c g goal_id)
                    (GoalOperations.transactions_collection s)) in
  Collection.find_one (by_id_and_user o user) (GoalOperations.collection s') = Some g'
  /\ exists r,
       GoalOperations._document_to_response (Some g') = Returns r
       /\ after_lookup now user c g o goal_id s = (Returns (Some r), s').
Proof.
  intros Hfind Hpos Hcap Hnz. cbv zeta.
  set (upd := GoalOperations.contribution_update _ _ _).
  assert (Hafter :
    Collection.find_one (by_id_and_user o user)
      (fst (Collection.update_one (by_id_and_user o user) upd (GoalOperations.collection s)))
    = Some (contributed now (GoalContribution.amount c) g)).
  { rewrite find_one_after_update_one by (intro d; apply by_id_and_user_write).
    rewrite Hfind. cbn [option_map]. unfold upd. rewrite write_contributed by exact Hpos.
    reflexivity. }
  split; [exact Hafter|].
  eexists. split; [reflexivity|].
  unfold after_lookup.
  apply Qgt_bool_false in Hcap. rewrite Hcap.
  assert (Hclamp : Qgt_bool (Doc.current_amount g + GoalContribution.amount c)
                            (Doc.target_amount g) = false).
  { apply Qgt_bool_false. apply Qgt_bool_false in Hcap. lra. }
  rewrite Hclamp.
  unfold truediv. apply Qeq_bool_false in Hnz. rewrite Hnz.
  unfold bind, lift, GoalOperations.update_one. fold upd.
  rewrite update_one_result, Hfind. unfold upd at 1.
  rewrite write_contributed by exact Hpos.
  cbn [snd modified_count Nat.eqb].
  unfold GoalOperations.has_transactions_collection, GoalOperations.find_one,
    GoalOperations.transactions_insert_one, try_except, ret.
  cbn [GoalOperations.collection GoalOperations.transactions_collection].
  destruct (GoalOperations.transactions_collection s) as [tc|];
    cbn [ledger_after GoalOperations.collection GoalOperations.transactions_collection].
  - destruct (reachable tc); cbn [GoalOperations.collection];
      rewrite Hafter; reflexivity.
  - rewrite Hafter. reflexivity.
Qed.

Lemma py_min_le_l (a b : Q) : py_min a b <= a.
Proof.
  unfold py_min. destruct (Qgt_bool a b) eqn:E.
  - apply Qgt_bool_true in E. lra.
  - lra.
Qed.

(** A well-formed object id is not the path segment ["main-goal"]. *)
Lemma lookup_by_id_not_main_goal (goal_id user : string) (c : Collection.t) (g : Doc.t) :
  lookup (ById goal_id) user c = Some g -> String.eqb goal_id "main-goal" = false.
Proof.
  intro H. destruct (String.eqb_spec goal_id "main-goal") as [->|]; [|reflexivity].
  vm_compute in H. discriminate.
Qed.

(** The handlers pass on the goal an operation returns. *)
Lemma contribute_endpoint_returns (now : datetime) (user : string) (sel : selector)
  (c : GoalContribution.t) (s s' : GoalOperations.self) (g : Doc.t) (r : GoalResponse.t) :
  lookup sel user (GoalOperations.collection s) = Some g ->
  contribute now user sel c s = (Returns (Some r), s') ->
  contribute_endpoint now user sel c s = (Returns r, s').
Proof.
  intros Hlook Hop. destruct sel as [|goal_id]; cbn in *.
  - unfold Routers.contribute_to_main_goal, try_except, bind. rewrite Hop. reflexivity.
  - unfold Routers.contribute_to_goal, try_except.
    rewrite (lookup_by_id_not_main_goal _ _ _ _ Hlook).
    unfold bind. rewrite Hop. reflexivity.
Qed.

(** A [None] from the operation becomes a 404 inside the handler's [try],
    which its [except Exception] turns into a 500. *)
Lemma contribute_endpoint_none (now : datetime) (user : string) (sel : selector)
  (c : GoalContribution.t) (s s' : GoalOperations.self) (g : Doc.t) :
  lookup sel user (GoalOperations.collection s) = Some g ->
  contribute now user sel c s = (Returns None, s') ->
  contribute_endpoint now user sel c s
  = (Raises (HTTPException 500
               (Text match sel with
                     | ByMainFlag => "Error al realizar abono a meta principal"
                     | ById _ => "Error al realizar abono"
                     end)), s').
Proof.
  intros Hlook Hop. destruct sel as [|goal_id]; cbn in *.
  - unfold Routers.contribute_to_main_goal, try_except, bind. rewrite Hop. reflexivity.
  - unfold Routers.contribute_to_goal, try_except.
    rewrite (lookup_by_id_not_main_goal _ _ _ _ Hlook).
    unfold bind. rewrite Hop. reflexivity.
Qed.

(** A contribution that passed the model's validation has a positive amount. *)
Lemma valid_contribution_positive (today : date) (c : GoalContribution.t) :
  GoalContribution.validate today c = true -> 0 < GoalContribution.amount c.
Proof.
  unfold GoalContribution.validate. rewrite !andb_true_iff.
  intros [[[H _] _] _]. apply Qgt_bool_true. exact H.
Qed.

(** The operation on an amount above the remaining capacity. *)
Lemma contribute_rejects (now : datetime) (user : string) (sel : selector)
  (c : GoalContribution.t) (s : GoalOperations.self) (g : Doc.t) :
  lookup sel user (GoalOperations.collection s) = Some g ->
  Doc.target_amount g - Doc.current_amount g < GoalContribution.amount c ->
  contribute now user sel c s = (Returns None, s).
Proof.
  intros Hlook Hover. destruct sel as [|goal_id]; cbn in *.
  - rewrite (contribute_to_main_goal_found _ _ _ _ _ Hlook).
    unfold try_except. rewrite after_lookup_rejects by exact Hover. reflexivity.
  - destruct (ObjectId goal_id) as [o|e] eqn:Hid; [|discriminate].
    rewrite (contribute_to_goal_found _ _ _ _ _ _ _ Hid Hlook).
    unfold try_except. rewrite after_lookup_rejects by exact Hover. reflexivity.
Qed.

(** The operation on an amount within the remaining capacity. *)
Lemma contribute_accepts (now : datetime) (user : string) (sel : selector)
  (c : GoalContribution.t) (s : GoalOperations.self) (g : Doc.t) :
  unique_ids (GoalOperations.collection s) ->
  lookup sel user (GoalOperations.collection s) = Some g ->
  0 < GoalContribution.amount c ->
  GoalContribution.amount c <= Doc.target_amount g - Doc.current_amount g ->
  ~ Doc.target_amount g == 0 ->
  exists r s' entry,
    contribute now user sel c s = (Returns (Some r), s')
    /\ GoalOperations._document_to_response
         (Some (contributed now (GoalContribution.amount c) g)) = Returns r
    /\ Collection.find_one (by_id_and_user (Doc._id g) user) (GoalOperations.collection s')
       = Some (contributed now (GoalContribution.amount c) g)
    /\ GoalOperations.transactions_collection s'
       = ledger_after entry (GoalOperations.transactions_collection s)
    /\ TransactionDoc.amount entry = GoalContribution.amount c.
Proof.
  intros Hnd Hlook Hpos Hcap Hnz.
  destruct (contribute_found now user sel c s g Hnd Hlook) as (o & goal_id & Hfind & Heq).
  destruct (after_lookup_accepts now user c g o goal_id s Hfind Hpos Hcap Hnz)
    as (Hstored & r & Hr & Hrun).
  assert (Ho : Doc._id g = o).
  { unfold Collection.find_one in Hfind. apply find_some in Hfind.
    destruct Hfind as [_ Hflt]. apply by_id_and_user_true in Hflt. tauto. }
  eexists r, _, (GoalOperations.transaction_doc now user c g goal_id).
  split.
  - rewrite Heq. unfold try_except. rewrite Hrun. reflexivity.
  - rewrite Ho. cbn. repeat split; try reflexivity; assumption.
Qed.

Lemma response_fields (d : Doc.t) (r : GoalResponse.t) :
  GoalOperations._document_to_response (Some d) = Returns r ->
  GoalResponse.current_amount r = Doc.current_amount d
  /\ GoalResponse.target_amount r = Doc.target_amount d
  /\ GoalResponse.progress_percentage r = Doc.progress_percentage d
  /\ GoalResponse.status r = Doc.status d
  /\ GoalResponse.id r = Doc._id d.
Proof.
  intro H. cbn in H. injection H as <-. cbn. repeat split; reflexivity.
Qed.

Lemma sample_unique_ids : unique_ids (GoalOperations.collection Sample.goal_ops).
Proof.
  unfold unique_ids. cbn.
  repeat constructor; cbn; intuition discriminate.
Qed.

(** ** C1: the capacity error and the caller *)

(** C1 (the code departs from it): for every contribution above the
    remaining capacity, under either selector, the operation returns [None]
    and the handler answers with status 500 and a fixed text; the
    [ValueError] holding the attempted and the remaining amount does not
    reach the caller. *)
Theorem over_capacity_error_not_surfaced (now : datetime) (user : string) (sel : selector)
  (c : GoalContribution.t) (s : GoalOperations.self) (g : Doc.t) :
  lookup sel user (GoalOperations.collection s) = Some g ->
  Doc.target_amount g - Doc.current_amount g < GoalContribution.amount c ->
  fst (contribute now user sel c s) = Returns None
  /\ fst (contribute_endpoint now user sel c s)
     = Raises (HTTPException 500
                 (Text match sel with
                       | ByMainFlag => "Error al realizar abono a meta principal"
                       | ById _ => "Error al realizar abono"
                       end)).
Proof.
  intros Hlook Hover.
  pose proof (contribute_rejects now user sel c s g Hlook Hover) as Hop.
  split.
  - rewrite Hop. reflexivity.
  - rewrite (contribute_endpoint_none now user sel c s s g Hlook Hop). reflexivity.
Qed.

(** C1 at the goal with target 500,000 and 100,000 saved, contribution
    450,000, by goal id: the answer is the status 500 without amounts. *)
Lemma over_capacity_error_not_surfaced_witness :
  fst (contribute Sample.now Sample.user (ById Sample.id_a) (Sample.abono 450000)
         Sample.goal_ops) = Returns None
  /\ fst (contribute_endpoint Sample.now Sample.user (ById Sample.id_a)
            (Sample.abono 450000) Sample.goal_ops)
     = Raises (HTTPException 500 (Text "Error al realizar abono")).
Proof.
  apply (over_capacity_error_not_surfaced Sample.now Sample.user (ById Sample.id_a)
           (Sample.abono 450000) Sample.goal_ops Sample.trip).
  - reflexivity.
  - reflexivity.
Defined.

(** ** C6: a failed ledger insert *)



(** ** C9: contributions do not look at the status *)


Lemma shelved_unique_ids : unique_ids (GoalOperations.collection Sample.goal_ops_shelved).
Proof.
  unfold unique_ids. cbn.
  repeat constructor; cbn; intuition discriminate.
Qed.


(** ** C10: a failed [set_goal_as_main] *)

(** The first step of [set_goal_as_main] leaves the user without a main goal. *)
Lemma update_many_clears_main (now : datetime) (user : string) (c : Collection.t) :
  Forall (fun d => Doc.user_id d = user -> Doc.is_main d = false)
    (fst (Collection.update_many (main_of_user user)
            [Doc.set_is_main false; Doc.set_updated_at now] c)).
Proof.
  induction c as [|d c IH]; cbn.
  - constructor.
  - destruct (main_of_user user d) eqn:E; cbn.
    + constructor; [|exact IH].
      intros _. unfold main_of_user in E. apply andb_true_iff in E.
      destruct E as [_ Emain].
      unfold Collection.write.
      destruct (Doc.same _ d) eqn:Esame; cbn; [|reflexivity].
      exfalso. unfold Doc.same in Esame. cbn in Esame.
      rewrite Emain in Esame. cbn in Esame.
      rewrite !andb_false_r in Esame. cbn in Esame. discriminate.
    + constructor; [|exact IH].
      intro Huser. unfold main_of_user in E. rewrite Huser, String.eqb_refl in E.
      exact E.
Qed.

(** [update_many] keeps ids and owners, so it creates no match for a
    filter on them. *)
Lemma update_many_keeps_no_match (flt : Doc.t -> bool) (u : list Doc.assignment)
  (o : oid) (user : string) (c : Collection.t) :
  Collection.find_one (by_id_and_user o user) c = None ->
  Collection.find_one (by_id_and_user o user) (fst (Collection.update_many flt u c)) = None.
Proof.
  unfold Collection.find_one.
  induction c as [|d c IH]; cbn; intro H.
  - reflexivity.
  - destruct (by_id_and_user o user d) eqn:E; [discriminate|].
    destruct (flt d); cbn.
    + rewrite by_id_and_user_write, E. apply IH. exact H.
    + rewrite E. apply IH. exact H.
Qed.

Lemma no_main_goal (user : string) (c : Collection.t) :
  Forall (fun d => Doc.user_id d = user -> Doc.is_main d = false) c ->
  Collection.find_one (main_of_user user) c = None.
Proof.
  unfold Collection.find_one.
  induction 1 as [|d c Hd _ IH]; cbn.
  - reflexivity.
  - unfold main_of_user at 1.
    destruct (String.eqb_spec (Doc.user_id d) user) as [E|E]; cbn.
    + rewrite (Hd E). exact IH.
    + exact IH.
Qed.

(** C10: when [goal_id] names no goal of the user (an id that is malformed,
    unknown, or of another user's goal), [set_goal_as_main] fails: its
    [try] block raises the not-found 404 for a well-formed id, the handler
    answers 500, and the store it leaves has [is_main] false on every goal
    of the user, so the user has no main goal. *)
Theorem failed_set_main_clears_main_flags (now : datetime) (goal_id user : string)
  (s : GoalOperations.self) :
  lookup (ById goal_id) user (GoalOperations.collection s) = None ->
  let s' := snd (Routers.set_goal_as_main now goal_id user s) in
  fst (Routers.set_goal_as_main now goal_id user s)
  = Raises (HTTPException 500 (Text "Error interno del servidor"))
  /\ (forall o, ObjectId goal_id = Returns o ->
      fst (Routers.set_goal_as_main_try now goal_id user s)
      = Raises (HTTPException 404 (Text "Meta no encontrada o no pertenece al usuario")))
  /\ Forall (fun d => Doc.user_id d = user -> Doc.is_main d = false)
       (GoalOperations.collection s')
  /\ Collection.find_one (main_of_user user) (GoalOperations.collection s') = None.
Proof.
  intro Hlook. cbv zeta.
  assert (Htry :
    exists e,
      Routers.set_goal_as_main_try now goal_id user s
      = (Raises e,
         GoalOperations.mk
           (fst (Collection.update_many (main_of_user user)
                   [Doc.set_is_main false; Doc.set_updated_at now]
                   (GoalOperations.collection s)))
           (GoalOperations.transactions_collection s))
      /\ (forall o, ObjectId goal_id = Returns o ->
          e = HTTPException 404 (Text "Meta no encontrada o no pertenece al usuario"))).
  { unfold Routers.set_goal_as_main_try, bind, lift, GoalOperations.update_many,
      GoalOperations.update_one.
    cbn in Hlook.
    destruct (ObjectId goal_id) as [o|e] eqn:Hid.
    - eexists.
      rewrite update_one_result.
      cbn [GoalOperations.collection GoalOperations.transactions_collection].
      rewrite (update_many_keeps_no_match _ _ _ _ _ Hlook). cbn.
      rewrite update_one_no_match by (apply update_many_keeps_no_match; exact Hlook).
      split; [reflexivity|]. intros; reflexivity.
    - exists e. split; [reflexivity|]. intros o' Ho'. discriminate. }
  destruct Htry as (e & Hrun & He).
  unfold Routers.set_goal_as_main, try_except. rewrite Hrun. cbn.
  repeat split.
  - intros o Ho. rewrite (He o Ho). reflexivity.
  - apply update_many_clears_main.
  - apply no_main_goal. apply update_many_clears_main.
Qed.

(** C10 at a user whose main goal is "Viaje": [set_goal_as_main] with an
    id that names no goal fails and leaves the user without a main goal. *)
Lemma failed_set_main_clears_main_flags_witness :
  Collection.find_one (main_of_user Sample.user) (GoalOperations.collection Sample.goal_ops)
  = Some Sample.trip
  /\ fst (Routers.set_goal_as_main Sample.now Sample.absent_id Sample.user Sample.goal_ops)
     = Raises (HTTPException 500 (Text "Error interno del servidor"))
  /\ Collection.find_one (main_of_user Sample.user)
       (GoalOperations.collection
          (snd (Routers.set_goal_as_main Sample.now Sample.absent_id Sample.user
                  Sample.goal_ops))) = None.
Proof.
  split; [reflexivity|].
  destruct (failed_set_main_clears_main_flags Sample.now Sample.absent_id Sample.user
              Sample.goal_ops) as (Hfail & _ & _ & Hnone).
  - reflexivity.
  - split; assumption.
Defined.

(** ** C2: the amount invariant under [update_goal] and [create_goal] *)

(** C2 (the code departs from it): on a goal created with target 1,000
    and nothing saved, the valid edit [current_amount = 2000] is stored as
    it comes: the goal returned and the goal at rest have
    [current_amount > target_amount] (progress 100, status still active).
    [create_goal] likewise stores a new goal with 2,000 saved of 1,000.
    The [Goal] model's own validator rejects both pairs of amounts. *)
Theorem update_goal_stores_amount_above_target :
  let today := dt_date Sample.now in
  let created :=
    GoalOperations.create_goal Sample.now Sample.id_a Sample.user EditSample.new_goal
      EditSample.empty in
  let updated :=
    GoalOperations.update_goal EditSample.later Sample.id_a Sample.user
      EditSample.raise_current (snd created) in
  GoalCreate.validate today EditSample.new_goal = true
  /\ GoalUpdate.validate today EditSample.raise_current = true
  /\ (exists r stored,
        fst updated = Returns (Some r)
        /\ GoalOperations.collection (snd updated) = [stored]
        /\ GoalResponse.target_amount r == 1000
        /\ GoalResponse.current_amount r == 2000
        /\ Doc.target_amount stored < Doc.current_amount stored
        /\ Doc.progress_percentage stored == 100
        /\ Doc.status stored = ACTIVE)
  /\ GoalCreate.validate today EditSample.overfull_goal = true
  /\ (exists stored,
        GoalOperations.collection
          (snd (GoalOperations.create_goal Sample.now Sample.id_a Sample.user
                  EditSample.overfull_goal EditSample.empty)) = [stored]
        /\ Doc.target_amount stored < Doc.current_amount stored)
  /\ GoalModel.validate (GoalModel.mk 1000 2000) = false.
Proof.
  cbv zeta.
  split; [reflexivity|]. split; [reflexivity|].
  split.
  { eexists _, _. split; [vm_compute; reflexivity|].
    split; [vm_compute; reflexivity|].
    repeat split. }
  split; [reflexivity|].
  split; [|reflexivity].
  eexists. split; [vm_compute; reflexivity|]. reflexivity.
Qed.

(** ** C8: the average progress of [get_goal_stats] *)

(** C8 (the code departs from it): for a user with an active goal at 50%
    and an archived goal at 100%, [get_goal_stats] counts one goal
    ([total_goals_count] adds the active, completed and failed counts only)
    but sums the progress of both, so it returns the average 150 where the
    weighted average over all statuses is 75. *)
Theorem get_goal_stats_average_skips_archived_count :
  let results :=
    GoalOperations.aggregate_by_status Sample.user
      (GoalOperations.collection StatsSample.goal_ops) in
  exists stats,
    GoalOperations.get_goal_stats Sample.user StatsSample.goal_ops
    = (Returns stats, StatsSample.goal_ops)
    /\ map GoalOperations.row_id results = [ACTIVE; ARCHIVED]
    /\ map GoalOperations.count results = [1%Z; 1%Z]
    /\ GoalStats.total_goals_count stats = 1%Z
    /\ GoalStats.average_progress stats == 150
    /\ average_over_all_statuses results == 75
    /\ ~ GoalStats.average_progress stats == average_over_all_statuses results.
Proof.
  cbv zeta. eexists. split; [vm_compute; reflexivity|].
  repeat split.
  vm_compute. discriminate.
Qed.

(** ** C3: concurrent contributions *)

(** The steps that follow the capacity check are the rest of the operation. *)
Lemma steps_after_check (r : Concurrent.request) (g : Doc.t) (o : oid) (goal_id : string)
  (s : GoalOperations.self) :
  let p1 := Concurrent.check r g o goal_id in
  let '(p2, s2) := Concurrent.step r p1 s in
  let '(p3, s3) := Concurrent.step r p2 s2 in
  let '(p4, s4) := Concurrent.step r p3 s3 in
  exists result,
    p4 = Concurrent.Done result
    /\ try_except
         (after_lookup (Concurrent.req_now r) (Concurrent.req_user r)
            (Concurrent.req_contribution r) g o goal_id)
         (fun _ => ret None) s
       = (Returns result, s4).
Proof.
  destruct r as [now user sel c]. cbv zeta.
  unfold Concurrent.check, after_lookup, try_except.
  cbn [Concurrent.req_now Concurrent.req_user Concurrent.req_contribution].
  destruct (Qgt_bool (GoalContribution.amount c) _).
  { cbn. eexists; split; reflexivity. }
  unfold truediv, bind, lift.
  destruct (Qeq_bool (Doc.target_amount g) 0).
  { cbn. eexists; split; reflexivity. }
  set (new_amount := if Qgt_bool _ _ then _ else _).
  unfold Concurrent.step at 1. unfold GoalOperations.update_one.
  cbn [Concurrent.req_now Concurrent.req_user Concurrent.req_contribution
       GoalOperations.collection GoalOperations.transactions_collection].
  set (written := Collection.update_one _ _ _).
  cbn [fst snd].
  destruct (modified_count (snd written) =? 0)%nat.
  { cbn. eexists; split; reflexivity. }
  unfold GoalOperations.has_transactions_collection, GoalOperations.transactions_insert_one,
    GoalOperations.find_one, ret.
  cbn [GoalOperations.collection GoalOperations.transactions_collection].
  destruct (GoalOperations.transactions_collection s) as [tc|].
  - unfold Concurrent.step at 1.
    unfold GoalOperations.transactions_insert_one.
    cbn [GoalOperations.collection GoalOperations.transactions_collection
         Concurrent.req_now Concurrent.req_user Concurrent.req_contribution].
    destruct (reachable tc);
      cbn [fst snd Concurrent.step GoalOperations.collection Concurrent.req_user];
      destruct (Collection.find_one (by_id_and_user o user) (fst written));
      cbn; eexists; split; reflexivity.
  - unfold Concurrent.step at 1.
    cbn [GoalOperations.collection Concurrent.req_user].
    destruct (Collection.find_one (by_id_and_user o user) (fst written));
      cbn; eexists; split; reflexivity.
Qed.

(** X16: a call that runs alone is the contribute operation: the steps are
    the operation cut at its awaits. *)
Lemma alone_is_contribute (r : Concurrent.request) (s : GoalOperations.self) :
  exists result,
    fst (Concurrent.alone r s) = Concurrent.Done result
    /\ contribute (Concurrent.req_now r) (Concurrent.req_user r) (Concurrent.req_selector r)
         (Concurrent.req_contribution r) s
       = (Returns result, snd (Concurrent.alone r s)).
Proof.
  unfold Concurrent.alone.
  destruct (Concurrent.req_selector r) as [|goal_id] eqn:Hsel; unfold contribute.
  - destruct (Collection.find_one (main_of_user (Concurrent.req_user r))
                (GoalOperations.collection s)) as [g|] eqn:Hfind.
    + assert (Hstep : Concurrent.step r Concurrent.AtLookup s
                      = (Concurrent.check r g (Doc._id g) (str_of_oid (Doc._id g)), s))
        by (unfold Concurrent.step; rewrite Hsel, Hfind; reflexivity).
      rewrite Hstep, (contribute_to_main_goal_found _ _ _ _ _ Hfind).
      clear Hstep. cbv beta iota zeta.
      pose proof (steps_after_check r g (Doc._id g) (str_of_oid (Doc._id g)) s) as H.
      cbv zeta in H.
      destruct (Concurrent.step r _ s) as [p2 s2].
      destruct (Concurrent.step r p2 s2) as [p3 s3].
      destruct (Concurrent.step r p3 s3) as [p4 s4].
      exact H.
    + assert (Hstep : Concurrent.step r Concurrent.AtLookup s = (Concurrent.Done None, s))
        by (unfold Concurrent.step; rewrite Hsel, Hfind; reflexivity).
      rewrite Hstep. exists None. split; [reflexivity|].
      unfold GoalOperations.contribute_to_main_goal, try_except, bind,
        GoalOperations.find_one.
      rewrite Hfind. reflexivity.
  - destruct (ObjectId goal_id) as [o|e] eqn:Hid.
    + destruct (Collection.find_one (by_id_and_user o (Concurrent.req_user r))
                  (GoalOperations.collection s)) as [g|] eqn:Hfind.
      * assert (Hstep : Concurrent.step r Concurrent.AtLookup s
                        = (Concurrent.check r g o goal_id, s))
          by (unfold Concurrent.step; rewrite Hsel, Hid, Hfind; reflexivity).
        rewrite Hstep, (contribute_to_goal_found _ _ _ _ _ _ _ Hid Hfind).
        clear Hstep. cbv beta iota zeta.
        pose proof (steps_after_check r g o goal_id s) as H.
        cbv zeta in H.
        destruct (Concurrent.step r _ s) as [p2 s2].
        destruct (Concurrent.step r p2 s2) as [p3 s3].
        destruct (Concurrent.step r p3 s3) as [p4 s4].
        exact H.
      * assert (Hstep : Concurrent.step r Concurrent.AtLookup s = (Concurrent.Done None, s))
          by (unfold Concurrent.step; rewrite Hsel, Hid, Hfind; reflexivity).
        rewrite Hstep. exists None. split; [reflexivity|].
        unfold GoalOperations.contribute_to_goal, try_except, bind, lift,
          GoalOperations.find_one.
        rewrite Hid, Hfind. reflexivity.
    + assert (Hstep : Concurrent.step r Concurrent.AtLookup s = (Concurrent.Done None, s))
        by (unfold Concurrent.step; rewrite Hsel, Hid; reflexivity).
      rewrite Hstep. exists None. split; [reflexivity|].
      unfold GoalOperations.contribute_to_goal, try_except, bind, lift.
      rewrite Hid. reflexivity.
Qed.

(** *** What the write of a contribution keeps and sets *)

Lemma contribution_update_fields (now : datetime) (a p : Q) (d : Doc.t) :
  Concurrent.keys (Doc.set (GoalOperations.contribution_update now a p) d) = Concurrent.keys d
  /\ Doc.current_amount (Doc.set (GoalOperations.contribution_update now a p) d) = a.
Proof.
  unfold GoalOperations.contribution_update, Concurrent.keys.
  destruct (Qle_bool 100 p); split; reflexivity.
Qed.

Lemma write_contribution (now : datetime) (a p : Q) (d : Doc.t) :
  let d' := fst (Collection.write (GoalOperations.contribution_update now a p) d) in
  Concurrent.keys d' = Concurrent.keys d
  /\ (d' = d \/ Doc.current_amount d' = a).
Proof.
  cbv zeta. unfold Collection.write.
  destruct (Doc.same _ d); cbn [fst].
  - split; [reflexivity | left; reflexivity].
  - destruct (contribution_update_fields now a p d) as [Hk Hc].
    split; [exact Hk | right; exact Hc].
Qed.

Lemma update_one_contribution_keys (flt : Doc.t -> bool) (now : datetime) (a p : Q)
  (c : Collection.t) :
  map Concurrent.keys
    (fst (Collection.update_one flt (GoalOperations.contribution_update now a p) c))
  = map Concurrent.keys c.
Proof.
  induction c as [|d c IH]; cbn [Collection.update_one].
  - reflexivity.
  - destruct (flt d); cbn [fst map].
    + destruct (write_contribution now a p d) as [Hk _]. cbv zeta in Hk.
      rewrite Hk. reflexivity.
    + rewrite IH. reflexivity.
Qed.

Lemma update_one_contribution_within_target (flt : Doc.t -> bool) (now : datetime)
  (a p : Q) (c : Collection.t) :
  Concurrent.within_target c ->
  (forall d, In d c -> flt d = true -> a <= Doc.target_amount d) ->
  Concurrent.within_target
    (fst (Collection.update_one flt (GoalOperations.contribution_update now a p) c)).
Proof.
  unfold Concurrent.within_target.
  induction 1 as [|d c Hd Hc IH]; intro Hpending; cbn [Collection.update_one].
  - constructor.
  - destruct (flt d) eqn:E; cbn [fst].
    + constructor; [|exact Hc].
      destruct (write_contribution now a p d) as [Hk [Hsame | Hset]]; cbv zeta in *.
      * rewrite Hsame. exact Hd.
      * assert (Ht := f_equal snd Hk). cbn [snd Concurrent.keys] in Ht.
        rewrite Hset, Ht. apply Hpending; [left; reflexivity | exact E].
    + constructor; [exact Hd|].
      apply IH. intros d' Hin. apply Hpending. right. exact Hin.
Qed.

(** *** Keys decide what a pending write may touch *)

Lemma keys_ids (c c' : Collection.t) :
  map Concurrent.keys c = map Concurrent.keys c' -> map Doc._id c = map Doc._id c'.
Proof.
  intro H.
  assert (E : forall l, map Doc._id l = map (fun k => fst (fst k)) (map Concurrent.keys l)).
  { intro l. rewrite map_map. reflexivity. }
  rewrite (E c), (E c'), H. reflexivity.
Qed.

Lemma pending_ok_keys (c c' : Collection.t) (call : Concurrent.request * Concurrent.pc) :
  map Concurrent.keys c' = map Concurrent.keys c ->
  Concurrent.pending_ok c call -> Concurrent.pending_ok c' call.
Proof.
  intros Hkeys. unfold Concurrent.pending_ok.
  destruct (snd call) as [|g o goal_id a p| | |]; try (intros; exact I).
  intros Hok d' Hin Hflt.
  assert (Hk : In (Concurrent.keys d') (map Concurrent.keys c))
    by (rewrite <- Hkeys; apply in_map; exact Hin).
  apply in_map_iff in Hk. destruct Hk as (d & Hkd & Hind).
  assert (Hid := f_equal (fun k => fst (fst k)) Hkd).
  assert (Huser := f_equal (fun k => snd (fst k)) Hkd).
  assert (Htarget := f_equal snd Hkd).
  cbn [fst snd Concurrent.keys] in Hid, Huser, Htarget.
  rewrite <- Htarget. apply Hok; [exact Hind|].
  unfold by_id_and_user in *. rewrite Hid, Huser. exact Hflt.
Qed.

Lemma unique_id_same_doc (c : Collection.t) (d g : Doc.t) :
  unique_ids c -> In d c -> In g c -> Doc._id d = Doc._id g -> d = g.
Proof.
  unfold unique_ids.
  induction c as [|x c IH]; cbn [map In]; intros Hnd Hd Hg Hid.
  - contradiction.
  - inversion Hnd as [|y l Hnotin Hnd']; subst.
    destruct Hd as [-> | Hd]; destruct Hg as [-> | Hg].
    + reflexivity.
    + exfalso. apply Hnotin. rewrite Hid. apply in_map. exact Hg.
    + exfalso. apply Hnotin. rewrite <- Hid. apply in_map. exact Hd.
    + apply IH; assumption.
Qed.

(** The capacity check leaves a pending write within the target it read. *)
Lemma check_pending_ok (r : Concurrent.request) (g : Doc.t) (goal_id : string)
  (c : Collection.t) :
  unique_ids c -> In g c ->
  Concurrent.pending_ok c (r, Concurrent.check r g (Doc._id g) goal_id).
Proof.
  intros Hnd Hin. unfold Concurrent.pending_ok, Concurrent.check. cbn [fst snd].
  destruct (Qgt_bool (GoalContribution.amount (Concurrent.req_contribution r)) _);
    [exact I|].
  destruct (truediv _ _); [|exact I].
  intros d Hd Hflt. apply by_id_and_user_true in Hflt. destruct Hflt as [Hid _].
  rewrite (unique_id_same_doc c d g Hnd Hd Hin Hid).
  destruct (Qgt_bool _ (Doc.target_amount g)) eqn:E.
  - lra.
  - apply Qgt_bool_false in E. exact E.
Qed.

(** *** One step of one call *)

Lemma step_collection (r : Concurrent.request) (p : Concurrent.pc) (s : GoalOperations.self) :
  GoalOperations.collection (snd (Concurrent.step r p s))
  = match p with
    | Concurrent.AtUpdate _ o _ new_amount progress =>
        fst (Collection.update_one (by_id_and_user o (Concurrent.req_user r))
               (GoalOperations.contribution_update (Concurrent.req_now r) new_amount progress)
               (GoalOperations.collection s))
    | _ => GoalOperations.collection s
    end.
Proof.
  destruct p as [|g o goal_id a q|g o goal_id|o|result]; cbn [Concurrent.step].
  - destruct (Concurrent.req_selector r) as [|goal_id].
    + destruct (Collection.find_one _ _); reflexivity.
    + destruct (ObjectId goal_id); [|reflexivity].
      destruct (Collection.find_one _ _); reflexivity.
  - cbv zeta. destruct (modified_count _ =? 0)%nat; [reflexivity|].
    destruct (GoalOperations.transactions_collection s); reflexivity.
  - unfold GoalOperations.transactions_insert_one.
    destruct (GoalOperations.transactions_collection s) as [tc|]; [|reflexivity].
    destruct (reachable tc); reflexivity.
  - destruct (GoalOperations._document_to_response _); reflexivity.
  - reflexivity.
Qed.

Lemma step_keeps_keys (r : Concurrent.request) (p : Concurrent.pc) (s : GoalOperations.self) :
  map Concurrent.keys (GoalOperations.collection (snd (Concurrent.step r p s)))
  = map Concurrent.keys (GoalOperations.collection s).
Proof.
  rewrite step_collection.
  destruct p; try reflexivity. apply update_one_contribution_keys.
Qed.

Lemma step_within_target (r : Concurrent.request) (p : Concurrent.pc)
  (s : GoalOperations.self) :
  Concurrent.pending_ok (GoalOperations.collection s) (r, p) ->
  Concurrent.within_target (GoalOperations.collection s) ->
  Concurrent.within_target (GoalOperations.collection (snd (Concurrent.step r p s))).
Proof.
  intros Hpending Hwithin. rewrite step_collection.
  destruct p; try exact Hwithin.
  apply update_one_contribution_within_target; [exact Hwithin | exact Hpending].
Qed.

Lemma step_pending_ok (r : Concurrent.request) (p : Concurrent.pc) (s : GoalOperations.self) :
  unique_ids (GoalOperations.collection s) ->
  Concurrent.pending_ok (GoalOperations.collection (snd (Concurrent.step r p s)))
    (r, fst (Concurrent.step r p s)).
Proof.
  intro Hnd.
  apply pending_ok_keys with (c := GoalOperations.collection s);
    [apply step_keeps_keys|].
  destruct p as [|g o goal_id a q|g o goal_id|o|result]; cbn [Concurrent.step].
  - destruct (Concurrent.req_selector r) as [|goal_id].
    + destruct (Collection.find_one _ _) as [g|] eqn:Hfind; cbn [fst]; [|exact I].
      apply check_pending_ok; [exact Hnd|].
      unfold Collection.find_one in Hfind. apply find_some in Hfind. tauto.
    + destruct (ObjectId goal_id) as [o|e]; [|exact I].
      destruct (Collection.find_one _ _) as [g|] eqn:Hfind; cbn [fst]; [|exact I].
      unfold Collection.find_one in Hfind. apply find_some in Hfind.
      destruct Hfind as [Hin Hflt]. apply by_id_and_user_true in Hflt.
      destruct Hflt as [<- _].
      apply check_pending_ok; assumption.
  - cbv zeta. destruct (modified_count _ =? 0)%nat; [exact I|].
    destruct (GoalOperations.transactions_collection s); exact I.
  - exact I.
  - destruct (GoalOperations._document_to_response _); exact I.
  - exact I.
Qed.

(** *** Interleavings *)

Lemma step_at_safe (i : nat) (cs : list (Concurrent.request * Concurrent.pc))
  (s : GoalOperations.self) :
  Concurrent.safe (Concurrent.mk_config s cs) ->
  Concurrent.safe
    (Concurrent.mk_config (snd (Concurrent.step_at i cs s)) (fst (Concurrent.step_at i cs s)))
  /\ map Concurrent.keys (GoalOperations.collection (snd (Concurrent.step_at i cs s)))
     = map Concurrent.keys (GoalOperations.collection s).
Proof.
  unfold Concurrent.safe. cbn [Concurrent.store Concurrent.calls].
  revert i. induction cs as [|[r p] cs IH]; intros i (Hnd & Hwithin & Hcalls).
  - destruct i; cbn [Concurrent.step_at fst snd]; repeat split; assumption.
  - inversion Hcalls as [|x l Hhead Hrest]; subst.
    destruct i as [|j]; cbn [Concurrent.step_at fst snd].
    + pose proof (step_keeps_keys r p s) as Hkeys.
      repeat split.
      * unfold unique_ids. rewrite (keys_ids _ _ Hkeys). exact Hnd.
      * apply step_within_target; assumption.
      * constructor; [apply step_pending_ok; exact Hnd|].
        eapply Forall_impl; [|exact Hrest].
        intro call. apply pending_ok_keys. exact Hkeys.
      * exact Hkeys.
    + destruct (IH j (conj Hnd (conj Hwithin Hrest))) as ((Hnd' & Hwithin' & Hrest') & Hkeys).
      repeat split; try assumption.
      constructor; [|exact Hrest'].
      apply pending_ok_keys with (c := GoalOperations.collection s); assumption.
Qed.

Lemma run_safe (schedule : list nat) (cfg : Concurrent.config) :
  Concurrent.safe cfg -> Concurrent.safe (Concurrent.run schedule cfg).
Proof.
  unfold Concurrent.run. revert cfg.
  induction schedule as [|i schedule IH]; intros cfg Hsafe; cbn [fold_left].
  - exact Hsafe.
  - apply IH. destruct cfg as [s cs]. cbn [Concurrent.store Concurrent.calls].
    apply step_at_safe. exact Hsafe.
Qed.

Lemma start_safe (s : GoalOperations.self) (requests : list Concurrent.request) :
  unique_ids (GoalOperations.collection s) ->
  Concurrent.within_target (GoalOperations.collection s) ->
  Concurrent.safe (Concurrent.start s requests).
Proof.
  intros Hnd Hwithin. unfold Concurrent.safe, Concurrent.start.
  cbn [Concurrent.store Concurrent.calls].
  repeat split; [exact Hnd | exact Hwithin |].
  apply Forall_forall. intros call Hin. apply in_map_iff in Hin.
  destruct Hin as (r & <- & _). exact I.
Qed.

(** A write whose amount differs from the stored one changes the document. *)
Lemma write_changes_amount (now : datetime) (a p : Q) (d : Doc.t) :
  ~ a == Doc.current_amount d ->
  Collection.write (GoalOperations.contribution_update now a p) d
  = (Doc.set (GoalOperations.contribution_update now a p) d, 1%nat).
Proof.
  intro Hneq. unfold Collection.write.
  destruct (Doc.same _ d) eqn:E; [|reflexivity].
  apply same_current_amount in E.
  destruct (contribution_update_fields now a p d) as [_ Hc].
  rewrite Hc in E. contradiction.
Qed.

(** C3, counterexample: two calls on the goal "Casa" (target 1,000,000,
    saved 300,000) with amounts 300,000 and 400,000.  Both read 300,000
    before either writes.  The first writes 600,000.  The write of the
    second, computed from the 300,000 it read, is applied all the same
    (the stored amount becomes 700,000): it matches a document although the
    amount read is no longer the one stored.  Both calls return a goal, and
    the goal ends at 700,000, short of its target, although the two amounts
    add up to the remaining 700,000. *)
Lemma stale_contribution_write_is_applied :
  let amounts (cfg : Concurrent.config) :=
    map Doc.current_amount (GoalOperations.collection (Concurrent.store cfg)) in
  let both_read_first_wrote := Concurrent.run [0; 1; 0]%nat Concurrent.both in
  let second_wrote := Concurrent.run [1]%nat both_read_first_wrote in
  let finished := Concurrent.run [0; 1; 0; 1]%nat second_wrote in
  (exists g o goal_id progress,
     nth_error (Concurrent.calls both_read_first_wrote) 1
     = Some (Concurrent.second_call, Concurrent.AtUpdate g o goal_id 700000 progress)
     /\ Doc.current_amount g = 300000)
  /\ amounts both_read_first_wrote = [100000; 600000]
  /\ amounts second_wrote = [100000; 700000]
  /\ (exists first_result second_result,
        map snd (Concurrent.calls finished)
        = [Concurrent.Done (Some first_result); Concurrent.Done (Some second_result)])
  /\ amounts finished = [100000; 700000]
  /\ map Doc.target_amount (GoalOperations.collection (Concurrent.store finished))
     = [500000; 1000000].
Proof.
  cbv zeta. split.
  { eexists _, _, _, _. split; [vm_compute; reflexivity | reflexivity]. }
  split; [vm_compute; reflexivity|].
  split; [vm_compute; reflexivity|].
  split.
  { eexists _, _. vm_compute. reflexivity. }
  split; vm_compute; reflexivity.
Qed.

(** C3, as amended: the update of a contribution is conditioned on the id
    and the owner of the goal only.  (1) Whatever the calls in flight and
    however their steps interleave, every stored goal keeps
    [current_amount <= target_amount]: each write sets the amount the call
    computed, capped at the target it read.  (2) A pending write is applied
    whenever its filter matches and its amount differs from the stored
    one, whatever amount the call had read, and the call goes on.  (3) A
    write that matches no document ends the call with [None] at once, and a
    finished call takes no further step: there is no retry. *)
Theorem concurrent_contributions_stay_within_target (s : GoalOperations.self)
  (requests : list Concurrent.request) (schedule : list nat) :
  unique_ids (GoalOperations.collection s) ->
  Concurrent.within_target (GoalOperations.collection s) ->
  Concurrent.within_target
    (GoalOperations.collection
       (Concurrent.store (Concurrent.run schedule (Concurrent.start s requests))))
  /\ (forall r read o goal_id new_amount progress s1 stored,
        Collection.find_one (by_id_and_user o (Concurrent.req_user r))
          (GoalOperations.collection s1) = Some stored ->
        ~ new_amount == Doc.current_amount stored ->
        let after :=
          Concurrent.step r (Concurrent.AtUpdate read o goal_id new_amount progress) s1 in
        fst after <> Concurrent.Done None
        /\ exists written,
             Collection.find_one (by_id_and_user o (Concurrent.req_user r))
               (GoalOperations.collection (snd after)) = Some written
             /\ Doc.current_amount written = new_amount)
  /\ (forall r read o goal_id new_amount progress s1,
        Collection.find_one (by_id_and_user o (Concurrent.req_user r))
          (GoalOperations.collection s1) = None ->
        Concurrent.step r (Concurrent.AtUpdate read o goal_id new_amount progress) s1
        = (Concurrent.Done None, s1))
  /\ (forall r result s1, Concurrent.step r (Concurrent.Done result) s1
                          = (Concurrent.Done result, s1)).
Proof.
  intros Hnd Hwithin. split; [|split; [|split]].
  - apply (run_safe schedule (Concurrent.start s requests)).
    apply start_safe; assumption.
  - intros r read o goal_id a p s1 stored Hfind Hneq. cbv zeta. split.
    + cbn [Concurrent.step]. cbv zeta.
      rewrite update_one_result, Hfind, (write_changes_amount _ _ _ _ Hneq).
      cbn [snd modified_count Nat.eqb].
      destruct (GoalOperations.transactions_collection s1); discriminate.
    + rewrite step_collection.
      rewrite find_one_after_update_one by (intro d; apply by_id_and_user_write).
      rewrite Hfind. cbn [option_map].
      rewrite (write_changes_amount _ _ _ _ Hneq). cbn [fst].
      eexists. split; [reflexivity|].
      apply contribution_update_fields.
  - intros r read o goal_id a p s1 Hfind. cbn [Concurrent.step]. cbv zeta.
    rewrite update_one_result, Hfind, (update_one_no_match _ _ _ Hfind).
    cbn [modified_count Nat.eqb]. destruct s1; reflexivity.
  - intros r result s1. reflexivity.
Qed.

Lemma within_target_sample : Concurrent.within_target (GoalOperations.collection Sample.goal_ops).
Proof.
  unfold Concurrent.within_target. cbn.
  repeat constructor; cbn; lra.
Qed.

(** C3 as amended, at the two calls of the counterexample and the schedule
    in which both read before either writes: the goals stay within their
    targets. *)
Lemma concurrent_contributions_stay_within_target_witness :
  Concurrent.within_target
    (GoalOperations.collection
       (Concurrent.store
          (Concurrent.run [0; 1; 0; 1; 0; 1; 0; 1]%nat
             (Concurrent.start Sample.goal_ops
                [Concurrent.first_call; Concurrent.second_call])))).
Proof.
  apply (concurrent_contributions_stay_within_target Sample.goal_ops
           [Concurrent.first_call; Concurrent.second_call]
           [0; 1; 0; 1; 0; 1; 0; 1]%nat).
  - exact sample_unique_ids.
  - exact within_target_sample.
Defined.

(** * Further properties of the code *)

Lemma Qle_bool_false_lt (a b : Q) : Qle_bool a b = false <-> b < a.
Proof.
  rewrite <- Qgt_bool_true. unfold Qgt_bool.
  destruct (Qle_bool a b); cbn; intuition congruence.
Qed.

(** ** [Goal.update_progress] *)


(** ** What the handlers answer *)

(** A blanket handler that returns makes the operation return. *)
Lemma try_except_ret_returns {S A : Type} (c : Op S A) (d : A) (s : S) :
  exists x, fst (try_except c (fun _ => ret d) s) = Returns x.
Proof.
  unfold try_except, ret. destruct (c s) as [[x|e] s']; eexists; reflexivity.
Qed.

Lemma contribute_returns (now : datetime) (user : string) (sel : selector)
  (c : GoalContribution.t) (s : GoalOperations.self) :
  exists x, fst (contribute now user sel c s) = Returns x.
Proof.
  destruct sel; apply try_except_ret_returns.
Qed.

(** X2: the contribute handlers have two answers only: the updated goal,
    when the operation returned one, and the status 500 with a fixed text
    whenever it returned [None] (goal not found, malformed id, amount above
    the remaining capacity, nothing modified).  They never answer 400, 404
    or 422: the 422 raised for the goal id ["main-goal"] is inside the
    [try] and leaves as a 500 too.  The store is as the operation left it. *)
Theorem contribute_endpoint_answers (now : datetime) (user : string) (sel : selector)
  (c : GoalContribution.t) (s : GoalOperations.self) :
  (exists r,
     contribute now user sel c s = (Returns (Some r), snd (contribute now user sel c s))
     /\ contribute_endpoint now user sel c s = (Returns r, snd (contribute now user sel c s)))
  \/ (contribute now user sel c s = (Returns None, snd (contribute now user sel c s))
      /\ contribute_endpoint now user sel c s
         = (Raises (HTTPException 500
                      (Text match sel with
                            | ByMainFlag => "Error al realizar abono a meta principal"
                            | ById _ => "Error al realizar abono"
                            end)),
            snd (contribute now user sel c s))).
Proof.
  destruct (contribute_returns now user sel c s) as [x Hx].
  destruct sel as [|goal_id]; cbn [contribute contribute_endpoint] in *.
  - unfold Routers.contribute_to_main_goal, try_except, bind.
    destruct (GoalOperations.contribute_to_main_goal now user c s) as [o s'].
    cbn [fst snd] in *. subst o. destruct x as [r|].
    + left. exists r. split; reflexivity.
    + right. split; reflexivity.
  - unfold Routers.contribute_to_goal, try_except.
    destruct (String.eqb_spec goal_id "main-goal") as [->|Hne].
    + right. split; reflexivity.
    + unfold bind.
      destruct (GoalOperations.contribute_to_goal now goal_id user c s) as [o s'].
      cbn [fst snd] in *. subst o. destruct x as [r|].
      * left. exists r. split; reflexivity.
      * right. split; reflexivity.
Qed.

Lemma delete_first_no_match (flt : Doc.t -> bool) (c : Collection.t) :
  Collection.find_one flt c = None -> GoalCrud.delete_first flt c = (c, 0%nat).
Proof.
  unfold Collection.find_one.
  induction c as [|d c IH]; cbn [find GoalCrud.delete_first]; intro H.
  - reflexivity.
  - destruct (flt d); [discriminate|]. rewrite (IH H). reflexivity.
Qed.

Lemma self_eta (s : GoalOperations.self) :
  GoalOperations.mk (GoalOperations.collection s) (GoalOperations.transactions_collection s)
  = s.
Proof. destruct s; reflexivity. Qed.

(** X3: when [goal_id] names no goal of the user (malformed id, unknown
    id, or another user's goal), reading, deleting, editing and
    contributing all leave the store untouched; the operations return
    [None] or [False]; the handlers of GET and DELETE answer 404, the
    handler of PUT answers 500 (its own 404 is caught by its
    [except Exception]), and so does the contribute handler. *)
Theorem missing_goal_answers (now : datetime) (goal_id user : string)
  (update_data : GoalUpdate.t) (c : GoalContribution.t) (s : GoalOperations.self) :
  lookup (ById goal_id) user (GoalOperations.collection s) = None ->
  GoalCrud.get_goal_by_id goal_id user s = (Returns None, s)
  /\ RoutersCrud.get_goal goal_id user s
     = (Raises (HTTPException 404 (Text "Meta no encontrada")), s)
  /\ GoalCrud.delete_goal goal_id user s = (Returns false, s)
  /\ RoutersCrud.delete_goal goal_id user s
     = (Raises (HTTPException 404 (Text "Meta no encontrada")), s)
  /\ GoalOperations.update_goal now goal_id user update_data s = (Returns None, s)
  /\ RoutersCrud.update_goal now goal_id update_data user s
     = (Raises (HTTPException 500 (Text "Error al actualizar meta")), s)
  /\ GoalOperations.contribute_to_goal now goal_id user c s = (Returns None, s)
  /\ Routers.contribute_to_goal now goal_id c user s
     = (Raises (HTTPException 500 (Text "Error al realizar abono")), s).
Proof.
  intro Hlook. cbn [lookup] in Hlook.
  assert (Hget : GoalCrud.get_goal_by_id goal_id user s = (Returns None, s)).
  { unfold GoalCrud.get_goal_by_id, try_except, bind, lift, GoalOperations.find_one.
    destruct (ObjectId goal_id) as [o|e]; [|reflexivity].
    rewrite Hlook. reflexivity. }
  assert (Hdel : GoalCrud.delete_goal goal_id user s = (Returns false, s)).
  { unfold GoalCrud.delete_goal, try_except, bind, lift, GoalCrud.delete_one.
    destruct (ObjectId goal_id) as [o|e]; [|reflexivity].
    rewrite (delete_first_no_match _ _ Hlook). cbn. rewrite self_eta. reflexivity. }
  assert (Hupd : GoalOperations.update_goal now goal_id user update_data s
                 = (Returns None, s)).
  { unfold GoalOperations.update_goal, try_except, bind, lift, GoalOperations.update_one.
    destruct (ObjectId goal_id) as [o|e]; [|reflexivity].
    rewrite update_one_result, Hlook, (update_one_no_match _ _ _ Hlook).
    cbn. rewrite self_eta. reflexivity. }
  assert (Hcon : GoalOperations.contribute_to_goal now goal_id user c s = (Returns None, s)).
  { unfold GoalOperations.contribute_to_goal, try_except, bind, lift,
      GoalOperations.find_one.
    destruct (ObjectId goal_id) as [o|e]; [|reflexivity].
    rewrite Hlook. reflexivity. }
  repeat split; try assumption.
  - unfold RoutersCrud.get_goal, bind. rewrite Hget. reflexivity.
  - unfold RoutersCrud.delete_goal, bind. rewrite Hdel. reflexivity.
  - unfold RoutersCrud.update_goal, try_except, bind. rewrite Hupd. reflexivity.
  - unfold Routers.contribute_to_goal, try_except.
    destruct (String.eqb goal_id "main-goal"); [reflexivity|].
    unfold bind. rewrite Hcon. reflexivity.
Qed.

(** X3 at the stored goals "Viaje" and "Casa" and an id that names
    neither. *)
Lemma missing_goal_answers_witness :
  RoutersCrud.get_goal Sample.absent_id Sample.user Sample.goal_ops
  = (Raises (HTTPException 404 (Text "Meta no encontrada")), Sample.goal_ops)
  /\ RoutersCrud.update_goal Sample.now Sample.absent_id EditSample.raise_current
       Sample.user Sample.goal_ops
     = (Raises (HTTPException 500 (Text "Error al actualizar meta")), Sample.goal_ops).
Proof.
  destruct (missing_goal_answers Sample.now Sample.absent_id Sample.user
              EditSample.raise_current (Sample.abono 1) Sample.goal_ops)
    as (_ & Hget & _ & _ & _ & Hput & _).
  - reflexivity.
  - split; assumption.
Defined.

(** ** [create_goal] and [get_goal_by_id] *)

Lemma find_one_app_new (flt : Doc.t -> bool) (c : Collection.t) (d : Doc.t) :
  (forall x, In x c -> flt x = false) -> flt d = true ->
  Collection.find_one flt (c ++ [d]) = Some d.
Proof.
  unfold Collection.find_one. intros Hnone Hd.
  induction c as [|x c IH]; cbn [app find].
  - rewrite Hd. reflexivity.
  - rewrite (Hnone x (or_introl eq_refl)). apply IH.
    intros y Hy. apply Hnone. right. exact Hy.
Qed.

Lemma fresh_id_no_match (c : Collection.t) (o : oid) :
  ~ In o (map Doc._id c) -> forall x, In x c -> String.eqb (Doc._id x) o = false.
Proof.
  intros Hfresh x Hx. apply String.eqb_neq. intro E. apply Hfresh.
  rewrite <- E. apply in_map. exact Hx.
Qed.

Lemma fresh_id_not_existing (c : Collection.t) (o : oid) :
  ~ In o (map Doc._id c) -> existsb (fun d => String.eqb (Doc._id d) o) c = false.
Proof.
  intro Hfresh. destruct (existsb _ c) eqn:E; [|reflexivity].
  apply existsb_exists in E. destruct E as (x & Hx & Hid).
  rewrite (fresh_id_no_match c o Hfresh x Hx) in Hid. discriminate.
Qed.

(** X4: [create_goal] with a fresh, well-formed object id appends one
    document and leaves the goals already stored and the ledger as they
    were (the main flag of other goals included); the goal it returns is
    active, has never been updated, carries the amounts of the request and
    the initial progress; ids stay unique; and [get_goal_by_id] with the
    returned id gives the same goal back. *)
Theorem create_goal_then_get (now : datetime) (inserted_id : oid) (user : string)
  (goal_data : GoalCreate.t) (s : GoalOperations.self) :
  ObjectId inserted_id = Returns inserted_id ->
  ~ In inserted_id (map Doc._id (GoalOperations.collection s)) ->
  exists r created,
    GoalOperations.create_goal now inserted_id user goal_data s
    = (Returns r,
       GoalOperations.mk (GoalOperations.collection s ++ [created])
                         (GoalOperations.transactions_collection s))
    /\ GoalCrud.get_goal_by_id (GoalResponse.id r) user
         (GoalOperations.mk (GoalOperations.collection s ++ [created])
                            (GoalOperations.transactions_collection s))
       = (Returns (Some r),
          GoalOperations.mk (GoalOperations.collection s ++ [created])
                            (GoalOperations.transactions_collection s))
    /\ GoalResponse.id r = inserted_id
    /\ GoalResponse.user_id r = user
    /\ GoalResponse.status r = ACTIVE
    /\ GoalResponse.updated_at r = None
    /\ GoalResponse.target_amount r = GoalCreate.target_amount goal_data
    /\ GoalResponse.current_amount r = GoalCreate.current_amount goal_data
    /\ GoalResponse.is_main r = GoalCreate.is_main goal_data
    /\ GoalResponse.progress_percentage r
       == (if Qgt_bool (GoalCreate.target_amount goal_data) 0
           then Qmin (GoalCreate.current_amount goal_data
                      / GoalCreate.target_amount goal_data * 100) 100
           else 0)
    /\ (unique_ids (GoalOperations.collection s) ->
        unique_ids (GoalOperations.collection s ++ [created])).
Proof.
  intros Hid Hfresh.
  eexists. eexists. split; [|split].
  - unfold GoalOperations.create_goal, try_except, bind, lift,
      GoalOperations.insert_one, GoalOperations.find_one, Collection.insert_one.
    cbn [Doc._id GoalOperations.collection GoalOperations.transactions_collection].
    rewrite (fresh_id_not_existing _ _ Hfresh). cbn [fst snd GoalOperations.collection].
    rewrite find_one_app_new.
    + reflexivity.
    + unfold by_id. apply fresh_id_no_match. exact Hfresh.
    + unfold by_id. cbn [Doc._id]. apply String.eqb_refl.
  - cbn [GoalResponse.id Doc._id]. unfold str_of_oid.
    unfold GoalCrud.get_goal_by_id, try_except, bind, lift, GoalOperations.find_one.
    rewrite Hid. cbn [GoalOperations.collection].
    rewrite find_one_app_new.
    + reflexivity.
    + intros x Hx. unfold by_id_and_user.
      rewrite (fresh_id_no_match _ _ Hfresh x Hx). reflexivity.
    + unfold by_id_and_user. cbn [Doc._id Doc.user_id].
      rewrite !String.eqb_refl. reflexivity.
  - cbn [GoalResponse.id GoalResponse.user_id GoalResponse.status GoalResponse.updated_at
         GoalResponse.target_amount GoalResponse.current_amount GoalResponse.is_main
         GoalResponse.progress_percentage Doc._id Doc.user_id Doc.status Doc.updated_at
         Doc.target_amount Doc.current_amount Doc.is_main Doc.progress_percentage].
    repeat split.
    + unfold GoalOperations.initial_progress.
      destruct (Qgt_bool (GoalCreate.target_amount goal_data) 0).
      * apply py_min_is_Qmin.
      * reflexivity.
    + unfold unique_ids. rewrite map_app. cbn [map Doc._id].
      intro Hnd. apply NoDup_app; [exact Hnd | repeat constructor; intros [] |].
      intros x Hx [<-|[]]. exact (Hfresh Hx).
Qed.

(** X4 at an empty store and the new goal "Viaje" of 1,000. *)
Lemma create_goal_then_get_witness :
  exists r,
    fst (GoalOperations.create_goal Sample.now Sample.id_a Sample.user EditSample.new_goal
           EditSample.empty) = Returns r
    /\ fst (GoalCrud.get_goal_by_id (GoalResponse.id r) Sample.user
              (snd (GoalOperations.create_goal Sample.now Sample.id_a Sample.user
                      EditSample.new_goal EditSample.empty))) = Returns (Some r)
    /\ GoalResponse.status r = ACTIVE.
Proof.
  destruct (create_goal_then_get Sample.now Sample.id_a Sample.user EditSample.new_goal
              EditSample.empty) as (r & created & Hrun & Hget & _ & _ & Hst & _).
  - reflexivity.
  - cbn. tauto.
  - exists r. rewrite Hrun. cbn [fst snd]. rewrite Hget. cbn [fst].
    repeat split. exact Hst.
Defined.

(** ** [delete_goal] *)

Lemma find_one_none_if (flt : Doc.t -> bool) (c : Collection.t) :
  (forall x, In x c -> flt x = false) -> Collection.find_one flt c = None.
Proof.
  intro Hnone. destruct (Collection.find_one flt c) as [d|] eqn:E; [|reflexivity].
  unfold Collection.find_one in E. apply find_some in E. destruct E as [Hin Hd].
  rewrite (Hnone d Hin) in Hd. discriminate.
Qed.

Lemma filter_keeps_all {A : Type} (p : A -> bool) (l : list A) :
  (forall x, In x l -> p x = true) -> filter p l = l.
Proof.
  induction l as [|a l IH]; cbn [filter]; intro H.
  - reflexivity.
  - rewrite (H a (or_introl eq_refl)), IH; [reflexivity|].
    intros x Hx. apply H. right. exact Hx.
Qed.

Lemma filter_unique_ids (p : Doc.t -> bool) (c : Collection.t) :
  unique_ids c -> unique_ids (filter p c).
Proof.
  unfold unique_ids.
  induction c as [|d c IH]; cbn [filter map]; intro Hnd.
  - constructor.
  - inversion Hnd as [|x l Hnotin Hnd']; subst.
    destruct (p d); cbn [map].
    + constructor; [|apply IH; exact Hnd'].
      intro Hin. apply Hnotin. apply in_map_iff in Hin.
      destruct Hin as (y & Hy & Hin). apply filter_In in Hin.
      rewrite <- Hy. apply in_map. tauto.
    + apply IH. exact Hnd'.
Qed.

(** Under unique ids, deleting the goal a filter finds removes the document
    with its id and nothing else. *)
Lemma delete_first_found (o : oid) (user : string) (c : Collection.t) (g : Doc.t) :
  unique_ids c ->
  Collection.find_one (by_id_and_user o user) c = Some g ->
  GoalCrud.delete_first (by_id_and_user o user) c
  = (filter (fun d => negb (by_id (Doc._id g) d)) c, 1%nat).
Proof.
  unfold unique_ids, Collection.find_one, by_id.
  induction c as [|d c IH]; cbn [find GoalCrud.delete_first filter map]; intros Hnd Hfind.
  - discriminate.
  - inversion Hnd as [|x l Hnotin Hnd']; subst.
    destruct (by_id_and_user o user d) eqn:E.
    + injection Hfind as <-. rewrite String.eqb_refl. cbn [negb].
      rewrite filter_keeps_all; [reflexivity|].
      intros x Hx. apply negb_true_iff, String.eqb_neq. intro Eid.
      apply Hnotin. rewrite <- Eid. apply in_map. exact Hx.
    + assert (Hin : In g c) by (apply find_some in Hfind; tauto).
      assert (Hne : String.eqb (Doc._id d) (Doc._id g) = false).
      { apply String.eqb_neq. intro Eid. apply Hnotin. rewrite Eid.
        apply in_map. exact Hin. }
      rewrite Hne. cbn [negb]. rewrite (IH Hnd' Hfind). reflexivity.
Qed.

(** X5: [delete_goal] on a goal of the user returns [True] and removes
    exactly the document with that id: every other goal stays in place and
    in order, the ledger is untouched (the contributions recorded for the
    goal stay behind), ids stay unique, and reading the goal afterwards
    finds nothing. *)
Theorem delete_goal_removes_one (goal_id user : string) (s : GoalOperations.self)
  (g : Doc.t) :
  unique_ids (GoalOperations.collection s) ->
  lookup (ById goal_id) user (GoalOperations.collection s) = Some g ->
  let s' :=
    GoalOperations.mk
      (filter (fun d => negb (by_id (Doc._id g) d)) (GoalOperations.collection s))
      (GoalOperations.transactions_collection s) in
  GoalCrud.delete_goal goal_id user s = (Returns true, s')
  /\ RoutersCrud.delete_goal goal_id user s = (Returns tt, s')
  /\ GoalCrud.get_goal_by_id goal_id user s' = (Returns None, s')
  /\ ~ In g (GoalOperations.collection s')
  /\ (forall d, In d (GoalOperations.collection s) -> Doc._id d <> Doc._id g ->
      In d (GoalOperations.collection s'))
  /\ unique_ids (GoalOperations.collection s').
Proof.
  intros Hnd Hlook. cbv zeta. cbn [lookup] in Hlook.
  destruct (ObjectId goal_id) as [o|e] eqn:Hid; [|discriminate].
  assert (Ho : Doc._id g = o).
  { unfold Collection.find_one in Hlook. apply find_some in Hlook.
    destruct Hlook as [_ Hflt]. apply by_id_and_user_true in Hflt. tauto. }
  assert (Hdel : GoalCrud.delete_goal goal_id user s
                 = (Returns true,
                    GoalOperations.mk
                      (filter (fun d => negb (by_id (Doc._id g) d))
                         (GoalOperations.collection s))
                      (GoalOperations.transactions_collection s))).
  { unfold GoalCrud.delete_goal, try_except, bind, lift, GoalCrud.delete_one.
    rewrite Hid, (delete_first_found o user _ g Hnd Hlook). reflexivity. }
  split; [exact Hdel|]. split; [|split; [|split; [|split]]].
  - unfold RoutersCrud.delete_goal, bind. rewrite Hdel. reflexivity.
  - unfold GoalCrud.get_goal_by_id, try_except, bind, lift, GoalOperations.find_one.
    rewrite Hid. cbn [GoalOperations.collection].
    rewrite find_one_none_if; [reflexivity|].
    intros x Hx. apply filter_In in Hx. destruct Hx as [_ Hx].
    unfold by_id in Hx. apply negb_true_iff in Hx.
    unfold by_id_and_user. rewrite <- Ho, Hx. reflexivity.
  - cbn [GoalOperations.collection]. intro Hin. apply filter_In in Hin.
    destruct Hin as [_ Hin]. unfold by_id in Hin. rewrite String.eqb_refl in Hin.
    discriminate.
  - cbn [GoalOperations.collection]. intros d Hd Hne. apply filter_In. split; [exact Hd|].
    unfold by_id. apply negb_true_iff, String.eqb_neq. exact Hne.
  - cbn [GoalOperations.collection]. apply filter_unique_ids. exact Hnd.
Qed.

(** X5 at the stored goals "Viaje" and "Casa": deleting "Casa". *)
Lemma delete_goal_removes_one_witness :
  GoalCrud.delete_goal Sample.id_b Sample.user Sample.goal_ops
  = (Returns true,
     GoalOperations.mk [Sample.trip] (GoalOperations.transactions_collection Sample.goal_ops)).
Proof.
  destruct (delete_goal_removes_one Sample.id_b Sample.user Sample.goal_ops Sample.house)
    as (Hdel & _).
  - exact sample_unique_ids.
  - reflexivity.
  - exact Hdel.
Defined.

(** ** [get_user_goals] *)

Lemma document_to_response_of (d : Doc.t) :
  GoalOperations._document_to_response (Some d) = Returns (response_of d).
Proof. reflexivity. Qed.

Lemma to_responses_map (docs : list Doc.t) :
  GoalCrud.to_responses docs = Returns (map response_of docs).
Proof.
  induction docs as [|d docs IH]; cbn [GoalCrud.to_responses map].
  - reflexivity.
  - rewrite document_to_response_of, IH. reflexivity.
Qed.

Lemma datetime_leb_total (a b : datetime) :
  datetime_leb a b = false -> datetime_leb b a = true.
Proof.
  unfold datetime_leb.
  destruct (Z.ltb_spec (dt_date a) (dt_date b)), (Z.eqb_spec (dt_date a) (dt_date b)),
    (Z.leb_spec (dt_time a) (dt_time b)), (Z.ltb_spec (dt_date b) (dt_date a)),
    (Z.eqb_spec (dt_date b) (dt_date a)), (Z.leb_spec (dt_time b) (dt_time a));
    cbn; intros; try reflexivity; try discriminate; lia.
Qed.

Lemma datetime_leb_trans (a b c : datetime) :
  datetime_leb a b = true -> datetime_leb b c = true -> datetime_leb a c = true.
Proof.
  unfold datetime_leb.
  destruct (Z.ltb_spec (dt_date a) (dt_date b)), (Z.eqb_spec (dt_date a) (dt_date b)),
    (Z.leb_spec (dt_time a) (dt_time b)), (Z.ltb_spec (dt_date b) (dt_date c)),
    (Z.eqb_spec (dt_date b) (dt_date c)), (Z.leb_spec (dt_time b) (dt_time c)),
    (Z.ltb_spec (dt_date a) (dt_date c)), (Z.eqb_spec (dt_date a) (dt_date c)),
    (Z.leb_spec (dt_time a) (dt_time c));
    cbn; intros; try reflexivity; try discriminate; lia.
Qed.

Lemma insert_desc_perm (d : Doc.t) (l : list Doc.t) :
  Permutation (GoalCrud.insert_desc d l) (d :: l).
Proof.
  induction l as [|x l IH]; cbn [GoalCrud.insert_desc].
  - apply Permutation_refl.
  - destruct (datetime_leb _ _).
    + apply Permutation_refl.
    + eapply perm_trans; [apply perm_skip; exact IH | apply perm_swap].
Qed.

Lemma sort_created_desc_perm (l : list Doc.t) :
  Permutation (GoalCrud.sort_created_desc l) l.
Proof.
  unfold GoalCrud.sort_created_desc.
  induction l as [|d l IH]; cbn [fold_right].
  - apply Permutation_refl.
  - eapply perm_trans; [apply insert_desc_perm | apply perm_skip; exact IH].
Qed.

Lemma insert_desc_sorted (d : Doc.t) (l : list Doc.t) :
  StronglySorted latest_first l -> StronglySorted latest_first (GoalCrud.insert_desc d l).
Proof.
  induction 1 as [|x l Hl IH Hx]; cbn [GoalCrud.insert_desc].
  - repeat constructor.
  - destruct (datetime_leb (Doc.created_at x) (Doc.created_at d)) eqn:E.
    + constructor; [constructor; assumption|].
      constructor; [exact E|].
      eapply Forall_impl; [|exact Hx].
      intros y Hy. unfold latest_first in *.
      eapply datetime_leb_trans; eassumption.
    + constructor; [exact IH|].
      apply (Permutation_Forall (Permutation_sym (insert_desc_perm d l))).
      constructor; [|exact Hx].
      apply datetime_leb_total. exact E.
Qed.

Lemma sort_created_desc_sorted (l : list Doc.t) :
  StronglySorted latest_first (GoalCrud.sort_created_desc l).
Proof.
  unfold GoalCrud.sort_created_desc.
  induction l as [|d l IH]; cbn [fold_right].
  - constructor.
  - apply insert_desc_sorted. exact IH.
Qed.

Lemma StronglySorted_app_inv {A : Type} (R : A -> A -> Prop) (l1 l2 : list A) :
  StronglySorted R (l1 ++ l2) -> StronglySorted R l1 /\ StronglySorted R l2.
Proof.
  induction l1 as [|a l1 IH]; cbn [app]; intro H.
  - split; [constructor | exact H].
  - apply StronglySorted_inv in H. destruct H as [Hs Ha].
    destruct (IH Hs) as [H1 H2]. split; [|exact H2].
    constructor; [exact H1|].
    apply Forall_app in Ha. tauto.
Qed.

(** What [skip] and [limit] keep is a run of the sorted list. *)
Lemma page_of_sorted (skip limit : nat) (l : list Doc.t) :
  StronglySorted latest_first l ->
  StronglySorted latest_first (GoalCrud.limit_to limit (skipn skip l))
  /\ (forall d, In d (GoalCrud.limit_to limit (skipn skip l)) -> In d l)
  /\ (limit <> 0%nat -> (List.length (GoalCrud.limit_to limit (skipn skip l)) <= limit)%nat)
  /\ (List.length (GoalCrud.limit_to limit (skipn skip l)) <= List.length l - skip)%nat.
Proof.
  intro Hs.
  assert (Hskip : StronglySorted latest_first (skipn skip l)).
  { rewrite <- (firstn_skipn skip l) in Hs. apply StronglySorted_app_inv in Hs. tauto. }
  assert (Hin : forall d, In d (skipn skip l) -> In d l).
  { intros d Hd. rewrite <- (firstn_skipn skip l). apply in_or_app. right. exact Hd. }
  unfold GoalCrud.limit_to. destruct (Nat.eqb_spec limit 0) as [->|Hne].
  - repeat split; try assumption.
    + intro H. contradiction.
    + rewrite length_skipn. lia.
  - repeat split.
    + rewrite <- (firstn_skipn limit (skipn skip l)) in Hskip.
      apply StronglySorted_app_inv in Hskip. tauto.
    + intros d Hd. apply Hin. rewrite <- (firstn_skipn limit (skipn skip l)).
      apply in_or_app. left. exact Hd.
    + intros _. apply firstn_le_length.
    + rewrite length_firstn, length_skipn. lia.
Qed.

(** X6: [get_user_goals] never fails and never writes; every goal it lists
    is a stored goal of that user with the status and the category asked
    for; the list runs from the latest [created_at] to the earliest; it has
    at most [limit] goals when [limit] is not 0, and at most the number of
    matching goals less [skip]. *)
Theorem get_user_goals_page (user : string) (status : option GoalStatus)
  (category : option GoalCategory) (skip limit : nat) (s : GoalOperations.self) :
  exists docs,
    GoalCrud.get_user_goals user status category skip limit s
    = (Returns (map response_of docs), s)
    /\ Forall (fun d => In d (GoalOperations.collection s)
                        /\ Doc.user_id d = user
                        /\ (forall st, status = Some st -> Doc.status d = st)
                        /\ (forall cat, category = Some cat -> Doc.category d = cat)) docs
    /\ StronglySorted latest_first docs
    /\ (limit <> 0%nat -> (List.length docs <= limit)%nat)
    /\ (List.length docs
        <= List.length (filter (GoalCrud.query user status category)
                          (GoalOperations.collection s)) - skip)%nat.
Proof.
  set (matching := filter (GoalCrud.query user status category) (GoalOperations.collection s)).
  destruct (page_of_sorted skip limit (GoalCrud.sort_created_desc matching)
              (sort_created_desc_sorted matching)) as (Hsorted & Hin & Hlimit & Hlen).
  exists (GoalCrud.limit_to limit (skipn skip (GoalCrud.sort_created_desc matching))).
  split; [|split; [|split; [|split]]].
  - unfold GoalCrud.get_user_goals, try_except. fold matching.
    rewrite to_responses_map. reflexivity.
  - apply Forall_forall. intros d Hd. apply Hin in Hd.
    apply (Permutation_in _ (sort_created_desc_perm matching)) in Hd.
    unfold matching in Hd. apply filter_In in Hd. destruct Hd as [Hstored Hq].
    unfold GoalCrud.query in Hq. rewrite !andb_true_iff in Hq.
    destruct Hq as [[Hu Hst] Hcat].
    split; [exact Hstored|]. split; [apply String.eqb_eq; exact Hu|]. split.
    + intros st ->. cbn in Hst.
      apply internal_GoalStatus_dec_bl. exact Hst.
    + intros cat ->. cbn in Hcat.
      apply internal_GoalCategory_dec_bl. exact Hcat.
  - exact Hsorted.
  - exact Hlimit.
  - rewrite (Permutation_length (sort_created_desc_perm matching)) in Hlen. exact Hlen.
Qed.

(** X7: without [skip], and with no limit (0) or one that the matches do
    not exceed, [get_user_goals] lists every stored goal of the user with
    the status and category asked for, each once: the documents listed are
    a permutation of the matching ones. *)
Theorem get_user_goals_complete (user : string) (status : option GoalStatus)
  (category : option GoalCategory) (limit : nat) (s : GoalOperations.self) :
  (limit = 0 \/ List.length (filter (GoalCrud.query user status category)
                               (GoalOperations.collection s)) <= limit)%nat ->
  exists docs,
    GoalCrud.get_user_goals user status category 0 limit s
    = (Returns (map response_of docs), s)
    /\ Permutation docs
         (filter (GoalCrud.query user status category) (GoalOperations.collection s)).
Proof.
  intro Hlimit.
  set (matching := filter (GoalCrud.query user status category) (GoalOperations.collection s))
    in *.
  exists (GoalCrud.sort_created_desc matching). split.
  - unfold GoalCrud.get_user_goals, try_except. fold matching.
    rewrite to_responses_map. cbn [skipn].
    unfold GoalCrud.limit_to. destruct (Nat.eqb_spec limit 0) as [E|E]; [reflexivity|].
    rewrite firstn_all2; [reflexivity|].
    rewrite (Permutation_length (sort_created_desc_perm matching)). lia.
  - apply sort_created_desc_perm.
Qed.

(** X7 at the stored goals "Viaje" and "Casa", listing the user's active
    goals with the default limit of 100. *)
Lemma get_user_goals_complete_witness :
  exists docs,
    GoalCrud.get_user_goals Sample.user (Some ACTIVE) None 0 100 Sample.goal_ops
    = (Returns (map response_of docs), Sample.goal_ops)
    /\ Permutation docs [Sample.trip; Sample.house].
Proof.
  apply (get_user_goals_complete Sample.user (Some ACTIVE) None 100 Sample.goal_ops).
  right. cbn. lia.
Defined.

(** ** [get_goal_stats] *)

Lemma fold_Qplus_compat (l : list Q) (a b : Q) :
  a == b -> fold_left Qplus l a == fold_left Qplus l b.
Proof.
  revert a b. induction l as [|x l IH]; cbn [fold_left]; intros a b H.
  - exact H.
  - apply IH. rewrite H. reflexivity.
Qed.

Lemma fold_Qplus_acc (l : list Q) (a : Q) :
  fold_left Qplus l a == a + fold_left Qplus l 0.
Proof.
  revert a. induction l as [|x l IH]; intro a; cbn [fold_left].
  - lra.
  - rewrite (IH (a + x)), (IH (0 + x)). lra.
Qed.

Lemma Qsum_cons (x : Q) (l : list Q) :
  GoalOperations.Qsum (x :: l) == x + GoalOperations.Qsum l.
Proof.
  unfold GoalOperations.Qsum. cbn [fold_left]. rewrite fold_Qplus_acc. lra.
Qed.

(** A sum over the goals is the sum of the sums over the four statuses. *)
Lemma Qsum_by_status (g : Doc.t -> Q) (docs : list Doc.t) :
  GoalOperations.Qsum (map g docs)
  == GoalOperations.Qsum (map g (with_status ACTIVE docs))
     + GoalOperations.Qsum (map g (with_status COMPLETED docs))
     + GoalOperations.Qsum (map g (with_status FAILED docs))
     + GoalOperations.Qsum (map g (with_status ARCHIVED docs)).
Proof.
  unfold with_status.
  induction docs as [|d docs IH]; cbn [map filter].
  - reflexivity.
  - rewrite Qsum_cons, IH.
    destruct (Doc.status d); cbn [GoalStatus_beq map]; rewrite Qsum_cons; lra.
Qed.

Lemma length_by_status (docs : list Doc.t) :
  List.length docs
  = (List.length (with_status ACTIVE docs) + List.length (with_status COMPLETED docs)
     + List.length (with_status FAILED docs) + List.length (with_status ARCHIVED docs))%nat.
Proof.
  unfold with_status.
  induction docs as [|d docs IH]; cbn [filter List.length].
  - reflexivity.
  - rewrite IH. destruct (Doc.status d); cbn [GoalStatus_beq List.length]; lia.
Qed.

Lemma average_times_count (x : Q) (d : Doc.t) (l : list Doc.t) :
  x / inject_Z (Z.of_nat (List.length (d :: l))) * inject_Z (Z.of_nat (List.length (d :: l)))
  == x.
Proof.
  field. cbn [List.length]. rewrite Nat2Z.inj_succ.
  unfold Qeq. cbn. lia.
Qed.

Lemma Qsum_nil : GoalOperations.Qsum [] = 0.
Proof. reflexivity. Qed.

Lemma Qsum_bounds (f : Doc.t -> Q) (l : list Doc.t) :
  Forall (fun d => 0 <= f d <= 100) l ->
  0 <= GoalOperations.Qsum (map f l)
  /\ GoalOperations.Qsum (map f l) <= 100 * inject_Z (Z.of_nat (List.length l)).
Proof.
  induction 1 as [|d l Hd Hl IH].
  - cbn [map List.length Z.of_nat]. rewrite Qsum_nil. change (inject_Z 0) with 0. lra.
  - cbn [map]. rewrite Qsum_cons.
    replace (Z.of_nat (List.length (d :: l))) with (1 + Z.of_nat (List.length l))%Z
      by (cbn [List.length]; lia).
    rewrite inject_Z_plus. change (inject_Z 1) with 1. lra.
Qed.

Lemma Qsum_mean_bounds (f : Doc.t -> Q) (l : list Doc.t) :
  (0 < Z.of_nat (List.length l))%Z ->
  Forall (fun d => 0 <= f d <= 100) l ->
  0 <= GoalOperations.Qsum (map f l) / inject_Z (Z.of_nat (List.length l)) <= 100.
Proof.
  intros Hpos Hall. destruct (Qsum_bounds f l Hall) as [H0 H1].
  assert (Hn : 0 < inject_Z (Z.of_nat (List.length l))).
  { change 0 with (inject_Z 0). rewrite <- Zlt_Qlt. exact Hpos. }
  split.
  - apply Qle_shift_div_l; [exact Hn|]. lra.
  - apply Qle_shift_div_r; [exact Hn|]. lra.
Qed.

(** The rows of the aggregation, status by status. *)
Lemma aggregate_by_status_rows (user : string) (c : Collection.t) :
  GoalOperations.aggregate_by_status user c
  = flat_map
      (fun st =>
         match with_status st (filter (of_user user) c) with
         | [] => []
         | _ :: _ =>
             [GoalOperations.mk_row st
                (Z.of_nat (List.length (with_status st (filter (of_user user) c))))
                (GoalOperations.Qsum
                   (map Doc.current_amount (with_status st (filter (of_user user) c))))
                (GoalOperations.Qsum
                   (map Doc.target_amount (with_status st (filter (of_user user) c))))
                (GoalOperations.Qsum
                   (map Doc.progress_percentage (with_status st (filter (of_user user) c)))
                 / inject_Z (Z.of_nat (List.length
                                         (with_status st (filter (of_user user) c)))))]
         end)
      [ACTIVE; COMPLETED; FAILED; ARCHIVED].
Proof. reflexivity. Qed.

Lemma average_times_count_ne (x : Q) (l : list Doc.t) :
  l <> [] ->
  x / inject_Z (Z.of_nat (List.length l)) * inject_Z (Z.of_nat (List.length l)) == x.
Proof.
  destruct l as [|d l]; [congruence|]. intros _. apply average_times_count.
Qed.

(** What [get_goal_stats] computes from the rows of its aggregation. *)
Lemma stats_of_aggregate (user : string) (c : Collection.t) :
  let mine := filter (of_user user) c in
  let stats := GoalOperations.stats_of_results (GoalOperations.aggregate_by_status user c) in
  GoalStats.active_goals_count stats = Z.of_nat (List.length (with_status ACTIVE mine))
  /\ GoalStats.completed_goals_count stats
     = Z.of_nat (List.length (with_status COMPLETED mine))
  /\ GoalStats.failed_goals_count stats = Z.of_nat (List.length (with_status FAILED mine))
  /\ GoalStats.total_goals_count stats
     = Z.of_nat (List.length mine - List.length (with_status ARCHIVED mine))
  /\ GoalStats.total_saved stats == GoalOperations.Qsum (map Doc.current_amount mine)
  /\ GoalStats.total_target_amount stats
     == GoalOperations.Qsum (map Doc.target_amount mine)
  /\ ((0 < GoalStats.total_goals_count stats)%Z ->
      GoalStats.average_progress stats
      == GoalOperations.Qsum (map Doc.progress_percentage mine)
         / inject_Z (GoalStats.total_goals_count stats))
  /\ ((GoalStats.total_goals_count stats <= 0)%Z -> GoalStats.average_progress stats = 0).
Proof.
  cbv zeta. rewrite aggregate_by_status_rows.
  set (mine := filter (of_user user) c).
  rewrite (Qsum_by_status Doc.current_amount mine), (Qsum_by_status Doc.target_amount mine),
    (Qsum_by_status Doc.progress_percentage mine), (length_by_status mine).
  cbn [flat_map].
  split_status_rows mine; compute_stats;
    (split; [lia|]); (split; [lia|]); (split; [lia|]); (split; [lia|]);
    (split; [rewrite ?Qsum_nil; unfold GoalOperations.Qsum; lra|]);
    (split; [rewrite ?Qsum_nil; unfold GoalOperations.Qsum; lra|]);
    (split; [intro Hpos; apply Z.ltb_lt in Hpos; rewrite Hpos
            | intro Hle; apply Z.ltb_ge in Hle; rewrite Hle; reflexivity]);
    rewrite ?Qsum_cons, ?Qsum_nil;
    match goal with
    | |- ?N / ?D == ?M / ?D =>
        assert (HN : N == M);
        [repeat rewrite average_times_count_ne by congruence; lra
        | rewrite HN; reflexivity]
    end.
Qed.

(** X8: [get_goal_stats] never fails and writes nothing, and neither does
    its handler, which returns the same statistics; the counters are the
    numbers of the user's active, completed and failed goals, the total is
    the number of the user's goals that are not archived, and the two
    amounts are summed over all the user's goals, archived ones included.
    A user without goals gets the default statistics. *)
Theorem get_goal_stats_totals (user : string) (s : GoalOperations.self) :
  let mine := filter (of_user user) (GoalOperations.collection s) in
  exists stats,
    GoalOperations.get_goal_stats user s = (Returns stats, s)
    /\ RoutersCrud.get_goal_stats user s = (Returns stats, s)
    /\ GoalStats.active_goals_count stats
       = Z.of_nat (List.length (with_status ACTIVE mine))
    /\ GoalStats.completed_goals_count stats
       = Z.of_nat (List.length (with_status COMPLETED mine))
    /\ GoalStats.failed_goals_count stats
       = Z.of_nat (List.length (with_status FAILED mine))
    /\ GoalStats.total_goals_count stats
       = Z.of_nat (List.length mine - List.length (with_status ARCHIVED mine))
    /\ GoalStats.total_saved stats == GoalOperations.Qsum (map Doc.current_amount mine)
    /\ GoalStats.total_target_amount stats
       == GoalOperations.Qsum (map Doc.target_amount mine)
    /\ (mine = [] -> stats = GoalStats.default).
Proof.
  cbv zeta. eexists. split; [reflexivity|]. split; [reflexivity|].
  destruct (stats_of_aggregate user (GoalOperations.collection s))
    as (Ha & Hc & Hf & Ht & Hs & Hg & _ & _).
  repeat (split; [assumption|]).
  intros Hnil. rewrite aggregate_by_status_rows, Hnil. reflexivity.
Qed.

(** X9: for a user who has goals and none of them archived,
    [get_goal_stats] counts all of them and its average is the mean of their
    stored progress percentages; when all these percentages lie between 0
    and 100, so does the average. *)
Theorem get_goal_stats_average_without_archived (user : string) (s : GoalOperations.self) :
  let mine := filter (of_user user) (GoalOperations.collection s) in
  mine <> [] ->
  with_status ARCHIVED mine = [] ->
  exists stats,
    GoalOperations.get_goal_stats user s = (Returns stats, s)
    /\ GoalStats.total_goals_count stats = Z.of_nat (List.length mine)
    /\ GoalStats.average_progress stats
       == GoalOperations.Qsum (map Doc.progress_percentage mine)
          / inject_Z (Z.of_nat (List.length mine))
    /\ (Forall (fun d => 0 <= Doc.progress_percentage d <= 100) mine ->
        0 <= GoalStats.average_progress stats <= 100).
Proof.
  cbv zeta. intros Hne Harch. eexists. split; [reflexivity|].
  destruct (stats_of_aggregate user (GoalOperations.collection s))
    as (_ & _ & _ & Ht & _ & _ & Havg & _).
  cbv zeta in Ht, Havg. rewrite Harch in Ht. cbn [List.length] in Ht.
  rewrite Nat.sub_0_r in Ht.
  assert (Hpos : (0 < Z.of_nat (List.length (filter (of_user user) (GoalOperations.collection s))))%Z).
  { destruct (filter (of_user user) (GoalOperations.collection s)); [congruence|].
    cbn [List.length]. lia. }
  rewrite Ht in Havg. specialize (Havg Hpos).
  split; [exact Ht|]. split; [exact Havg|].
  intros Hall. rewrite Havg.
  apply Qsum_mean_bounds; assumption.
Qed.

Lemma get_goal_stats_average_without_archived_witness :
  exists stats,
    GoalOperations.get_goal_stats Sample.user Sample.goal_ops
    = (Returns stats, Sample.goal_ops)
    /\ GoalStats.total_goals_count stats = 2%Z
    /\ GoalStats.average_progress stats == 25.
Proof.
  destruct (get_goal_stats_average_without_archived Sample.user Sample.goal_ops)
    as (stats & Hrun & Ht & Havg & _).
  - vm_compute. discriminate.
  - reflexivity.
  - exists stats. split; [exact Hrun|]. split; [exact Ht|].
    rewrite Havg. reflexivity.
Defined.

(** ** [set_goal_as_main] on an existing goal *)

Lemma write_flag_change (now : datetime) (b : bool) (d : Doc.t) :
  Doc.is_main d = negb b ->
  Collection.write [Doc.set_is_main b; Doc.set_updated_at now] d
  = (Doc.set [Doc.set_is_main b; Doc.set_updated_at now] d, 1%nat).
Proof.
  intro Hflag. unfold Collection.write.
  destruct (Doc.same _ d) eqn:Esame; [|reflexivity].
  exfalso. unfold Doc.same in Esame.
  cbn [Doc.set fold_left Doc.assign Doc.is_main] in Esame.
  rewrite Hflag in Esame.
  replace (Bool.eqb b (negb b)) with false in Esame by (destruct b; reflexivity).
  rewrite !andb_false_r in Esame. cbn [andb] in Esame. discriminate.
Qed.

Lemma update_many_main_switched (now : datetime) (o : oid) (user : string)
  (c : Collection.t) :
  Collection.find_one (by_id_and_user o user) c = None ->
  fst (Collection.update_many (main_of_user user)
         [Doc.set_is_main false; Doc.set_updated_at now] c)
  = map (main_switched now o user) c.
Proof.
  unfold Collection.find_one.
  induction c as [|d c IH]; intro Hnone; [reflexivity|].
  cbn [find] in Hnone. cbn [Collection.update_many map].
  unfold main_switched at 1.
  destruct (by_id_and_user o user d) eqn:Eid; [discriminate|].
  destruct (main_of_user user d) eqn:Emain; cbn [fst]; rewrite (IH Hnone); [|reflexivity].
  rewrite write_flag_change; [reflexivity|].
  unfold main_of_user in Emain. apply andb_true_iff in Emain. apply Emain.
Qed.

Lemma find_one_not_in (o : oid) (user : string) (c : Collection.t) :
  ~ In o (map Doc._id c) -> Collection.find_one (by_id_and_user o user) c = None.
Proof.
  unfold Collection.find_one. induction c as [|d c IH]; intro Hnot; [reflexivity|].
  cbn [find]. destruct (by_id_and_user o user d) eqn:E.
  - apply by_id_and_user_true in E. destruct E as [E _].
    exfalso. apply Hnot. left. exact E.
  - apply IH. intro Hin. apply Hnot. right. exact Hin.
Qed.

Lemma promote_after_clear (now : datetime) (d : Doc.t) :
  Doc.set [Doc.set_is_main true; Doc.set_updated_at now]
    (fst (Collection.write [Doc.set_is_main false; Doc.set_updated_at now] d))
  = Doc.set [Doc.set_is_main true; Doc.set_updated_at now] d.
Proof.
  unfold Collection.write. destruct (Doc.same _ d); reflexivity.
Qed.

Lemma is_main_after_clear (now : datetime) (d : Doc.t) :
  Doc.is_main d = true ->
  Doc.is_main (fst (Collection.write [Doc.set_is_main false; Doc.set_updated_at now] d))
  = false.
Proof.
  intro H. rewrite write_flag_change by exact H. reflexivity.
Qed.

(** The two writes of [set_goal_as_main], on a store with unique ids that
    holds the goal. *)
Lemma set_main_writes (now : datetime) (o : oid) (user : string) (c : Collection.t)
  (g : Doc.t) :
  unique_ids c ->
  Collection.find_one (by_id_and_user o user) c = Some g ->
  let cleared :=
    fst (Collection.update_many (main_of_user user)
           [Doc.set_is_main false; Doc.set_updated_at now] c) in
  Collection.update_one (by_id_and_user o user)
    [Doc.set_is_main true; Doc.set_updated_at now] cleared
  = (map (main_switched now o user) c, mk_result 1 1).
Proof.
  unfold unique_ids, Collection.find_one. cbv zeta.
  induction c as [|d c IH]; intros Huniq Hfind; [discriminate|].
  cbn [map] in Huniq. inversion Huniq as [|x l Hnotin Hrest]; subst.
  cbn [find] in Hfind. cbn [Collection.update_many map].
  unfold main_switched at 1.
  destruct (by_id_and_user o user d) eqn:Eid.
  - assert (Ho : Doc._id d = o) by (apply by_id_and_user_true in Eid; apply Eid).
    rewrite <- Ho in *.
    pose proof (update_many_main_switched now (Doc._id d) user c
                  (find_one_not_in (Doc._id d) user c Hnotin)) as Hrest'.
    destruct (main_of_user user d) eqn:Emain; cbn [fst Collection.update_one].
    + rewrite by_id_and_user_write, Eid. cbn [fst snd].
      assert (Hm : Doc.is_main d = true).
      { unfold main_of_user in Emain. apply andb_true_iff in Emain. apply Emain. }
      rewrite (write_flag_change now true)
        by (rewrite is_main_after_clear by exact Hm; reflexivity).
      cbn [fst snd]. rewrite promote_after_clear, Hrest'. reflexivity.
    + rewrite Eid. cbn [fst snd].
      assert (Hm : Doc.is_main d = false).
      { unfold main_of_user in Emain. apply andb_false_iff in Emain.
        destruct Emain as [Eu|Em]; [|exact Em].
        apply by_id_and_user_true in Eid. destruct Eid as [_ Eid].
        rewrite Eid, String.eqb_refl in Eu. discriminate. }
      rewrite (write_flag_change now true) by exact Hm.
      cbn [fst snd]. rewrite Hrest'. reflexivity.
  - specialize (IH Hrest Hfind).
    destruct (main_of_user user d) eqn:Emain; cbn [fst Collection.update_one].
    + rewrite by_id_and_user_write, Eid, IH. cbn [fst snd].
      rewrite write_flag_change; [reflexivity|].
      unfold main_of_user in Emain. apply andb_true_iff in Emain. apply Emain.
    + rewrite Eid, IH. reflexivity.
Qed.

Lemma main_switched_id (now : datetime) (o : oid) (user : string) (d : Doc.t) :
  Doc._id (main_switched now o user d) = Doc._id d.
Proof.
  unfold main_switched.
  destruct (by_id_and_user o user d); [apply set_id|].
  destruct (main_of_user user d); [apply set_id|reflexivity].
Qed.

Lemma main_switched_user_id (now : datetime) (o : oid) (user : string) (d : Doc.t) :
  Doc.user_id (main_switched now o user d) = Doc.user_id d.
Proof.
  unfold main_switched.
  destruct (by_id_and_user o user d); [apply set_user_id|].
  destruct (main_of_user user d); [apply set_user_id|reflexivity].
Qed.

(** After the switch the owner's main goals are the goal with the given id. *)
Lemma main_switched_main (now : datetime) (o : oid) (user : string) (d : Doc.t) :
  main_of_user user (main_switched now o user d) = by_id_and_user o user d.
Proof.
  unfold main_switched.
  destruct (by_id_and_user o user d) eqn:Eid.
  - apply by_id_and_user_true in Eid. destruct Eid as [_ Eu].
    unfold main_of_user. rewrite set_user_id, Eu, String.eqb_refl. reflexivity.
  - destruct (main_of_user user d) eqn:Emain; [|exact Emain].
    unfold main_of_user. rewrite set_user_id. cbn [Doc.set fold_left Doc.assign Doc.is_main].
    apply andb_false_r.
Qed.

Lemma find_map_switched (now : datetime) (o : oid) (user : string) (c : Collection.t) :
  find (main_of_user user) (map (main_switched now o user) c)
  = option_map (main_switched now o user) (find (by_id_and_user o user) c).
Proof.
  induction c as [|d c IH]; [reflexivity|].
  cbn [map find]. rewrite main_switched_main.
  destruct (by_id_and_user o user d); [reflexivity|exact IH].
Qed.

Lemma find_by_id_map_switched (now : datetime) (o : oid) (user : string)
  (c : Collection.t) :
  find (by_id_and_user o user) (map (main_switched now o user) c)
  = option_map (main_switched now o user) (find (by_id_and_user o user) c).
Proof.
  induction c as [|d c IH]; [reflexivity|].
  cbn [map find].
  replace (by_id_and_user o user (main_switched now o user d))
    with (by_id_and_user o user d)
    by (unfold by_id_and_user; rewrite main_switched_id, main_switched_user_id; reflexivity).
  destruct (by_id_and_user o user d); [reflexivity|exact IH].
Qed.

(** X10: [set_goal_as_main] on a goal of the user, ids being unique: the
    handler returns the goal with the main flag and the new timestamp; the
    stored documents are the old ones in the same order, the goal flagged,
    the user's previous main goals unflagged, all other documents (those of
    other users too) untouched; afterwards the user's main goal is this
    goal and no other goal of the user is flagged; the ledger is not
    touched. *)
Theorem set_goal_as_main_switches_main (now : datetime) (goal_id user : string) (o : oid)
  (s : GoalOperations.self) (g : Doc.t) :
  unique_ids (GoalOperations.collection s) ->
  ObjectId goal_id = Returns o ->
  lookup (ById goal_id) user (GoalOperations.collection s) = Some g ->
  let g' := Doc.set [Doc.set_is_main true; Doc.set_updated_at now] g in
  let s' := GoalOperations.mk (map (main_switched now o user) (GoalOperations.collection s))
              (GoalOperations.transactions_collection s) in
  Routers.set_goal_as_main now goal_id user s = (Returns (response_of g'), s')
  /\ lookup ByMainFlag user (GoalOperations.collection s') = Some g'
  /\ (forall d, In d (GoalOperations.collection s') ->
                Doc.user_id d = user -> Doc.is_main d = true -> d = g')
  /\ (forall d, In d (GoalOperations.collection s) ->
                Doc.user_id d <> user -> main_switched now o user d = d)
  /\ (forall d, In d (GoalOperations.collection s) ->
                Doc._id d <> o -> Doc.is_main d = false -> main_switched now o user d = d)
  /\ unique_ids (GoalOperations.collection s').
Proof.
  intros Huniq Hoid Hlook. cbv zeta.
  unfold lookup in Hlook. rewrite Hoid in Hlook.
  assert (Hg : by_id_and_user o user g = true).
  { apply find_some in Hlook. apply Hlook. }
  assert (Hsw : main_switched now o user g
                = Doc.set [Doc.set_is_main true; Doc.set_updated_at now] g).
  { unfold main_switched. rewrite Hg. reflexivity. }
  split; [|split; [|split; [|split; [|split]]]].
  - unfold Routers.set_goal_as_main, Routers.set_goal_as_main_try, try_except, bind,
      GoalOperations.update_many, GoalOperations.update_one, GoalOperations.find_one, lift.
    cbn [GoalOperations.collection GoalOperations.transactions_collection fst snd].
    rewrite Hoid.
    rewrite (set_main_writes now o user (GoalOperations.collection s) g Huniq Hlook).
    cbn [fst snd modified_count Nat.eqb GoalOperations.collection
         GoalOperations.transactions_collection].
    unfold Collection.find_one. rewrite find_by_id_map_switched.
    unfold Collection.find_one in Hlook. rewrite Hlook. cbn [option_map].
    rewrite Hsw, document_to_response_of. reflexivity.
  - cbn [lookup GoalOperations.collection]. unfold Collection.find_one.
    rewrite find_map_switched. unfold Collection.find_one in Hlook.
    rewrite Hlook. cbn [option_map]. rewrite Hsw. reflexivity.
  - cbn [GoalOperations.collection]. intros d Hin Hu Hm.
    apply in_map_iff in Hin. destruct Hin as (d0 & Hd0 & Hin0). subst d.
    assert (Hmain : main_of_user user (main_switched now o user d0) = true).
    { unfold main_of_user. rewrite Hu, String.eqb_refl, Hm. reflexivity. }
    rewrite main_switched_main in Hmain.
    assert (d0 = g).
    { apply (unique_id_same_doc (GoalOperations.collection s)); auto.
      - apply find_some in Hlook. apply Hlook.
      - apply by_id_and_user_true in Hmain, Hg. destruct Hmain, Hg. congruence. }
    subst d0. exact Hsw.
  - intros d _ Hu. unfold main_switched.
    replace (by_id_and_user o user d) with false.
    + replace (main_of_user user d) with false; [reflexivity|].
      symmetry. unfold main_of_user. apply andb_false_iff. left.
      apply String.eqb_neq. exact Hu.
    + symmetry. unfold by_id_and_user. apply andb_false_iff. right.
      apply String.eqb_neq. exact Hu.
  - intros d _ Hid Hm. unfold main_switched.
    replace (by_id_and_user o user d) with false.
    + replace (main_of_user user d) with false; [reflexivity|].
      symmetry. unfold main_of_user. rewrite Hm. apply andb_false_r.
    + symmetry. unfold by_id_and_user. apply andb_false_iff. left.
      apply String.eqb_neq. exact Hid.
  - cbn [GoalOperations.collection]. unfold unique_ids in *.
    rewrite map_map.
    rewrite (map_ext _ Doc._id (main_switched_id now o user)). exact Huniq.
Qed.

Lemma set_goal_as_main_switches_main_witness :
  exists s',
    Routers.set_goal_as_main Sample.now Sample.id_b Sample.user Sample.goal_ops
    = (Returns (response_of
                  (Doc.set [Doc.set_is_main true; Doc.set_updated_at Sample.now]
                     Sample.house)), s')
    /\ map Doc.is_main (GoalOperations.collection s') = [false; true].
Proof.
  eexists.
  split.
  - apply (set_goal_as_main_switches_main Sample.now Sample.id_b Sample.user Sample.id_b
             Sample.goal_ops Sample.house).
    + apply sample_unique_ids.
    + reflexivity.
    + reflexivity.
  - reflexivity.
Defined.

(** ** [update_goal] on an existing goal *)

Lemma datetime_eqb_eq (a b : datetime) : datetime_eqb a b = true <-> a = b.
Proof.
  unfold datetime_eqb. rewrite andb_true_iff, !Z.eqb_eq.
  destruct a, b; cbn. split.
  - intros [-> ->]. reflexivity.
  - intro H. inversion H. split; reflexivity.
Qed.

Lemma same_refl (d : Doc.t) : Doc.same d d = true.
Proof.
  assert (Hopt : forall (A : Type) (eqb : A -> A -> bool) (x : option A),
             (forall a, eqb a a = true) -> option_eqb eqb x x = true).
  { intros A eqb [a|] H; [apply H|reflexivity]. }
  assert (Hdt : forall a, datetime_eqb a a = true).
  { intro a. apply datetime_eqb_eq. reflexivity. }
  unfold Doc.same.
  rewrite !String.eqb_refl, Z.eqb_refl, !Bool.eqb_reflx, Hdt.
  rewrite (Hopt _ String.eqb _ String.eqb_refl), (Hopt _ datetime_eqb _ Hdt).
  rewrite (proj2 (Qeq_bool_iff (Doc.target_amount d) (Doc.target_amount d)) (Qeq_refl _)).
  rewrite (proj2 (Qeq_bool_iff (Doc.current_amount d) (Doc.current_amount d)) (Qeq_refl _)).
  rewrite (proj2 (Qeq_bool_iff (Doc.progress_percentage d) (Doc.progress_percentage d))
             (Qeq_refl _)).
  destruct (Doc.category d), (Doc.status d); reflexivity.
Qed.

Lemma same_updated_at (a b : Doc.t) :
  Doc.same a b = true -> Doc.updated_at a = Doc.updated_at b.
Proof.
  unfold Doc.same. rewrite !andb_true_iff. intro H.
  assert (E : option_eqb datetime_eqb (Doc.updated_at a) (Doc.updated_at b) = true) by tauto.
  destruct (Doc.updated_at a), (Doc.updated_at b); cbn [option_eqb] in E;
    try discriminate; [|reflexivity].
  apply datetime_eqb_eq in E. congruence.
Qed.

Lemma update_one_ids (flt : Doc.t -> bool) (u : list Doc.assignment) (c : Collection.t) :
  map Doc._id (fst (Collection.update_one flt u c)) = map Doc._id c.
Proof.
  induction c as [|d c IH]; [reflexivity|].
  cbn [Collection.update_one]. destruct (flt d); cbn [fst map].
  - rewrite write_id. reflexivity.
  - rewrite IH. reflexivity.
Qed.

Lemma update_one_keeps (flt : Doc.t -> bool) (u : list Doc.assignment) (c : Collection.t)
  (d : Doc.t) :
  In d c -> flt d = false -> In d (fst (Collection.update_one flt u c)).
Proof.
  induction c as [|x c IH]; [intros []|].
  intros [->|Hin] Hflt; cbn [Collection.update_one].
  - rewrite Hflt. left. reflexivity.
  - destruct (flt x); cbn [fst]; right; [exact Hin|apply IH; assumption].
Qed.

(** With unique ids, the filter on the id alone finds the same document as
    the filter on id and owner. *)
Lemma find_one_by_id_alone (o : oid) (user : string) (c : Collection.t) (g : Doc.t) :
  unique_ids c ->
  Collection.find_one (by_id_and_user o user) c = Some g ->
  Collection.find_one (by_id o) c = Some g.
Proof.
  unfold unique_ids, Collection.find_one.
  induction c as [|d c IH]; intros Huniq Hfind; [discriminate|].
  cbn [map] in Huniq. inversion Huniq as [|x l Hnotin Hrest]; subst.
  cbn [find] in *. destruct (by_id_and_user o user d) eqn:E.
  - apply by_id_and_user_true in E. destruct E as [E _].
    unfold by_id. rewrite E, String.eqb_refl. exact Hfind.
  - destruct (by_id o d) eqn:Eid; [|apply IH; assumption].
    exfalso. apply find_some in Hfind. destruct Hfind as [Hin Hg].
    apply by_id_and_user_true in Hg. destruct Hg as [Hg _].
    unfold by_id in Eid. apply String.eqb_eq in Eid.
    apply Hnotin. rewrite Eid, <- Hg. apply in_map. exact Hin.
Qed.

Lemma set_edited (now : datetime) (update_data : GoalUpdate.t) (g : Doc.t) :
  Doc.set
    (GoalOperations.set_if Doc.set_name (GoalUpdate.name update_data)
     ++ GoalOperations.set_if Doc.set_description (GoalUpdate.description update_data)
     ++ GoalOperations.set_if Doc.set_category (GoalUpdate.category update_data)
     ++ GoalOperations.set_if Doc.set_target_amount (GoalUpdate.target_amount update_data)
     ++ GoalOperations.set_if Doc.set_current_amount (GoalUpdate.current_amount update_data)
     ++ GoalOperations.set_if Doc.set_target_date (GoalUpdate.target_date update_data)
     ++ GoalOperations.set_if Doc.set_status (GoalUpdate.status update_data)
     ++ GoalOperations.set_if Doc.set_is_public (GoalUpdate.is_public update_data)
     ++ GoalOperations.set_if Doc.set_is_main (GoalUpdate.is_main update_data)
     ++ [Doc.set_updated_at now]) g
  = edited now update_data g.
Proof.
  destruct update_data as [[n|] [de|] [ca|] [ta|] [cu|] [td|] [st|] [ip|] [im|]];
    reflexivity.
Qed.

Lemma write_edited (now : datetime) (update_data : GoalUpdate.t) (g : Doc.t)
  (u : list Doc.assignment) :
  Doc.set u g = edited now update_data g ->
  Doc.updated_at g <> Some now ->
  Collection.write u g = (edited now update_data g, 1%nat).
Proof.
  intros Hset Hnew. unfold Collection.write. rewrite Hset.
  destruct (Doc.same _ g) eqn:E; [|reflexivity].
  apply same_updated_at in E. cbn [edited Doc.updated_at] in E.
  symmetry in E. contradiction.
Qed.

(** The two writes of [update_goal] and what it returns, for a goal that
    is found. *)
Lemma update_goal_found (now : datetime) (goal_id user : string) (o : oid)
  (update_data : GoalUpdate.t) (s : GoalOperations.self) (g : Doc.t) :
  ObjectId goal_id = Returns o ->
  Collection.find_one (by_id_and_user o user) (GoalOperations.collection s) = Some g ->
  Doc.updated_at g <> Some now ->
  ~ Doc.target_amount (edited now update_data g) == 0 ->
  exists u,
    Doc.set u g = edited now update_data g
    /\ GoalOperations.update_goal now goal_id user update_data s
       = (Returns (Some (response_of (with_progress (edited now update_data g)))),
          GoalOperations.mk
            (fst (Collection.update_one (by_id o)
                    [Doc.set_progress_percentage
                       (py_min (Doc.current_amount (edited now update_data g)
                                / Doc.target_amount (edited now update_data g) * 100) 100)]
                    (fst (Collection.update_one (by_id_and_user o user) u
                            (GoalOperations.collection s)))))
            (GoalOperations.transactions_collection s)).
Proof.
  intros Hoid Hfind Hnew Htarget.
  unfold GoalOperations.update_goal. cbv zeta.
  match goal with
  | |- context [GoalOperations.update_one _ ?l] => set (u := l)
  end.
  exists u. split; [apply set_edited|].
  assert (Hw : Collection.write u g = (edited now update_data g, 1%nat)).
  { apply write_edited; [apply set_edited|exact Hnew]. }
  unfold try_except, bind, lift, ret, GoalOperations.update_one, GoalOperations.find_one.
  rewrite Hoid.
  rewrite update_one_result, Hfind, Hw.
  cbn [snd modified_count Nat.eqb GoalOperations.collection
       GoalOperations.transactions_collection].
  rewrite find_one_after_update_one by (intro d; apply by_id_and_user_write).
  rewrite Hfind. cbn [option_map]. rewrite Hw. cbn [fst].
  unfold truediv. rewrite (proj2 (Qeq_bool_false _ _) Htarget).
  cbn [GoalOperations.collection GoalOperations.transactions_collection].
  rewrite document_to_response_of. reflexivity.
Qed.

(** X11: [update_goal] on a goal of the user, ids being unique, the stored
    [updated_at] differing from the current instant and the target amount
    after the edit not being zero.  The operation and the handler return the
    goal with the given fields replaced, every other field kept (the status
    too, which is never recomputed: a goal edited up to its target stays
    active unless the edit sets the status), [updated_at] set, and the
    progress recomputed as min(current/target*100, 100) from the amounts
    after the edit.  The stored goal holds the same values, every other
    document is kept, and the ledger is not touched. *)
Theorem update_goal_edits_given_fields (now : datetime) (goal_id user : string) (o : oid)
  (update_data : GoalUpdate.t) (s : GoalOperations.self) (g : Doc.t) :
  unique_ids (GoalOperations.collection s) ->
  ObjectId goal_id = Returns o ->
  lookup (ById goal_id) user (GoalOperations.collection s) = Some g ->
  Doc.updated_at g <> Some now ->
  ~ Doc.target_amount (edited now update_data g) == 0 ->
  let g' := with_progress (edited now update_data g) in
  exists s' stored,
    GoalOperations.update_goal now goal_id user update_data s
    = (Returns (Some (response_of g')), s')
    /\ RoutersCrud.update_goal now goal_id update_data user s
       = (Returns (response_of g'), s')
    /\ GoalOperations.transactions_collection s' = GoalOperations.transactions_collection s
    /\ lookup (ById goal_id) user (GoalOperations.collection s') = Some stored
    /\ Doc.same g' stored = true
    /\ map Doc._id (GoalOperations.collection s') = map Doc._id (GoalOperations.collection s)
    /\ (forall d, In d (GoalOperations.collection s) -> Doc._id d <> o ->
                  In d (GoalOperations.collection s'))
    /\ (GoalUpdate.status update_data = None -> Doc.status g' = Doc.status g).
Proof.
  intros Huniq Hoid Hlook Hnew Htarget. cbv zeta.
  unfold lookup in *. rewrite Hoid in *.
  destruct (update_goal_found now goal_id user o update_data s g Hoid Hlook Hnew Htarget)
    as (u & Hset & Hrun).
  set (e := edited now update_data g) in *.
  set (p := [Doc.set_progress_percentage
               (py_min (Doc.current_amount e / Doc.target_amount e * 100) 100)]) in *.
  set (c1 := fst (Collection.update_one (by_id_and_user o user) u
                    (GoalOperations.collection s))) in *.
  set (c2 := fst (Collection.update_one (by_id o) p c1)) in *.
  assert (Hg : by_id_and_user o user g = true).
  { apply find_some in Hlook. apply Hlook. }
  assert (He : by_id_and_user o user e = true) by exact Hg.
  assert (Hfind1 : Collection.find_one (by_id_and_user o user) c1 = Some e).
  { unfold c1. rewrite find_one_after_update_one by (intro d; apply by_id_and_user_write).
    rewrite Hlook. cbn [option_map].
    rewrite (write_edited now update_data g u Hset Hnew). reflexivity. }
  assert (Huniq1 : unique_ids c1).
  { unfold unique_ids, c1. rewrite update_one_ids. exact Huniq. }
  assert (Hfind2 : Collection.find_one (by_id o) c2 = Some (fst (Collection.write p e))).
  { unfold c2. rewrite find_one_after_update_one.
    - rewrite (find_one_by_id_alone o user c1 e Huniq1 Hfind1). reflexivity.
    - intro d. unfold by_id. rewrite write_id. reflexivity. }
  assert (Huniq2 : unique_ids c2).
  { unfold unique_ids, c2. rewrite update_one_ids. exact Huniq1. }
  exists (GoalOperations.mk c2 (GoalOperations.transactions_collection s)).
  exists (fst (Collection.write p e)).
  split; [exact Hrun|].
  split; [unfold RoutersCrud.update_goal, try_except, bind; rewrite Hrun; reflexivity|].
  split; [reflexivity|].
  cbn [GoalOperations.collection].
  split; [|split; [|split; [|split]]].
  - apply find_some in Hfind2. destruct Hfind2 as [Hin _].
    pose proof (find_one_by_own_id c2 _ Huniq2 Hin) as Hown.
    rewrite write_id, write_user_id in Hown.
    apply by_id_and_user_true in He. destruct He as [Hid Hu].
    rewrite Hid, Hu in Hown. exact Hown.
  - unfold Collection.write.
    destruct (Doc.same (Doc.set p e) e) eqn:Esame; cbn [fst].
    + exact Esame.
    + apply same_refl.
  - unfold c2, c1. rewrite !update_one_ids. reflexivity.
  - intros d Hin Hid. unfold c2, c1.
    apply update_one_keeps.
    + apply update_one_keeps; [exact Hin|].
      unfold by_id_and_user. apply andb_false_iff. left. apply String.eqb_neq. exact Hid.
    + unfold by_id. apply String.eqb_neq. exact Hid.
  - intro Hst. unfold e. cbn [with_progress Doc.assign Doc.status edited].
    rewrite Hst. reflexivity.
Qed.

Lemma update_goal_edits_given_fields_witness :
  exists s',
    GoalOperations.update_goal EditSample.later Sample.id_a Sample.user
      EditSample.raise_current Sample.goal_ops
    = (Returns (Some (response_of
                        (with_progress
                           (edited EditSample.later EditSample.raise_current Sample.trip)))),
       s')
    /\ Doc.status
         (with_progress (edited EditSample.later EditSample.raise_current Sample.trip))
       = ACTIVE.
Proof.
  destruct (update_goal_edits_given_fields EditSample.later Sample.id_a Sample.user
              Sample.id_a EditSample.raise_current Sample.goal_ops Sample.trip)
    as (s' & stored & Hrun & _).
  - apply sample_unique_ids.
  - reflexivity.
  - reflexivity.
  - discriminate.
  - discriminate.
  - exists s'. split; [exact Hrun|reflexivity].
Defined.

(** ** What a contribution changes *)

Lemma replaced_no_id (o : oid) (g' : Doc.t) (c : Collection.t) :
  ~ In o (map Doc._id c) -> replaced o g' c = c.
Proof.
  unfold replaced. induction c as [|d c IH]; intro Hnot; [reflexivity|].
  cbn [map]. cbn [map] in Hnot.
  replace (by_id o d) with false.
  - rewrite IH; [reflexivity|]. intro Hin. apply Hnot. right. exact Hin.
  - symmetry. unfold by_id. apply String.eqb_neq. intro E. apply Hnot. left. exact E.
Qed.

(** With unique ids, [update_one] by id and owner replaces the document
    found and keeps every other one. *)
Lemma update_one_replaced (o : oid) (user : string) (u : list Doc.assignment)
  (c : Collection.t) (g : Doc.t) :
  unique_ids c ->
  Collection.find_one (by_id_and_user o user) c = Some g ->
  fst (Collection.update_one (by_id_and_user o user) u c)
  = replaced o (fst (Collection.write u g)) c.
Proof.
  unfold unique_ids, Collection.find_one.
  induction c as [|d c IH]; intros Huniq Hfind; [discriminate|].
  cbn [map] in Huniq. inversion Huniq as [|x l Hnotin Hrest]; subst.
  cbn [find] in Hfind. cbn [Collection.update_one].
  destruct (by_id_and_user o user d) eqn:E.
  - injection Hfind as ->. cbn [fst].
    apply by_id_and_user_true in E. destruct E as [E _]. rewrite <- E in *.
    change (replaced (Doc._id g) (fst (Collection.write u g)) (g :: c))
      with ((if by_id (Doc._id g) g then fst (Collection.write u g) else g)
            :: replaced (Doc._id g) (fst (Collection.write u g)) c).
    unfold by_id at 1. rewrite String.eqb_refl, replaced_no_id by exact Hnotin.
    reflexivity.
  - cbn [fst]. rewrite (IH Hrest Hfind).
    change (replaced o (fst (Collection.write u g)) (d :: c))
      with ((if by_id o d then fst (Collection.write u g) else d)
            :: replaced o (fst (Collection.write u g)) c).
    replace (by_id o d) with false; [reflexivity|].
    symmetry. unfold by_id. apply String.eqb_neq. intro Eid.
    apply find_some in Hfind. destruct Hfind as [Hin Hg].
    apply by_id_and_user_true in Hg. destruct Hg as [Hg _].
    apply Hnotin. rewrite Eid, <- Hg. apply in_map. exact Hin.
Qed.

(** The contribute operation after its lookup, with the id it updates and
    the [goal_id] it writes to the ledger. *)
Lemma contribute_found_goal_id (now : datetime) (user : string) (sel : selector)
  (c : GoalContribution.t) (s : GoalOperations.self) (g : Doc.t) :
  unique_ids (GoalOperations.collection s) ->
  lookup sel user (GoalOperations.collection s) = Some g ->
  Collection.find_one (by_id_and_user (Doc._id g) user) (GoalOperations.collection s)
  = Some g
  /\ contribute now user sel c s
     = try_except (after_lookup now user c g (Doc._id g) (ledger_goal_id sel g))
                  (fun _ => ret None) s.
Proof.
  intros Hnd Hlook. destruct sel as [|goal_id]; cbn [lookup contribute ledger_goal_id] in *.
  - split.
    + apply main_goal_by_id; assumption.
    + apply contribute_to_main_goal_found. exact Hlook.
  - destruct (ObjectId goal_id) as [o|e] eqn:Hid; [|discriminate].
    assert (Ho : Doc._id g = o).
    { apply find_some in Hlook. destruct Hlook as [_ Hg].
      apply by_id_and_user_true in Hg. apply Hg. }
    rewrite Ho. split.
    + exact Hlook.
    + apply contribute_to_goal_found; assumption.
Qed.

Lemma find_replaced (flt : Doc.t -> bool) (o : oid) (g g' : Doc.t) (c : Collection.t) :
  by_id o g = true ->
  (forall d, by_id o d = true -> In d c -> d = g) ->
  flt g' = flt g ->
  Collection.find_one flt c = Some g ->
  Collection.find_one flt (replaced o g' c) = Some g'.
Proof.
  unfold Collection.find_one, replaced.
  induction c as [|d c IH]; intros Hg Hid Hflt Hfind; [discriminate|].
  cbn [map find] in *.
  destruct (by_id o d) eqn:Eo.
  - assert (d = g) by (apply Hid; [exact Eo|left; reflexivity]). subst d.
    destruct (flt g) eqn:Eg.
    + rewrite Hflt. reflexivity.
    + exfalso. apply find_some in Hfind. destruct Hfind as [_ Hfg]. congruence.
  - destruct (flt d) eqn:Ed.
    + exfalso. injection Hfind as ->. congruence.
    + apply IH; [exact Hg| |exact Hflt|exact Hfind].
      intros d' Hd' Hin. apply Hid; [exact Hd'|right; exact Hin].
Qed.

Lemma contributed_keeps (now : datetime) (amount : Q) (g : Doc.t) :
  let g' := contributed now amount g in
  Doc._id g' = Doc._id g
  /\ Doc.user_id g' = Doc.user_id g
  /\ Doc.name g' = Doc.name g
  /\ Doc.description g' = Doc.description g
  /\ Doc.category g' = Doc.category g
  /\ Doc.target_amount g' = Doc.target_amount g
  /\ Doc.target_date g' = Doc.target_date g
  /\ Doc.currency g' = Doc.currency g
  /\ Doc.is_public g' = Doc.is_public g
  /\ Doc.is_main g' = Doc.is_main g
  /\ Doc.created_at g' = Doc.created_at g.
Proof.
  cbv zeta. unfold contributed, GoalOperations.contribution_update.
  destruct (Qle_bool 100 _); repeat split.
Qed.

(** The store an accepted contribution leaves behind. *)
Lemma contribute_accepted_store (now : datetime) (user : string) (sel : selector)
  (c : GoalContribution.t) (s : GoalOperations.self) (g : Doc.t) :
  unique_ids (GoalOperations.collection s) ->
  lookup sel user (GoalOperations.collection s) = Some g ->
  0 < GoalContribution.amount c ->
  GoalContribution.amount c <= Doc.target_amount g - Doc.current_amount g ->
  ~ Doc.target_amount g == 0 ->
  contribute now user sel c s
  = (Returns (Some (response_of (contributed now (GoalContribution.amount c) g))),
     GoalOperations.mk
       (replaced (Doc._id g) (contributed now (GoalContribution.amount c) g)
          (GoalOperations.collection s))
       (ledger_after (GoalOperations.transaction_doc now user c g (ledger_goal_id sel g))
          (GoalOperations.transactions_collection s))).
Proof.
  intros Huniq Hlook Hpos Hle Htarget.
  destruct (contribute_found_goal_id now user sel c s g Huniq Hlook) as [Hfind Hrun].
  destruct (after_lookup_accepts now user c g (Doc._id g) (ledger_goal_id sel g) s
              Hfind Hpos Hle Htarget) as (_ & r & Hr & Hal).
  rewrite document_to_response_of in Hr. injection Hr as <-.
  rewrite (update_one_replaced _ _ _ _ g Huniq Hfind), write_contributed in Hal
    by exact Hpos.
  cbn [fst] in Hal.
  rewrite Hrun. unfold try_except. rewrite Hal. reflexivity.
Qed.



(** ** [create_goal]: failures, and the main flag *)

Lemma create_goal_fresh (now : datetime) (inserted_id : oid) (user : string)
  (goal_data : GoalCreate.t) (s : GoalOperations.self) :
  ~ In inserted_id (map Doc._id (GoalOperations.collection s)) ->
  GoalOperations.create_goal now inserted_id user goal_data s
  = (Returns (response_of (new_goal_doc now inserted_id user goal_data)),
     GoalOperations.mk
       (GoalOperations.collection s ++ [new_goal_doc now inserted_id user goal_data])
       (GoalOperations.transactions_collection s)).
Proof.
  intro Hfresh.
  unfold GoalOperations.create_goal, try_except, bind, lift,
    GoalOperations.insert_one, GoalOperations.find_one, Collection.insert_one.
  cbn [Doc._id GoalOperations.collection GoalOperations.transactions_collection].
  rewrite (fresh_id_not_existing _ _ Hfresh). cbn [fst snd GoalOperations.collection].
  rewrite find_one_app_new.
  - reflexivity.
  - unfold by_id. apply fresh_id_no_match. exact Hfresh.
  - apply String.eqb_refl.
Qed.

Lemma existing_id_found (c : Collection.t) (doc : Doc.t) :
  In (Doc._id doc) (map Doc._id c) ->
  existsb (fun d => String.eqb (Doc._id d) (Doc._id doc)) c = true.
Proof.
  intro Hin. apply in_map_iff in Hin. destruct Hin as (d & Hd & Hin).
  apply existsb_exists. exists d. split; [exact Hin|].
  rewrite Hd. apply String.eqb_refl.
Qed.

(** X13: [create_goal] answers in one of two ways, whatever the request.
    When the id of the new document is not yet stored, operation and handler
    return the goal and the store gains that one document at its end.
    Otherwise the insert fails, the operation raises [ValueError] with its
    own text, the handler answers 400 (never 500: every exception of the
    operation is turned into a [ValueError]), and nothing is written. *)
Theorem create_goal_answers (now : datetime) (inserted_id : oid) (user : string)
  (goal_data : GoalCreate.t) (s : GoalOperations.self) :
  let created := new_goal_doc now inserted_id user goal_data in
  let s' := GoalOperations.mk (GoalOperations.collection s ++ [created])
              (GoalOperations.transactions_collection s) in
  (~ In inserted_id (map Doc._id (GoalOperations.collection s))
   /\ GoalOperations.create_goal now inserted_id user goal_data s
      = (Returns (response_of created), s')
   /\ RoutersCrud.create_goal now inserted_id goal_data user s
      = (Returns (response_of created), s'))
  \/ (In inserted_id (map Doc._id (GoalOperations.collection s))
      /\ GoalOperations.create_goal now inserted_id user goal_data s
         = (Raises (ValueError (Text "Error al crear meta")), s)
      /\ RoutersCrud.create_goal now inserted_id goal_data user s
         = (Raises (HTTPException 400 (Text "Error al crear meta")), s)).
Proof.
  cbv zeta.
  destruct (in_dec string_dec inserted_id (map Doc._id (GoalOperations.collection s)))
    as [Hin|Hfresh].
  - right. split; [exact Hin|].
    assert (Hop : GoalOperations.create_goal now inserted_id user goal_data s
                  = (Raises (ValueError (Text "Error al crear meta")), s)).
    { unfold GoalOperations.create_goal, try_except, bind, lift,
        GoalOperations.insert_one, Collection.insert_one.
      rewrite existing_id_found by exact Hin.
      cbn [fst snd]. unfold raise. rewrite self_eta. reflexivity. }
    split; [exact Hop|].
    unfold RoutersCrud.create_goal, try_except. rewrite Hop. reflexivity.
  - left. split; [exact Hfresh|].
    pose proof (create_goal_fresh now inserted_id user goal_data s Hfresh) as Hop.
    split; [exact Hop|].
    unfold RoutersCrud.create_goal, try_except. rewrite Hop. reflexivity.
Qed.

Lemma find_app_found (flt : Doc.t -> bool) (c extra : Collection.t) (g : Doc.t) :
  Collection.find_one flt c = Some g -> Collection.find_one flt (c ++ extra) = Some g.
Proof.
  unfold Collection.find_one. induction c as [|d c IH]; [discriminate|].
  cbn [find app]. destruct (flt d); [auto|exact IH].
Qed.

Lemma find_app_none (flt : Doc.t -> bool) (c extra : Collection.t) :
  Collection.find_one flt c = None ->
  Collection.find_one flt (c ++ extra) = Collection.find_one flt extra.
Proof.
  unfold Collection.find_one. induction c as [|d c IH]; [reflexivity|].
  cbn [find app]. destruct (flt d); [discriminate|exact IH].
Qed.

(** X14: [create_goal] never clears a main flag.  When the user already has
    a main goal, that goal is still the one the main-goal lookup resolves to
    after any creation; if the new goal is flagged as main too, the user then
    has two flagged goals.  When the user has no main goal, the lookup
    resolves to the new goal exactly when it is created with the flag. *)
Theorem create_goal_keeps_main_goal (now : datetime) (inserted_id : oid) (user : string)
  (goal_data : GoalCreate.t) (s : GoalOperations.self) :
  ~ In inserted_id (map Doc._id (GoalOperations.collection s)) ->
  let created := new_goal_doc now inserted_id user goal_data in
  exists s',
    GoalOperations.create_goal now inserted_id user goal_data s
    = (Returns (response_of created), s')
    /\ (forall g, lookup ByMainFlag user (GoalOperations.collection s) = Some g ->
                  lookup ByMainFlag user (GoalOperations.collection s') = Some g
                  /\ Doc._id g <> inserted_id
                  /\ (GoalCreate.is_main goal_data = true ->
                      List.length (filter (main_of_user user) (GoalOperations.collection s'))
                      = S (List.length (filter (main_of_user user)
                                     (GoalOperations.collection s)))))
    /\ (lookup ByMainFlag user (GoalOperations.collection s) = None ->
        lookup ByMainFlag user (GoalOperations.collection s')
        = if GoalCreate.is_main goal_data then Some created else None).
Proof.
  intros Hfresh. cbv zeta. eexists. split; [apply create_goal_fresh; exact Hfresh|].
  cbn [lookup GoalOperations.collection].
  assert (Hmain : main_of_user user (new_goal_doc now inserted_id user goal_data)
                  = GoalCreate.is_main goal_data).
  { unfold main_of_user. cbn [new_goal_doc Doc.user_id Doc.is_main].
    rewrite String.eqb_refl. reflexivity. }
  split.
  - intros g Hg. split; [apply find_app_found; exact Hg|]. split.
    + intro E. apply Hfresh. rewrite <- E. apply in_map.
      apply find_some in Hg. apply Hg.
    + intro Hflag. rewrite filter_app, length_app. cbn [filter].
      rewrite Hmain, Hflag. cbn [List.length]. lia.
  - intro Hnone. rewrite find_app_none by exact Hnone.
    unfold Collection.find_one. cbn [find]. rewrite Hmain.
    destruct (GoalCreate.is_main goal_data); reflexivity.
Qed.

Lemma create_goal_keeps_main_goal_witness :
  exists s',
    GoalOperations.create_goal Sample.now Sample.absent_id Sample.user
      (GoalCreate.mk "Moto" None VEHICLE 1000 0 20500 "COP" false true) Sample.goal_ops
    = (Returns (response_of
                  (new_goal_doc Sample.now Sample.absent_id Sample.user
                     (GoalCreate.mk "Moto" None VEHICLE 1000 0 20500 "COP" false true))), s')
    /\ lookup ByMainFlag Sample.user (GoalOperations.collection s') = Some Sample.trip
    /\ List.length (filter (main_of_user Sample.user) (GoalOperations.collection s')) = 2%nat.
Proof.
  destruct (create_goal_keeps_main_goal Sample.now Sample.absent_id Sample.user
              (GoalCreate.mk "Moto" None VEHICLE 1000 0 20500 "COP" false true)
              Sample.goal_ops) as (s' & Hrun & Hold & _).
  - vm_compute. intros [E|[E|[]]]; discriminate.
  - exists s'. split; [exact Hrun|].
    destruct (Hold Sample.trip eq_refl) as (Hlook & _ & Hcount).
    split; [exact Hlook|]. rewrite (Hcount eq_refl). reflexivity.
Defined.

(** * Properties of the binary64 definitions *)

Module Binary64Facts.

Import Binary64.

#[local] Open Scope float_scope.

(** ** Comparisons of binary64 values *)

(** Swapping the arguments of a comparison reverses its result. *)
Lemma SFcompare_antisym (x y : spec_float) :
  SFcompare y x = option_map CompOpp (SFcompare x y).
Proof.
  destruct x as [sx|sx| |sx mx ex], y as [sy|sy| |sy my ey]; cbn;
    try reflexivity;
    try (destruct sx; reflexivity); try (destruct sy; reflexivity);
    try (destruct sx, sy; reflexivity).
  destruct sx, sy; cbn; try reflexivity;
    rewrite (Z.compare_antisym ex ey);
    destruct (ex ?= ey)%Z; cbn; try reflexivity;
    change (Pos.compare_cont Eq my mx) with (Pos.compare my mx);
    change (Pos.compare_cont Eq mx my) with (Pos.compare mx my);
    rewrite (Pos.compare_antisym mx my); destruct (mx ?= my)%positive; reflexivity.
Qed.

(** [x == x] fails for NaN only. *)
Lemma eqb_refl_not_nan (x : float) : (x =? x) = true -> Prim2SF x <> S754_nan.
Proof.
  rewrite eqb_spec. unfold SFeqb. intros H E. rewrite E in H. discriminate.
Qed.

(** Of two values that are not NaN, the first is at most the second when
    the second is not below the first. *)
Lemma ltb_false_leb (x y : float) :
  (x =? x) = true -> (y =? y) = true -> (y <? x) = false -> (x <=? y) = true.
Proof.
  intros Hx Hy. apply eqb_refl_not_nan in Hx. apply eqb_refl_not_nan in Hy.
  rewrite ltb_spec, leb_spec. unfold SFltb, SFleb.
  rewrite (SFcompare_antisym (Prim2SF x) (Prim2SF y)).
  destruct (Prim2SF x) as [sx|sx| |sx mx ex]; [| |congruence|];
    (destruct (Prim2SF y) as [sy|sy| |sy my ey]; [| |congruence|]);
    destruct (SFcompare _ _) as [[| |]|] eqn:E; cbn; try reflexivity; try discriminate;
    cbn in E; discriminate.
Qed.

(** Two values that compare equal are not ordered either way. *)
Lemma eqb_not_ltb (x y : float) : (x =? y) = true -> (y <? x) = false.
Proof.
  rewrite eqb_spec, ltb_spec. unfold SFeqb, SFltb.
  rewrite (SFcompare_antisym (Prim2SF x) (Prim2SF y)).
  destruct (SFcompare _ _) as [[| |]|]; cbn; congruence.
Qed.

(** A value above 0 and below infinity is a positive finite number. *)
Lemma positive_finite (t : float) :
  (0 <? t) = true -> (t <? infinity) = true ->
  exists m e, Prim2SF t = S754_finite false m e.
Proof.
  rewrite !ltb_spec. unfold SFltb.
  change (Prim2SF 0) with (S754_zero false).
  change (Prim2SF infinity) with (S754_infinity false).
  destruct (Prim2SF t) as [s|s| |s m e]; cbn; try discriminate.
  - destruct s; discriminate.
  - destruct s; [discriminate|]. intros _ _. eauto.
Qed.

(** A value that compares equal to a finite non-zero number is that number. *)
Lemma eqb_finite_eq (x t : float) (s : bool) (m : positive) (e : Z) :
  Prim2SF t = S754_finite s m e -> (x =? t) = true -> x = t.
Proof.
  intros Ht. rewrite eqb_spec, Ht. unfold SFeqb. intro H.
  apply Prim2SF_inj. rewrite Ht.
  destruct (Prim2SF x) as [sx|sx| |sx mx ex]; cbn in H;
    try discriminate; try (destruct s; discriminate); try (destruct sx; discriminate).
  destruct sx, s; try discriminate;
    destruct (ex ?= e)%Z eqn:Ee; try discriminate;
    apply Z.compare_eq in Ee; subst ex;
    change (Pos.compare_cont Eq mx m) with (Pos.compare mx m) in H;
    destruct (mx ?= m)%positive eqn:Em; try discriminate;
    apply Pos.compare_eq in Em; subst mx; reflexivity.
Qed.

(** ** Division of a finite number by itself *)

Lemma SFdiv_self (s : bool) (m : positive) (e : Z) :
  SFdiv prec emax (S754_finite s m e) (S754_finite s m e)
  = S754_finite false 4503599627370496 (-52).
Proof.
  unfold SFdiv, SFdiv_core_binary. cbv zeta.
  replace (Zdigits2 (Z.pos m) + e - (Zdigits2 (Z.pos m) + e))%Z with 0%Z by lia.
  replace (e - e)%Z with 0%Z by lia.
  change (IntDef.Z.min (fexp prec emax 0) 0) with (-53)%Z.
  change (0 - -53)%Z with 53%Z. cbv iota.
  assert (H : IntDef.Z.div_eucl (IntDef.Z.shiftl (Z.pos m) 53) (Z.pos m)
              = (9007199254740992, 0)%Z).
  { change IntDef.Z.div_eucl with Z.div_eucl. change IntDef.Z.shiftl with Z.shiftl.
    rewrite Z.shiftl_mul_pow2 by lia. rewrite Z.mul_comm.
    pose proof (Z.div_mul (2 ^ 53) (Z.pos m) ltac:(lia)) as Hq.
    pose proof (Z.mod_mul (2 ^ 53) (Z.pos m) ltac:(lia)) as Hr.
    unfold Z.div in Hq. unfold Z.modulo in Hr.
    destruct (Z.div_eucl (2 ^ 53 * Z.pos m) (Z.pos m)) as [q r].
    subst q r. reflexivity. }
  rewrite H, xorb_nilpotent.
  replace (new_location (Z.pos m) 0) with loc_Exact
    by (unfold new_location; destruct (IntDef.Z.even (Z.pos m)); reflexivity).
  reflexivity.
Qed.

(** [t / t] is exactly 1 for a positive finite [t]. *)
Lemma div_self (t : float) :
  (0 <? t) = true -> (t <? infinity) = true -> t / t = 1.
Proof.
  intros Hpos Hfin. destruct (positive_finite t Hpos Hfin) as (m & e & Ht).
  apply Prim2SF_inj. rewrite div_spec, Ht.
  unfold SF64div. rewrite SFdiv_self. reflexivity.
Qed.

(** ** Signs of quotients and products *)

Lemma leb_zero_nonneg (x : float) : (0 <=? x) = true -> SFnonneg (Prim2SF x) = true.
Proof.
  rewrite leb_spec. unfold SFleb. change (Prim2SF 0) with (S754_zero false).
  destruct (Prim2SF x) as [s|s| |s m e]; cbn; try reflexivity; try discriminate;
    destruct s; cbn; congruence.
Qed.

Lemma ltb_zero_positive (x : float) : (0 <? x) = true -> SFpositive (Prim2SF x) = true.
Proof.
  rewrite ltb_spec. unfold SFltb. change (Prim2SF 0) with (S754_zero false).
  destruct (Prim2SF x) as [s|s| |s m e]; cbn; try discriminate;
    destruct s; cbn; congruence.
Qed.

Lemma not_negative_ltb_zero (x : float) :
  SFnot_negative (Prim2SF x) = true -> (x <? 0) = false.
Proof.
  rewrite ltb_spec. unfold SFltb. change (Prim2SF 0) with (S754_zero false).
  destruct (Prim2SF x) as [s|s| |s m e]; cbn; try reflexivity;
    destruct s; cbn; congruence.
Qed.

(** Rounding keeps the sign it is given. *)
Lemma binary_round_aux_not_negative (m e : Z) (l : location) :
  SFnot_negative (binary_round_aux prec emax false m e l) = true.
Proof.
  unfold binary_round_aux.
  destruct (shr_fexp prec emax m e l) as [mrs' e'].
  destruct (shr_fexp prec emax _ e' loc_Exact) as [mrs'' e''].
  destruct (shr_m mrs''); [reflexivity| |reflexivity].
  destruct (e'' <=? emax - prec)%Z; reflexivity.
Qed.

Lemma SFdiv_not_negative (x y : spec_float) :
  SFnonneg x = true -> SFpositive y = true ->
  SFnot_negative (SFdiv prec emax x y) = true.
Proof.
  destruct x as [sx|sx| |sx mx ex], y as [sy|sy| |sy my ey]; cbn;
    try discriminate; try reflexivity;
    try (destruct sx; try discriminate); try (destruct sy; try discriminate);
    intros _ _; try reflexivity.
  destruct (SFdiv_core_binary prec emax (Z.pos mx) ex (Z.pos my) ey) as [[mz ez] lz].
  apply binary_round_aux_not_negative.
Qed.

Lemma SFmul_not_negative (x : spec_float) (m : positive) (e : Z) :
  SFnot_negative x = true ->
  SFnot_negative (SFmul prec emax x (S754_finite false m e)) = true.
Proof.
  destruct x as [sx|sx| |sx mx ex]; cbn; try reflexivity;
    destruct sx; try discriminate; intros _; try reflexivity.
  apply binary_round_aux_not_negative.
Qed.

(** [current / target * 100] is not below 0 when [current >= 0] and
    [target > 0]. *)
Lemma percent_not_negative (current target : float) :
  (0 <=? current) = true -> (0 <? target) = true ->
  (current / target * 100 <? 0) = false.
Proof.
  intros Hc Ht. apply not_negative_ltb_zero.
  rewrite mul_spec, div_spec. unfold SF64mul, SF64div.
  change (Prim2SF 100) with (S754_finite false 7036874417766400 (-46)).
  apply SFmul_not_negative, SFdiv_not_negative.
  - apply leb_zero_nonneg. exact Hc.
  - apply ltb_zero_positive. exact Ht.
Qed.

(** ** The minimum *)

(** [min(p, 100.0)] is never above 100, whatever [p] is. *)
Lemma py_min_not_above (p : float) : (100 <? py_min p 100) = false.
Proof.
  unfold py_min. destruct (100 <? p) eqn:E; [reflexivity|exact E].
Qed.

Lemma py_min_not_below (p : float) : (p <? 0) = false -> (py_min p 100 <? 0) = false.
Proof.
  intro H. unfold py_min. destruct (100 <? p); [reflexivity|exact H].
Qed.

(** A result that is not NaN lies at or below 100. *)
Lemma py_min_le_100 (p : float) :
  is_nan (py_min p 100) = false -> (py_min p 100 <=? 100) = true.
Proof.
  unfold is_nan. rewrite negb_false_iff. intro Hn.
  apply ltb_false_leb; [exact Hn|reflexivity|apply py_min_not_above].
Qed.

(** A result that is neither NaN nor below 0 lies at or above 0. *)
Lemma not_below_zero_ge (r : float) :
  is_nan r = false -> (r <? 0) = false -> (0 <=? r) = true.
Proof.
  unfold is_nan. rewrite negb_false_iff. intros Hn Hlt.
  apply ltb_false_leb; [reflexivity|exact Hn|exact Hlt].
Qed.

(** ** The binary64 store: [$set], [find_one] and [update_one] *)

Lemma assign_id64 (a : Doc.assignment) (d : Doc.t) : Doc._id (Doc.assign a d) = Doc._id d.
Proof. destruct a; reflexivity. Qed.

Lemma assign_user_id64 (a : Doc.assignment) (d : Doc.t) :
  Doc.user_id (Doc.assign a d) = Doc.user_id d.
Proof. destruct a; reflexivity. Qed.

Lemma set_id64 (u : list Doc.assignment) (d : Doc.t) : Doc._id (Doc.set u d) = Doc._id d.
Proof.
  unfold Doc.set. revert d.
  induction u as [|a u IH]; intro d; cbn [fold_left].
  - reflexivity.
  - rewrite IH. apply assign_id64.
Qed.

Lemma set_user_id64 (u : list Doc.assignment) (d : Doc.t) :
  Doc.user_id (Doc.set u d) = Doc.user_id d.
Proof.
  unfold Doc.set. revert d.
  induction u as [|a u IH]; intro d; cbn [fold_left].
  - reflexivity.
  - rewrite IH. apply assign_user_id64.
Qed.

Lemma write_id64 (u : list Doc.assignment) (d : Doc.t) :
  Doc._id (fst (Collection.write u d)) = Doc._id d.
Proof.
  unfold Collection.write. destruct (Doc.same _ _); cbn [fst]; [reflexivity | apply set_id64].
Qed.

Lemma write_user_id64 (u : list Doc.assignment) (d : Doc.t) :
  Doc.user_id (fst (Collection.write u d)) = Doc.user_id d.
Proof.
  unfold Collection.write.
  destruct (Doc.same _ _); cbn [fst]; [reflexivity | apply set_user_id64].
Qed.

Lemma by_id_and_user_write64 (o : oid) (user : string) (u : list Doc.assignment)
  (d : Doc.t) :
  by_id_and_user o user (fst (Collection.write u d)) = by_id_and_user o user d.
Proof. unfold by_id_and_user. rewrite write_id64, write_user_id64. reflexivity. Qed.

Lemma by_id_and_user_true64 (o : oid) (user : string) (d : Doc.t) :
  by_id_and_user o user d = true <-> Doc._id d = o /\ Doc.user_id d = user.
Proof.
  unfold by_id_and_user. rewrite andb_true_iff, !String.eqb_eq. reflexivity.
Qed.

Lemma update_one_result64 (flt : Doc.t -> bool) (u : list Doc.assignment)
  (c : Collection.t) :
  snd (Collection.update_one flt u c)
  = match Collection.find_one flt c with
    | Some d => mk_result 1 (snd (Collection.write u d))
    | None => mk_result 0 0
    end.
Proof.
  unfold Collection.find_one.
  induction c as [|d c IH]; cbn [Collection.update_one find].
  - reflexivity.
  - destruct (flt d); cbn [snd]; [reflexivity | exact IH].
Qed.

Lemma find_one_after_update_one64 (flt : Doc.t -> bool) (u : list Doc.assignment)
  (c : Collection.t) :
  (forall d, flt (fst (Collection.write u d)) = flt d) ->
  Collection.find_one flt (fst (Collection.update_one flt u c))
  = option_map (fun d => fst (Collection.write u d)) (Collection.find_one flt c).
Proof.
  intro Hkeep. unfold Collection.find_one.
  induction c as [|d c IH]; cbn [Collection.update_one find].
  - reflexivity.
  - destruct (flt d) eqn:E; cbn [fst find].
    + rewrite Hkeep, E. reflexivity.
    + rewrite E. exact IH.
Qed.

Lemma find_one_by_own_id64 (c : Collection.t) (g : Doc.t) :
  unique_ids c -> In g c ->
  Collection.find_one (by_id_and_user (Doc._id g) (Doc.user_id g)) c = Some g.
Proof.
  unfold unique_ids, Collection.find_one.
  induction c as [|d c IH]; cbn [map find]; intros Hnd Hin.
  - contradiction.
  - inversion Hnd as [|x l Hnotin Hnd']; subst.
    destruct Hin as [-> | Hin].
    + unfold by_id_and_user. rewrite !String.eqb_refl. reflexivity.
    + destruct (by_id_and_user (Doc._id g) (Doc.user_id g) d) eqn:E.
      * apply by_id_and_user_true64 in E. destruct E as [Eid _].
        exfalso. apply Hnotin. rewrite Eid. apply in_map. exact Hin.
      * apply IH; assumption.
Qed.

Lemma main_goal_by_id64 (user : string) (c : Collection.t) (g : Doc.t) :
  unique_ids c ->
  Collection.find_one (main_of_user user) c = Some g ->
  Collection.find_one (by_id_and_user (Doc._id g) user) c = Some g.
Proof.
  intros Hnd Hfind. unfold Collection.find_one in Hfind.
  apply find_some in Hfind. destruct Hfind as [Hin Hmain].
  unfold main_of_user in Hmain. apply andb_true_iff in Hmain.
  destruct Hmain as [Huser _]. apply String.eqb_eq in Huser.
  rewrite <- Huser. apply find_one_by_own_id64; assumption.
Qed.

(** A write that sets [updated_at] to a new instant changes the document. *)
Lemma same_updated_at64 (a b : Doc.t) :
  Doc.same a b = true -> Doc.updated_at a = Doc.updated_at b.
Proof.
  unfold Doc.same. rewrite !andb_true_iff. intro H.
  assert (E : option_eqb datetime_eqb (Doc.updated_at a) (Doc.updated_at b) = true) by tauto.
  destruct (Doc.updated_at a), (Doc.updated_at b); cbn [option_eqb] in E;
    try discriminate; [|reflexivity].
  apply datetime_eqb_eq in E. congruence.
Qed.

Lemma contribution_update_fields64 (now : datetime) (a p : float) (d : Doc.t) :
  let d' := Doc.set (GoalOperations.contribution_update now a p) d in
  Doc.current_amount d' = a
  /\ Doc.target_amount d' = Doc.target_amount d
  /\ Doc.progress_percentage d' = py_min p 100
  /\ Doc.status d' = (if 100 <=? p then COMPLETED else Doc.status d)
  /\ Doc.updated_at d' = Some now.
Proof.
  cbv zeta. unfold GoalOperations.contribution_update.
  destruct (100 <=? p); repeat split.
Qed.

Lemma write_contribution64 (now : datetime) (a p : float) (d : Doc.t) :
  Doc.updated_at d <> Some now ->
  Collection.write (GoalOperations.contribution_update now a p) d
  = (Doc.set (GoalOperations.contribution_update now a p) d, 1%nat).
Proof.
  intro Hnew. unfold Collection.write.
  destruct (Doc.same _ d) eqn:E; [|reflexivity].
  apply same_updated_at64 in E.
  destruct (contribution_update_fields64 now a p d) as (_ & _ & _ & _ & Hu).
  rewrite Hu in E. symmetry in E. contradiction.
Qed.

(** ** The binary64 contribution after its lookup *)

Lemma contribute_to_goal_found64 (now : datetime) (goal_id user : string)
  (c : GoalContribution.t) (s : GoalOperations.self) (o : oid) (g : Doc.t) :
  ObjectId goal_id = Returns o ->
  Collection.find_one (by_id_and_user o user) (GoalOperations.collection s) = Some g ->
  GoalOperations.contribute_to_goal now goal_id user c s
  = try_except (after_lookup now user c g o goal_id) (fun _ => ret None) s.
Proof.
  intros Hid Hfind.
  unfold GoalOperations.contribute_to_goal, try_except, bind, lift, GoalOperations.find_one.
  rewrite Hid, Hfind. reflexivity.
Qed.

Lemma contribute_to_main_goal_found64 (now : datetime) (user : string)
  (c : GoalContribution.t) (s : GoalOperations.self) (g : Doc.t) :
  Collection.find_one (main_of_user user) (GoalOperations.collection s) = Some g ->
  GoalOperations.contribute_to_main_goal now user c s
  = try_except (after_lookup now user c g (Doc._id g) (str_of_oid (Doc._id g)))
               (fun _ => ret None) s.
Proof.
  intro Hfind.
  unfold GoalOperations.contribute_to_main_goal, try_except, bind, GoalOperations.find_one.
  rewrite Hfind. reflexivity.
Qed.

Lemma contribute_found64 (now : datetime) (user : string) (sel : selector)
  (c : GoalContribution.t) (s : GoalOperations.self) (g : Doc.t) :
  unique_ids (GoalOperations.collection s) ->
  lookup sel user (GoalOperations.collection s) = Some g ->
  exists goal_id : string,
    Collection.find_one (by_id_and_user (Doc._id g) user) (GoalOperations.collection s)
    = Some g
    /\ contribute now user sel c s
       = try_except (after_lookup now user c g (Doc._id g) goal_id) (fun _ => ret None) s.
Proof.
  intros Hnd Hlook. destruct sel as [|goal_id]; cbn [lookup contribute] in *.
  - exists (str_of_oid (Doc._id g)). split.
    + apply main_goal_by_id64; assumption.
    + apply contribute_to_main_goal_found64. exact Hlook.
  - destruct (ObjectId goal_id) as [o|e] eqn:Hid; [|discriminate].
    assert (Ho : Doc._id g = o).
    { apply find_some in Hlook. destruct Hlook as [_ Hg].
      apply by_id_and_user_true64 in Hg. apply Hg. }
    rewrite Ho. exists goal_id. split.
    + exact Hlook.
    + apply contribute_to_goal_found64; assumption.
Qed.

(** An amount the capacity check refuses raises before any write. *)
Lemma after_lookup_rejects64 (now : datetime) (user : string) (c : GoalContribution.t)
  (g : Doc.t) (o : oid) (goal_id : string) (s : GoalOperations.self) :
  (Doc.target_amount g - Doc.current_amount g <? GoalContribution.amount c) = true ->
  after_lookup now user c g o goal_id s
  = (Raises (ValueError (ExceedsRemaining64 (GoalContribution.amount c)
                           (Doc.target_amount g - Doc.current_amount g))), s).
Proof.
  intro H. unfold after_lookup. rewrite H. reflexivity.
Qed.

Lemma lookup_by_id_not_main_goal64 (goal_id user : string) (c : Collection.t)
  (g : Doc.t) :
  lookup (ById goal_id) user c = Some g -> String.eqb goal_id "main-goal" = false.
Proof.
  intro H. destruct (String.eqb_spec goal_id "main-goal") as [->|]; [|reflexivity].
  vm_compute in H. discriminate.
Qed.

Lemma contribute_endpoint_returns64 (now : datetime) (user : string) (sel : selector)
  (c : GoalContribution.t) (s s' : GoalOperations.self) (g : Doc.t) (r : GoalResponse.t) :
  lookup sel user (GoalOperations.collection s) = Some g ->
  contribute now user sel c s = (Returns (Some r), s') ->
  contribute_endpoint now user sel c s = (Returns r, s').
Proof.
  intros Hlook Hop. destruct sel as [|goal_id]; cbn [contribute contribute_endpoint] in *.
  - unfold Routers.contribute_to_main_goal, try_except, bind. rewrite Hop. reflexivity.
  - unfold Routers.contribute_to_goal, try_except.
    rewrite (lookup_by_id_not_main_goal64 _ _ _ _ Hlook).
    unfold bind. rewrite Hop. reflexivity.
Qed.

Lemma contribute_endpoint_none64 (now : datetime) (user : string) (sel : selector)
  (c : GoalContribution.t) (s s' : GoalOperations.self) (g : Doc.t) :
  lookup sel user (GoalOperations.collection s) = Some g ->
  contribute now user sel c s = (Returns None, s') ->
  contribute_endpoint now user sel c s
  = (Raises (HTTPException 500
               (Text match sel with
                     | ByMainFlag => "Error al realizar abono a meta principal"
                     | ById _ => "Error al realizar abono"
                     end)), s').
Proof.
  intros Hlook Hop. destruct sel as [|goal_id]; cbn [contribute contribute_endpoint] in *.
  - unfold Routers.contribute_to_main_goal, try_except, bind. rewrite Hop. reflexivity.
  - unfold Routers.contribute_to_goal, try_except.
    rewrite (lookup_by_id_not_main_goal64 _ _ _ _ Hlook).
    unfold bind. rewrite Hop. reflexivity.
Qed.

Lemma contribute_rejects64 (now : datetime) (user : string) (sel : selector)
  (c : GoalContribution.t) (s : GoalOperations.self) (g : Doc.t) :
  lookup sel user (GoalOperations.collection s) = Some g ->
  (Doc.target_amount g - Doc.current_amount g <? GoalContribution.amount c) = true ->
  contribute now user sel c s = (Returns None, s).
Proof.
  intros Hlook Hover. destruct sel as [|goal_id]; cbn [lookup contribute] in *.
  - rewrite (contribute_to_main_goal_found64 _ _ _ _ _ Hlook).
    unfold try_except. rewrite after_lookup_rejects64 by exact Hover. reflexivity.
  - destruct (ObjectId goal_id) as [o|e] eqn:Hid; [|discriminate].
    rewrite (contribute_to_goal_found64 _ _ _ _ _ _ _ Hid Hlook).
    unfold try_except. rewrite after_lookup_rejects64 by exact Hover. reflexivity.
Qed.

(** An amount the capacity check lets through is written, entered in the
    ledger when the ledger takes it, and the stored document is returned. *)
Lemma after_lookup_accepts64 (now : datetime) (user : string) (c : GoalContribution.t)
  (g : Doc.t) (o : oid) (goal_id : string) (s : GoalOperations.self) :
  Collection.find_one (by_id_and_user o user) (GoalOperations.collection s) = Some g ->
  (Doc.target_amount g - Doc.current_amount g <? GoalContribution.amount c) = false ->
  (Doc.target_amount g =? 0) = false ->
  Doc.updated_at g <> Some now ->
  let new_amount :=
    if Doc.target_amount g <? Doc.current_amount g + GoalContribution.amount c
    then Doc.target_amount g
    else Doc.current_amount g + GoalContribution.amount c in
  let upd :=
    GoalOperations.contribution_update now new_amount
      (new_amount / Doc.target_amount g * 100) in
  let s' :=
    GoalOperations.mk
      (fst (Collection.update_one (by_id_and_user o user) upd (GoalOperations.collection s)))
      (ledger_after (GoalOperations.transaction_doc now user c g goal_id)
                    (GoalOperations.transactions_collection s)) in
  Collection.find_one (by_id_and_user o user) (GoalOperations.collection s')
  = Some (Doc.set upd g)
  /\ after_lookup now user c g o goal_id s = (Returns (Some (response_of (Doc.set upd g))), s').
Proof.
  intros Hfind Hcap Hnz Hnew. cbv zeta.
  set (new_amount := if Doc.target_amount g <? _ then _ else _).
  set (upd := GoalOperations.contribution_update _ _ _).
  assert (Hafter :
    Collection.find_one (by_id_and_user o user)
      (fst (Collection.update_one (by_id_and_user o user) upd (GoalOperations.collection s)))
    = Some (Doc.set upd g)).
  { rewrite find_one_after_update_one64 by (intro d; apply by_id_and_user_write64).
    rewrite Hfind. cbn [option_map]. unfold upd. rewrite write_contribution64 by exact Hnew.
    reflexivity. }
  split; [exact Hafter|].
  unfold after_lookup. rewrite Hcap. fold new_amount.
  unfold truediv. rewrite Hnz.
  unfold bind, lift, GoalOperations.update_one. fold upd.
  rewrite update_one_result64, Hfind. unfold upd at 1.
  rewrite write_contribution64 by exact Hnew.
  cbn [snd modified_count Nat.eqb].
  unfold GoalOperations.has_transactions_collection, GoalOperations.find_one,
    GoalOperations.transactions_insert_one, try_except, ret.
  cbn [GoalOperations.collection GoalOperations.transactions_collection].
  destruct (GoalOperations.transactions_collection s) as [tc|];
    cbn [ledger_after GoalOperations.collection GoalOperations.transactions_collection].
  - destruct (reachable tc); cbn [GoalOperations.collection];
      fold upd; rewrite Hafter; reflexivity.
  - fold upd. rewrite Hafter. reflexivity.
Qed.

Lemma contribute_accepts64 (now : datetime) (user : string) (sel : selector)
  (c : GoalContribution.t) (s : GoalOperations.self) (g : Doc.t) :
  unique_ids (GoalOperations.collection s) ->
  lookup sel user (GoalOperations.collection s) = Some g ->
  (Doc.target_amount g - Doc.current_amount g <? GoalContribution.amount c) = false ->
  (Doc.target_amount g =? 0) = false ->
  Doc.updated_at g <> Some now ->
  let new_amount :=
    if Doc.target_amount g <? Doc.current_amount g + GoalContribution.amount c
    then Doc.target_amount g
    else Doc.current_amount g + GoalContribution.amount c in
  let g' :=
    Doc.set (GoalOperations.contribution_update now new_amount
               (new_amount / Doc.target_amount g * 100)) g in
  exists s',
    contribute now user sel c s = (Returns (Some (response_of g')), s')
    /\ contribute_endpoint now user sel c s = (Returns (response_of g'), s')
    /\ Collection.find_one (by_id_and_user (Doc._id g) user) (GoalOperations.collection s')
       = Some g'.
Proof.
  intros Hnd Hlook Hcap Hnz Hnew. cbv zeta.
  destruct (contribute_found64 now user sel c s g Hnd Hlook) as (goal_id & Hfind & Heq).
  destruct (after_lookup_accepts64 now user c g (Doc._id g) goal_id s Hfind Hcap Hnz Hnew)
    as (Hstored & Hrun).
  cbv zeta in Hstored, Hrun.
  eexists. split; [|split].
  - rewrite Heq. unfold try_except. rewrite Hrun. reflexivity.
  - apply (contribute_endpoint_returns64 now user sel c s _ g _ Hlook).
    rewrite Heq. unfold try_except. rewrite Hrun. reflexivity.
  - exact Hstored.
Qed.

(** A value above zero is not zero. *)
Lemma ltb_zero_not_eqb (t : float) : (0 <? t) = true -> (t =? 0) = false.
Proof.
  rewrite ltb_spec, eqb_spec. unfold SFltb, SFeqb.
  rewrite (SFcompare_antisym (Prim2SF 0) (Prim2SF t)).
  destruct (SFcompare _ _) as [[| |]|]; cbn; congruence.
Qed.

(** ** C7: the progress calculation *)

(** C7, as amended: on every pair of binary64 values
    [Goal.calculate_progress] returns 0 when [target == 0] and
    [min(current/target*100, 100)] for every other target, negative ones
    included; the initial progress of [create_goal] is 0 unless
    [target > 0], and [min(current/target*100, 100)] then; neither is ever
    above 100, and neither is below 0 when [current >= 0] and [target > 0];
    so a result that is not NaN is at most 100, and at least 0 when
    [current >= 0] and [target > 0]. *)
Theorem progress_calculation (current target : float) :
  ((target =? 0) = true -> calculate_progress current target = 0)
  /\ ((target =? 0) = false ->
      calculate_progress current target = py_min (current / target * 100) 100)
  /\ ((0 <? target) = false -> initial_progress current target = 0)
  /\ ((0 <? target) = true ->
      initial_progress current target = py_min (current / target * 100) 100)
  /\ (100 <? calculate_progress current target) = false
  /\ (100 <? initial_progress current target) = false
  /\ ((0 <=? current) = true -> (0 <? target) = true ->
      (calculate_progress current target <? 0) = false
      /\ (initial_progress current target <? 0) = false)
  /\ (is_nan (calculate_progress current target) = false ->
      (calculate_progress current target <=? 100) = true
      /\ ((0 <=? current) = true -> (0 <? target) = true ->
          (0 <=? calculate_progress current target) = true))
  /\ (is_nan (initial_progress current target) = false ->
      (initial_progress current target <=? 100) = true
      /\ ((0 <=? current) = true -> (0 <? target) = true ->
          (0 <=? initial_progress current target) = true)).
Proof.
  assert (Hup : (100 <? calculate_progress current target) = false).
  { unfold calculate_progress. destruct (target =? 0); [reflexivity|].
    apply py_min_not_above. }
  assert (Hlow : (0 <=? current) = true -> (0 <? target) = true ->
                 (calculate_progress current target <? 0) = false
                 /\ (initial_progress current target <? 0) = false).
  { intros Hc Ht. unfold calculate_progress, initial_progress.
    rewrite (ltb_zero_not_eqb target Ht), Ht.
    split; apply py_min_not_below, percent_not_negative; assumption. }
  repeat split.
  - intro H. unfold calculate_progress. rewrite H. reflexivity.
  - intro H. unfold calculate_progress. rewrite H. reflexivity.
  - intro H. unfold initial_progress. rewrite H. reflexivity.
  - intro H. unfold initial_progress. rewrite H. reflexivity.
  - exact Hup.
  - apply py_min_not_above.
  - apply Hlow; assumption.
  - apply Hlow; assumption.
  - unfold is_nan in H. rewrite negb_false_iff in H.
    apply ltb_false_leb; [exact H|reflexivity|exact Hup].
  - intros Hc Ht. apply not_below_zero_ge; [exact H|]. apply Hlow; assumption.
  - apply py_min_le_100. exact H.
  - intros Hc Ht. apply not_below_zero_ge; [exact H|]. apply Hlow; assumption.
Qed.

(** ** C5: a refused contribution writes nothing *)

(** C5, as amended: a contribution the capacity check refuses, that is an
    amount above [target_amount - current_amount] as binary64 computes the
    difference, leaves the whole store as it was, goals and ledger alike,
    under either selector, for the operation and for the handler. *)
Theorem over_capacity_contribution_writes_nothing (now : datetime) (user : string)
  (sel : selector) (c : GoalContribution.t) (s : GoalOperations.self) (g : Doc.t) :
  lookup sel user (GoalOperations.collection s) = Some g ->
  (Doc.target_amount g - Doc.current_amount g <? GoalContribution.amount c) = true ->
  snd (contribute now user sel c s) = s
  /\ snd (contribute_endpoint now user sel c s) = s
  /\ lookup sel user (GoalOperations.collection (snd (contribute now user sel c s))) = Some g.
Proof.
  intros Hlook Hover.
  pose proof (contribute_rejects64 now user sel c s g Hlook Hover) as Hop.
  rewrite (contribute_endpoint_none64 now user sel c s s g Hlook Hop), Hop. cbn [snd].
  repeat split. exact Hlook.
Qed.

(** C5 at the goal with target 500,000 and 100,000 saved, contribution
    450,000 through the main-goal selector. *)
Lemma over_capacity_contribution_writes_nothing_witness :
  let s := Cases.goal_ops (Cases.goal 500000 100000 20 ACTIVE) in
  snd (contribute Sample.now Sample.user ByMainFlag (Cases.abono 450000) s) = s
  /\ snd (contribute_endpoint Sample.now Sample.user ByMainFlag (Cases.abono 450000) s) = s
  /\ lookup ByMainFlag Sample.user
       (GoalOperations.collection
          (snd (contribute Sample.now Sample.user ByMainFlag (Cases.abono 450000) s)))
     = Some (Cases.goal 500000 100000 20 ACTIVE).
Proof.
  apply (over_capacity_contribution_writes_nothing Sample.now Sample.user ByMainFlag
           (Cases.abono 450000) (Cases.goal_ops (Cases.goal 500000 100000 20 ACTIVE))
           (Cases.goal 500000 100000 20 ACTIVE)).
  - reflexivity.
  - reflexivity.
Defined.

(** C5, counterexample: a goal with target 1 and [2^-60] saved, and a
    contribution of 1.  The remaining capacity is below 1, the saved amount
    being above 0, so the amount is strictly greater than it; but the
    difference [1 - 2^-60] rounds to 1, the capacity check lets the amount
    through, and the call writes: the goal is stored with 1 saved, progress
    100 and status completed, and the ledger gains the entry. *)
Lemma amount_above_exact_remaining_is_written :
  let g := Cases.goal 1 0x1p-60 0 ACTIVE in
  let c := Cases.abono 1 in
  let written :=
    Doc.set [Doc.set_current_amount 1; Doc.set_updated_at Sample.now;
             Doc.set_progress_percentage 100; Doc.set_status COMPLETED] g in
  (0 <? Doc.current_amount g) = true
  /\ GoalContribution.amount c = Doc.target_amount g
  /\ (Doc.target_amount g - Doc.current_amount g <? GoalContribution.amount c) = false
  /\ contribute Sample.now Sample.user ByMainFlag c (Cases.goal_ops g)
     = (Returns (Some (response_of written)),
        GoalOperations.mk [written]
          (Some (mk_transactions
                   [GoalOperations.transaction_doc Sample.now Sample.user c g Sample.id_a]
                   true)))
  /\ Doc.current_amount written <> Doc.current_amount g
  /\ Doc.status written <> Doc.status g.
Proof.
  cbv zeta.
  split; [reflexivity|]. split; [reflexivity|]. split; [reflexivity|].
  split; [vm_compute; reflexivity|].
  split; [|discriminate].
  intro H. apply (f_equal (fun x => x =? 1)) in H. vm_compute in H. discriminate.
Qed.

(** ** C4: contributing the remaining amount *)




End Binary64Facts.
